(** * Travel assistant: turn orchestration, routing, trust filter, recovery

    A shallow embedding of the dialogue core of the travel assistant
    (backend/models, backend/utils, backend/core), of the deterministic
    part of its intent classifier (backend/llm) and of the checks its two
    clients make before they call out (backend/tools), together with the
    properties its specification states about it and further properties
    of the code.

    Modelling conventions.
    - Python [str] is a list of Unicode code points.  Character
      classification ([\w], [\d], [str.lower], [str.isalpha]) is the one
      CPython gives on U+0000..U+007F; code points above that range are
      treated as symbols (no letter, no digit, unchanged by [lower]), which
      is what CPython answers for the non-ASCII characters the program
      itself writes (the currency signs, the degree sign, typographic
      quotes).  White space is the full CPython table.
    - Regular expressions are abstract syntax run by a backtracking matcher
      with the priorities of [re]: leftmost start, first alternative first,
      greedy repetition.
    - A [float] amount is the exact rational the decimal numeral denotes;
      binary rounding is not modelled.
    - Exceptions are explicit: fallible code returns [result].
    - Time stamps are left out; [date.today()] is read from the
      environment of the turn.
    - The language model, the response generator and the two HTTP tools
      are collaborators: their answers come from the environment record of
      a turn and may be any value or any exception. *)

From Stdlib Require Import String Ascii.
From Stdlib Require Import List NArith ZArith QArith Bool Lia.
Import ListNotations.

Set Implicit Arguments.
Set Warnings "-register-all".

(** ** Text *)

Module Text.

Local Open Scope N_scope.

Definition char := N.
Definition str := list char.

(** Decoder for the UTF-8 bytes of a literal of this file. *)
Fixpoint utf8 (s : string) : str :=
  match s with
  | EmptyString => []
  | String a s1 =>
    let b0 := N_of_ascii a in
    if b0 <? 128 then b0 :: utf8 s1
    else
      match s1 with
      | EmptyString => []
      | String b s2 =>
        let b1 := N_of_ascii b - 128 in
        if b0 <? 224 then ((b0 - 192) * 64 + b1) :: utf8 s2
        else
          match s2 with
          | EmptyString => []
          | String c s3 =>
            let b2 := N_of_ascii c - 128 in
            if b0 <? 240 then ((b0 - 224) * 4096 + b1 * 64 + b2) :: utf8 s3
            else
              match s3 with
              | EmptyString => []
              | String d s4 =>
                let b3 := N_of_ascii d - 128 in
                ((b0 - 240) * 262144 + b1 * 4096 + b2 * 64 + b3) :: utf8 s4
              end
          end
      end
  end.

Definition in_range (x lo hi : char) : bool := (lo <=? x) && (x <=? hi).

Definition in_ranges (x : char) (rs : list (char * char)) : bool :=
  existsb (fun r => in_range x (fst r) (snd r)) rs.

Definition is_upper (c : char) : bool := in_range c 65 90.
Definition is_lower (c : char) : bool := in_range c 97 122.
Definition is_digit (c : char) : bool := in_range c 48 57.
Definition is_alpha (c : char) : bool := is_upper c || is_lower c.

(** [\w]: letters, digits and the underscore. *)
Definition is_word (c : char) : bool := is_alpha c || is_digit c || (c =? 95).

(** White space as [str.isspace], [str.strip] and [\s] see it. *)
Definition space_ranges : list (char * char) :=
  [(9, 13); (28, 32); (133, 133); (160, 160); (5760, 5760); (8192, 8202);
   (8232, 8233); (8239, 8239); (8287, 8287); (12288, 12288)].

Definition is_space (c : char) : bool := in_ranges c space_ranges.

Definition lower_char (c : char) : char := if is_upper c then c + 32 else c.
Definition upper_char (c : char) : char := if is_lower c then c - 32 else c.

Definition lower (s : str) : str := map lower_char s.
Definition upper (s : str) : str := map upper_char s.

Fixpoint lstrip (s : str) : str :=
  match s with
  | c :: s' => if is_space c then lstrip s' else s
  | [] => []
  end.

Definition rstrip (s : str) : str := rev (lstrip (rev s)).
Definition strip (s : str) : str := rstrip (lstrip s).

Fixpoint str_eqb (a b : str) : bool :=
  match a, b with
  | [], [] => true
  | x :: a', y :: b' => (x =? y) && str_eqb a' b'
  | _, _ => false
  end.

Fixpoint strs_eqb (a b : list str) : bool :=
  match a, b with
  | [], [] => true
  | x :: a', y :: b' => str_eqb x y && strs_eqb a' b'
  | _, _ => false
  end.

Fixpoint startswith (p s : str) : bool :=
  match p, s with
  | [], _ => true
  | x :: p', y :: s' => (x =? y) && startswith p' s'
  | _ :: _, [] => false
  end.

Definition endswith (p s : str) : bool := startswith (rev p) (rev s).

(** [p in s] for strings. *)
Fixpoint contains (p s : str) : bool :=
  startswith p s ||
  match s with
  | [] => false
  | _ :: s' => contains p s'
  end.

(** [x in xs] for a list of strings. *)
Definition mem_str (x : str) (xs : list str) : bool := existsb (str_eqb x) xs.

(** [s.replace(p, r)] for a non-empty [p]. *)
Fixpoint replace_fuel (fuel : nat) (p r s : str) : str :=
  match fuel with
  | O => s
  | S f =>
    match s with
    | [] => []
    | c :: s' =>
      if startswith p s then r ++ replace_fuel f p r (skipn (length p) s)
      else c :: replace_fuel f p r s'
    end
  end.

Definition replace (p r s : str) : str :=
  match p with
  | [] => s
  | _ => replace_fuel (S (length s)) p r s
  end.

(** [sep.join(parts)]. *)
Fixpoint join (sep : str) (parts : list str) : str :=
  match parts with
  | [] => []
  | [p] => p
  | p :: ps => p ++ sep ++ join sep ps
  end.

End Text.

Import Text.

(** ** Regular expressions *)

Module Regex.

Local Open Scope N_scope.

(** The fragment of [re] syntax the program uses.  [x?] is [Alt x Eps],
    [x+] is [Seq x (Star x)], bounded repetition is unfolded. *)
Inductive regex : Type :=
| Eps : regex
| Cls : list (char * char) -> regex
| Seq : regex -> regex -> regex
| Alt : regex -> regex -> regex
| Star : regex -> regex
| Grp : nat -> regex -> regex
| WordB : regex.

Definition caps := list (nat * str).

Definition word_at (s : str) : bool :=
  match s with
  | c :: _ => is_word c
  | [] => false
  end.

Section Matcher.

Variable R : Type.

(** Greedy repetition of a matcher [ma]: one more round when it moves
    forward and the rest then succeeds, else stop here.  [n] bounds the
    rounds by the length of the text ahead. *)
Fixpoint star_loop
    (ma : (str -> str -> caps -> option R) -> str -> str -> caps -> option R)
    (k : str -> str -> caps -> option R)
    (n : nat) (l s : str) (c : caps) {struct n} : option R :=
  match n with
  | O => k l s c
  | S n' =>
    match
      ma (fun l' s' c' =>
            if (length s' <? length s)%nat then star_loop ma k n' l' s' c'
            else None)
         l s c
    with
    | Some x => Some x
    | None => k l s c
    end
  end.

(** Continuation-passing matcher.  [l] is the text already passed
    (reversed), [s] the text ahead, [c] the groups captured so far; the
    first path on which the continuation answers wins. *)
Fixpoint rmatch (r : regex) (k : str -> str -> caps -> option R)
    (l s : str) (c : caps) {struct r} : option R :=
  match r with
  | Eps => k l s c
  | Cls rs =>
    match s with
    | x :: s' => if in_ranges x rs then k (x :: l) s' c else None
    | [] => None
    end
  | Seq a b => rmatch a (rmatch b k) l s c
  | Alt a b =>
    match rmatch a k l s c with
    | Some x => Some x
    | None => rmatch b k l s c
    end
  | Star a => star_loop (rmatch a) k (length s) l s c
  | Grp n a =>
    rmatch a
      (fun l' s' c' =>
         k l' s' ((n, firstn (length s - length s') s) :: c'))
      l s c
  | WordB => if xorb (word_at l) (word_at s) then k l s c else None
  end.

End Matcher.

(** Outcome of a successful match: the text before the match (reversed),
    the matched text, the text after it, and the groups. *)
Record rmatch_result := {
  m_before : str;
  m_text : str;
  m_after : str;
  m_caps : caps
}.

Definition match_here (r : regex) (l s : str) : option rmatch_result :=
  rmatch r
    (fun _ s' c' =>
       Some {| m_before := l;
               m_text := firstn (length s - length s') s;
               m_after := s';
               m_caps := c' |})
    l s [].

Fixpoint search_from (r : regex) (l s : str) : option rmatch_result :=
  match match_here r l s with
  | Some m => Some m
  | None =>
    match s with
    | [] => None
    | x :: s' => search_from r (x :: l) s'
    end
  end.

(** [re.search(r, s)]. *)
Definition search (r : regex) (s : str) : option rmatch_result :=
  search_from r [] s.

(** [bool(re.search(r, s))]. *)
Definition found (r : regex) (s : str) : bool :=
  match search r s with
  | Some _ => true
  | None => false
  end.

(** [m.group(n)] for a group that took part in the match. *)
Fixpoint group (n : nat) (c : caps) : str :=
  match c with
  | [] => []
  | (i, v) :: c' => if Nat.eqb i n then v else group n c'
  end.

(** [re.sub(r, repl, s)] for a pattern that matches no empty text. *)
Fixpoint sub_fuel (fuel : nat) (r : regex) (repl l s : str) : str :=
  match fuel with
  | O => s
  | S f =>
    match match_here r l s, s with
    | Some m, x :: s' =>
      if (length (m_after m) <? length s)%nat
      then repl ++ sub_fuel f r repl (rev (m_text m) ++ l) (m_after m)
      else x :: sub_fuel f r repl (x :: l) s'
    | None, x :: s' => x :: sub_fuel f r repl (x :: l) s'
    | _, [] => []
    end
  end.

Definition sub (r : regex) (repl s : str) : str :=
  sub_fuel (S (length s)) r repl [] s.

(** Pattern builders. *)
Definition chr (c : char) : regex := Cls [(c, c)].
Definition opt (r : regex) : regex := Alt r Eps.
Definition plus (r : regex) : regex := Seq r (Star r).

Fixpoint seqs (rs : list regex) : regex :=
  match rs with
  | [] => Eps
  | [r] => r
  | r :: rs' => Seq r (seqs rs')
  end.

Fixpoint alts (rs : list regex) : regex :=
  match rs with
  | [] => Cls []
  | [r] => r
  | r :: rs' => Alt r (alts rs')
  end.

Definition lit (s : str) : regex := seqs (map chr s).
Definition word (s : string) : regex := lit (utf8 s).

Definition digit : regex := Cls [(48, 57)].          (* \d *)
Definition space : regex := Cls space_ranges.        (* \s *)
Definition anychar : regex := Cls [(0, 9); (11, 1114111)].   (* . *)

(** [re.IGNORECASE]: every class also accepts the other case of its
    letters. *)
Definition swap_case_range (r : char * char) : list (char * char) :=
  let lo := fst r in
  let hi := snd r in
  (if (N.max lo 65 <=? N.min hi 90)
   then [(N.max lo 65 + 32, N.min hi 90 + 32)] else []) ++
  (if (N.max lo 97 <=? N.min hi 122)
   then [(N.max lo 97 - 32, N.min hi 122 - 32)] else []).

Fixpoint ignorecase (r : regex) : regex :=
  match r with
  | Eps => Eps
  | Cls rs => Cls (rs ++ flat_map swap_case_range rs)
  | Seq a b => Seq (ignorecase a) (ignorecase b)
  | Alt a b => Alt (ignorecase a) (ignorecase b)
  | Star a => Star (ignorecase a)
  | Grp n a => Grp n (ignorecase a)
  | WordB => WordB
  end.

End Regex.

Import Regex.

(** ** backend/utils/currency.py *)

Module Currency.

Local Open Scope N_scope.

(** [_AMOUNT], captured as group [n]:
    [(\d{1,3}(?:,\d{3})*(?:\.\d+)?|\d+(?:\.\d+)?)]. *)
Definition fraction : regex := opt (Seq (chr 46) (plus digit)).

Definition _AMOUNT (n : nat) : regex :=
  Grp n
    (Alt
       (seqs [Seq digit (opt (Seq digit (opt digit)));
              Star (seqs [chr 44; digit; digit; digit]);
              fraction])
       (Seq (plus digit) fraction)).

(** [_TOKEN]: [[A-Za-z$₪€]+]. *)
Definition token_class : list (char * char) :=
  [(65, 90); (97, 122); (36, 36); (8362, 8362); (8364, 8364)].

Definition _TOKEN : regex := plus (Cls token_class).

Definition _ALIASES : list (str * str) :=
  map (fun p => (utf8 (fst p), utf8 (snd p)))
    [("dollar", "USD"); ("dollars", "USD"); ("$", "USD"); ("usd", "USD");
     ("euro", "EUR"); ("euros", "EUR"); ("eur", "EUR"); ("€", "EUR");
     ("shekel", "ILS"); ("shekels", "ILS"); ("nis", "ILS"); ("ils", "ILS");
     ("₪", "ILS");
     ("pound", "GBP"); ("pounds", "GBP"); ("gbp", "GBP");
     ("yen", "JPY"); ("jpy", "JPY")]%string.

Fixpoint dict_get (A : Type) (k : str) (d : list (str * A)) : option A :=
  match d with
  | [] => None
  | (k', v) :: d' => if str_eqb k k' then Some v else dict_get k d'
  end.

Record CurrencyQuery := {
  amount : Q;
  from_ccy : str;
  to_ccy : str
}.

(** Truth value of an [Optional[str]]. *)
Definition truthy (o : option str) : bool :=
  match o with
  | Some (_ :: _) => true
  | _ => false
  end.

Definition opt_str_eqb (a b : option str) : bool :=
  match a, b with
  | Some x, Some y => str_eqb x y
  | None, None => true
  | _, _ => false
  end.

Definition _normalize_currency_token (token : str) : option str :=
  match token with
  | [] => None
  | _ =>
    let t := lower (strip token) in
    (* re.sub(r"[^a-z$₪€]", "", t) *)
    let t :=
      filter (fun c => in_ranges c [(97, 122); (36, 36); (8362, 8362); (8364, 8364)]) t in
    match t with
    | [] => None
    | _ =>
      if Nat.eqb (length t) 3 && forallb is_alpha t then Some (upper t)
      else dict_get t _ALIASES
    end
  end.

(** Value of a run of decimal digits, [None] on any other character. *)
Fixpoint digits_value (acc : N) (s : str) : option N :=
  match s with
  | [] => Some acc
  | c :: s' => if is_digit c then digits_value (acc * 10 + (c - 48)) s' else None
  end.

Fixpoint split_dot (s : str) : str * option str :=
  match s with
  | [] => ([], None)
  | c :: s' =>
    if c =? 46 then ([], Some s')
    else let r := split_dot s' in (c :: fst r, snd r)
  end.

(** [float(s)] on the numerals [_AMOUNT] can capture once the commas are
    gone (digits with an optional fraction); [None] stands for the
    [ValueError] of every other text. *)
Definition py_float (s : str) : option Q :=
  match split_dot s with
  | ([], _) => None
  | (ip, None) =>
    match digits_value 0 ip with
    | Some n => Some (Qred (Z.of_N n # 1))
    | None => None
    end
  | (_, Some []) => None
  | (ip, Some fp) =>
    match digits_value 0 (ip ++ fp) with
    | Some n => Some (Qred (Z.of_N n # Pos.pow 10 (Pos.of_nat (length fp))))
    | None => None
    end
  end.

Definition Qpositive (q : Q) : bool := (0 <? Qnum q)%Z.

Definition _parse_amount_str (raw : str) : option Q :=
  match raw with
  | [] => None
  | _ =>
    match py_float (replace [44] [] raw) with
    | Some val => if Qpositive val then Some val else None
    | None => None
    end
  end.

(** [\bday\s+\d+\b] *)
Definition day_n_re : regex :=
  seqs [WordB; word "day"; plus space; plus digit; WordB].

(** [[$€₪]|usd|eur|ils|gbp|jpy|dollar|euro|shekel|pound|yen] *)
Definition currency_word_re : regex :=
  alts [Cls [(36, 36); (8364, 8364); (8362, 8362)];
        word "usd"; word "eur"; word "ils"; word "gbp"; word "jpy";
        word "dollar"; word "euro"; word "shekel"; word "pound"; word "yen"].

(** [\b{_AMOUNT}\b] *)
Definition amount_only_re : regex := seqs [WordB; _AMOUNT 1; WordB].

Definition parse_currency_amount (text : str) : option Q :=
  match text with
  | [] => None
  | _ =>
    let t := strip text in
    let low := lower t in
    if found day_n_re low && negb (found currency_word_re low) then None
    else
      match search amount_only_re t with
      | None => None
      | Some m => _parse_amount_str (group 1 (m_caps m))
      end
  end.

(** [(?:to|in)] *)
Definition to_or_in : regex := Alt (word "to") (word "in").

(** [({_TOKEN})\s*(?:to|in)\s*({_TOKEN})], IGNORECASE *)
Definition pair_to_re : regex :=
  ignorecase
    (seqs [Grp 1 _TOKEN; Star space; to_or_in; Star space; Grp 2 _TOKEN]).

(** [({_TOKEN})\s*[/\-]\s*({_TOKEN})], IGNORECASE *)
Definition pair_sep_re : regex :=
  ignorecase
    (seqs [Grp 1 _TOKEN; Star space; Cls [(47, 47); (45, 45)]; Star space;
           Grp 2 _TOKEN]).

Definition pair_of_match (m : rmatch_result) : option (str * str) :=
  let a := _normalize_currency_token (group 1 (m_caps m)) in
  let b := _normalize_currency_token (group 2 (m_caps m)) in
  match a, b with
  | Some a', Some b' =>
    if truthy a && truthy b && negb (str_eqb a' b') then Some (a', b') else None
  | _, _ => None
  end.

Definition parse_currency_pair (text : str) : option (str * str) :=
  match text with
  | [] => None
  | _ =>
    let t := strip text in
    let first :=
      match search pair_to_re t with
      | Some m => pair_of_match m
      | None => None
      end in
    match first with
    | Some p => Some p
    | None =>
      match search pair_sep_re t with
      | Some m => pair_of_match m
      | None => None
      end
    end
  end.

(** [\b{_AMOUNT}\b\s*({_TOKEN})\s*(?:to|in)\s*({_TOKEN})], IGNORECASE *)
Definition query_amount_first_re : regex :=
  ignorecase
    (seqs [WordB; _AMOUNT 1; WordB; Star space; Grp 2 _TOKEN; Star space;
           to_or_in; Star space; Grp 3 _TOKEN]).

(** [({_TOKEN})\s*to\s*({_TOKEN})\s*\b{_AMOUNT}\b], IGNORECASE *)
Definition query_pair_first_re : regex :=
  ignorecase
    (seqs [Grp 1 _TOKEN; Star space; word "to"; Star space; Grp 2 _TOKEN;
           Star space; WordB; _AMOUNT 3; WordB]).

Definition query_of_groups (a : option Q) (f t : option str) : option CurrencyQuery :=
  match a, f, t with
  | Some a', Some f', Some t' =>
    if truthy f && truthy t && negb (str_eqb f' t')
    then Some {| amount := a'; from_ccy := f'; to_ccy := t' |}
    else None
  | _, _, _ => None
  end.

Definition parse_currency_query (text : str) : option CurrencyQuery :=
  match text with
  | [] => None
  | _ =>
    let t := strip text in
    let first :=
      match search query_amount_first_re t with
      | Some m =>
        query_of_groups
          (_parse_amount_str (group 1 (m_caps m)))
          (_normalize_currency_token (group 2 (m_caps m)))
          (_normalize_currency_token (group 3 (m_caps m)))
      | None => None
      end in
    match first with
    | Some q => Some q
    | None =>
      match search query_pair_first_re t with
      | Some m =>
        query_of_groups
          (_parse_amount_str (group 3 (m_caps m)))
          (_normalize_currency_token (group 1 (m_caps m)))
          (_normalize_currency_token (group 2 (m_caps m)))
      | None => None
      end
    end
  end.

End Currency.

Import Currency.

(** ** Calendar dates ([datetime.date]) *)

Module Dates.

Local Open Scope Z_scope.

Record date := {
  year : Z;
  month : Z;
  day : Z
}.

Definition is_leap (y : Z) : bool :=
  (y mod 4 =? 0) && (negb (y mod 100 =? 0) || (y mod 400 =? 0)).

Definition days_in_month (y m : Z) : Z :=
  if m =? 2 then (if is_leap y then 29 else 28)
  else if (m =? 4) || (m =? 6) || (m =? 9) || (m =? 11) then 30
  else 31.

Definition valid_date (y m d : Z) : bool :=
  (1 <=? y) && (y <=? 9999) && (1 <=? m) && (m <=? 12) &&
  (1 <=? d) && (d <=? days_in_month y m).

(** [date(y, m, d)]; [None] is the [ValueError] of an impossible date. *)
Definition mk_date (y m d : Z) : option date :=
  if valid_date y m d then Some {| year := y; month := m; day := d |} else None.

(** [d.replace(year=y)] *)
Definition replace_year (d : date) (y : Z) : option date :=
  mk_date y (month d) (day d).

Definition days_before_year (y : Z) : Z :=
  let p := y - 1 in p * 365 + p / 4 - p / 100 + p / 400.

Definition days_before_month (y m : Z) : Z :=
  fold_left (fun acc k => acc + days_in_month y (Z.of_nat k))
    (seq 1 (Z.to_nat (m - 1))) 0.

Definition toordinal (d : date) : Z :=
  days_before_year (year d) + days_before_month (year d) (month d) + day d.

(** [(a - b).days] *)
Definition days_between (a b : date) : Z := toordinal a - toordinal b.

(** [a < b] *)
Definition date_ltb (a b : date) : bool :=
  (year a <? year b) ||
  ((year a =? year b) &&
   ((month a <? month b) || ((month a =? month b) && (day a <? day b)))).

Definition digits_of (s : str) : option Z :=
  match digits_value 0 s with
  | Some n => Some (Z.of_N n)
  | None => None
  end.

(** [date.fromisoformat(s)] on the form [YYYY-MM-DD]; [None] is the
    [ValueError] of any other text. *)
Definition fromisoformat (s : str) : option date :=
  match s with
  | [y1; y2; y3; y4; d1; m1; m2; d2; a1; a2] =>
    if (N.eqb d1 45 && N.eqb d2 45)%bool then
      match digits_of [y1; y2; y3; y4], digits_of [m1; m2], digits_of [a1; a2] with
      | Some y, Some m, Some d => mk_date y m d
      | _, _, _ => None
      end
    else None
  | _ => None
  end.

End Dates.

Import Dates.

(** ** Exceptions *)

Inductive result (A : Type) : Type :=
| Ok : A -> result A
| Raise : str -> result A.

Arguments Ok {A} _.
Arguments Raise {A} _.

(** ** Dynamically typed values (JSON-like payloads) *)

Inductive pyval : Type :=
| VNone : pyval
| VBool : bool -> pyval
| VInt : Z -> pyval
| VFloat : Q -> pyval
| VStr : str -> pyval
| VDate : date -> pyval
| VList : list pyval -> pyval
| VDict : list (str * pyval) -> pyval.

Definition pydict := list (str * pyval).

(** [d.get(k)] *)
Definition get (k : string) (d : pydict) : pyval :=
  match dict_get (utf8 k) d with
  | Some v => v
  | None => VNone
  end.

(** ** backend/models *)

Module Models.

Inductive Intent : Type :=
| ITINERARY_PLANNING
| ATTRACTIONS_RECOMMENDATIONS
| PACKING_LIST
| WEATHER_QUERY
| CURRENCY_CONVERSION
| CONSTRAINTS_UPDATE
| CLARIFICATION_NEEDED
| OUT_OF_SCOPE.

Definition intent_eqb (a b : Intent) : bool :=
  match a, b with
  | ITINERARY_PLANNING, ITINERARY_PLANNING
  | ATTRACTIONS_RECOMMENDATIONS, ATTRACTIONS_RECOMMENDATIONS
  | PACKING_LIST, PACKING_LIST
  | WEATHER_QUERY, WEATHER_QUERY
  | CURRENCY_CONVERSION, CURRENCY_CONVERSION
  | CONSTRAINTS_UPDATE, CONSTRAINTS_UPDATE
  | CLARIFICATION_NEEDED, CLARIFICATION_NEEDED
  | OUT_OF_SCOPE, OUT_OF_SCOPE => true
  | _, _ => false
  end.

(** [intent.value] *)
Definition intent_value (i : Intent) : str :=
  utf8
    match i with
    | ITINERARY_PLANNING => "itinerary_planning"
    | ATTRACTIONS_RECOMMENDATIONS => "attractions_recommendations"
    | PACKING_LIST => "packing_list"
    | WEATHER_QUERY => "weather_query"
    | CURRENCY_CONVERSION => "currency_conversion"
    | CONSTRAINTS_UPDATE => "constraints_update"
    | CLARIFICATION_NEEDED => "clarification_needed"
    | OUT_OF_SCOPE => "out_of_scope"
    end%string.

(** [x in _GOAL_INTENTS] *)
Definition is_goal (i : Intent) : bool :=
  match i with
  | ITINERARY_PLANNING | ATTRACTIONS_RECOMMENDATIONS | PACKING_LIST
  | WEATHER_QUERY | CURRENCY_CONVERSION => true
  | _ => false
  end.

Definition opt_is_goal (o : option Intent) : bool :=
  match o with
  | Some i => is_goal i
  | None => false
  end.

Inductive Role : Type := user | assistant | system.

Definition is_user (r : Role) : bool :=
  match r with
  | user => true
  | _ => false
  end.

Record Message := {
  role : Role;
  content : str
}.

Record TripProfile := {
  destination : option str;
  start_date : option date;
  end_date : option date;
  duration_days : option Z;
  budget : option str;
  travelers : option str;
  interests : list str;
  pace : option str;
  constraints : list str
}.

(** [TripProfile()] *)
Definition new_profile : TripProfile :=
  {| destination := None; start_date := None; end_date := None;
     duration_days := None; budget := None; travelers := None;
     interests := []; pace := None; constraints := [] |}.

Definition set_destination (v : option str) (p : TripProfile) : TripProfile :=
  {| destination := v; start_date := start_date p; end_date := end_date p;
     duration_days := duration_days p; budget := budget p;
     travelers := travelers p; interests := interests p; pace := pace p;
     constraints := constraints p |}.

Definition set_start_date (v : option date) (p : TripProfile) : TripProfile :=
  {| destination := destination p; start_date := v; end_date := end_date p;
     duration_days := duration_days p; budget := budget p;
     travelers := travelers p; interests := interests p; pace := pace p;
     constraints := constraints p |}.

Definition set_end_date (v : option date) (p : TripProfile) : TripProfile :=
  {| destination := destination p; start_date := start_date p; end_date := v;
     duration_days := duration_days p; budget := budget p;
     travelers := travelers p; interests := interests p; pace := pace p;
     constraints := constraints p |}.

Definition set_duration_days (v : option Z) (p : TripProfile) : TripProfile :=
  {| destination := destination p; start_date := start_date p;
     end_date := end_date p; duration_days := v; budget := budget p;
     travelers := travelers p; interests := interests p; pace := pace p;
     constraints := constraints p |}.

Definition set_budget (v : option str) (p : TripProfile) : TripProfile :=
  {| destination := destination p; start_date := start_date p;
     end_date := end_date p; duration_days := duration_days p; budget := v;
     travelers := travelers p; interests := interests p; pace := pace p;
     constraints := constraints p |}.

Definition set_travelers (v : option str) (p : TripProfile) : TripProfile :=
  {| destination := destination p; start_date := start_date p;
     end_date := end_date p; duration_days := duration_days p;
     budget := budget p; travelers := v; interests := interests p;
     pace := pace p; constraints := constraints p |}.

Definition set_interests (v : list str) (p : TripProfile) : TripProfile :=
  {| destination := destination p; start_date := start_date p;
     end_date := end_date p; duration_days := duration_days p;
     budget := budget p; travelers := travelers p; interests := v;
     pace := pace p; constraints := constraints p |}.

Definition set_pace (v : option str) (p : TripProfile) : TripProfile :=
  {| destination := destination p; start_date := start_date p;
     end_date := end_date p; duration_days := duration_days p;
     budget := budget p; travelers := travelers p; interests := interests p;
     pace := v; constraints := constraints p |}.

Definition set_constraints (v : list str) (p : TripProfile) : TripProfile :=
  {| destination := destination p; start_date := start_date p;
     end_date := end_date p; duration_days := duration_days p;
     budget := budget p; travelers := travelers p; interests := interests p;
     pace := pace p; constraints := v |}.

(** [isinstance(v, str) and v.strip()]: the stripped text when it is a
    non-empty string. *)
Definition stripped_text (v : pyval) : option str :=
  match v with
  | VStr s =>
    match strip s with
    | [] => None
    | t => Some t
    end
  | _ => None
  end.

(** One date field of [apply_updates]: the value to store, if any, or
    the [ValueError] of [date.fromisoformat]. *)
Definition date_update (v : pyval) : result (option date) :=
  match v with
  | VDate d => Ok (Some d)
  | VStr s =>
    match strip s with
    | [] => Ok None
    | t =>
      match fromisoformat t with
      | Some d => Ok (Some d)
      | None => Raise (utf8 "ValueError: Invalid isoformat string")
      end
    end
  | _ => Ok None
  end.

(** The loops over [interests] and [constraints]: append each stripped,
    non-empty string that is not yet in the list. *)
Fixpoint merge_strings (cur : list str) (items : list pyval) : list str :=
  match items with
  | [] => cur
  | VStr s :: rest =>
    let cleaned := strip s in
    match cleaned with
    | [] => merge_strings cur rest
    | _ =>
      if mem_str cleaned cur then merge_strings cur rest
      else merge_strings (cur ++ [cleaned]) rest
    end
  | _ :: rest => merge_strings cur rest
  end.

Definition merge_field (cur : list str) (v : pyval) : list str :=
  match v with
  | VList items => merge_strings cur items
  | _ => cur
  end.

Definition text_update (v : pyval) (old : option str) : option str :=
  match stripped_text v with
  | Some t => Some t
  | None => old
  end.

(** The value a field holds after an optional assignment. *)
Definition assigned (A : Type) (new old : option A) : option A :=
  match new with
  | Some _ => new
  | None => old
  end.

(** [TripProfile.apply_updates].  The profile is mutated in place, field
    after field, so the profile reached is returned also when a date fails
    to parse: the fields assigned before the failure keep their new value. *)
Definition apply_updates (self : TripProfile) (updates : pydict)
  : TripProfile * result unit :=
  match updates with
  | [] => (self, Ok tt)
  | _ =>
    let dest := text_update (get "destination" updates) (destination self) in
    match date_update (get "start_date" updates) with
    | Raise e => (set_destination dest self, Raise e)
    | Ok sd =>
      let start := assigned sd (start_date self) in
      match date_update (get "end_date" updates) with
      | Raise e => (set_start_date start (set_destination dest self), Raise e)
      | Ok ed =>
        ({| destination := dest;
            start_date := start;
            end_date := assigned ed (end_date self);
            duration_days :=
              match get "duration_days" updates with
              | VInt z => Some z
              | VBool b => Some (if b then 1%Z else 0%Z)
              | _ => duration_days self
              end;
            budget := text_update (get "budget" updates) (budget self);
            travelers := text_update (get "travelers" updates) (travelers self);
            interests := merge_field (interests self) (get "interests" updates);
            pace := text_update (get "pace" updates) (pace self);
            constraints := merge_field (constraints self) (get "constraints" updates) |},
         Ok tt)
      end
    end
  end.

Record State := {
  session_id : str;
  trip_profile : TripProfile;
  conversation_history : list Message;
  last_intent : option Intent;
  primary_intent : option Intent;
  turn_count : Z;
  pending_missing_info : list str
}.

(** [State(session_id=sid)] *)
Definition new_state (sid : str) : State :=
  {| session_id := sid; trip_profile := new_profile;
     conversation_history := []; last_intent := None;
     primary_intent := None; turn_count := 0;
     pending_missing_info := [] |}.

Definition set_trip_profile (v : TripProfile) (s : State) : State :=
  {| session_id := session_id s; trip_profile := v;
     conversation_history := conversation_history s;
     last_intent := last_intent s; primary_intent := primary_intent s;
     turn_count := turn_count s;
     pending_missing_info := pending_missing_info s |}.

Definition set_history (v : list Message) (s : State) : State :=
  {| session_id := session_id s; trip_profile := trip_profile s;
     conversation_history := v;
     last_intent := last_intent s; primary_intent := primary_intent s;
     turn_count := turn_count s;
     pending_missing_info := pending_missing_info s |}.

Definition set_last_intent (v : option Intent) (s : State) : State :=
  {| session_id := session_id s; trip_profile := trip_profile s;
     conversation_history := conversation_history s;
     last_intent := v; primary_intent := primary_intent s;
     turn_count := turn_count s;
     pending_missing_info := pending_missing_info s |}.

Definition set_primary_intent (v : option Intent) (s : State) : State :=
  {| session_id := session_id s; trip_profile := trip_profile s;
     conversation_history := conversation_history s;
     last_intent := last_intent s; primary_intent := v;
     turn_count := turn_count s;
     pending_missing_info := pending_missing_info s |}.

Definition set_turn_count (v : Z) (s : State) : State :=
  {| session_id := session_id s; trip_profile := trip_profile s;
     conversation_history := conversation_history s;
     last_intent := last_intent s; primary_intent := primary_intent s;
     turn_count := v;
     pending_missing_info := pending_missing_info s |}.

Definition set_pending (v : list str) (s : State) : State :=
  {| session_id := session_id s; trip_profile := trip_profile s;
     conversation_history := conversation_history s;
     last_intent := last_intent s; primary_intent := primary_intent s;
     turn_count := turn_count s;
     pending_missing_info := v |}.

Inductive Action : Type :=
| ASK_CLARIFICATION
| GENERATE_RESPONSE
| CALL_TOOL
| OUT_OF_SCOPE_RESPONSE.

Definition action_eqb (a b : Action) : bool :=
  match a, b with
  | ASK_CLARIFICATION, ASK_CLARIFICATION
  | GENERATE_RESPONSE, GENERATE_RESPONSE
  | CALL_TOOL, CALL_TOOL
  | OUT_OF_SCOPE_RESPONSE, OUT_OF_SCOPE_RESPONSE => true
  | _, _ => false
  end.

Record Decision := {
  action : Action;
  missing_info : list str;
  tool_name : option str;
  notes : option str;
  tool_payload : option pydict
}.

Definition is_some (A : Type) (o : option A) : bool :=
  match o with
  | Some _ => true
  | None => false
  end.

(** [Decision._check_tool_name], the validator run after the fields are
    set. *)
Definition _check_tool_name (self : Decision) : result Decision :=
  if action_eqb (action self) CALL_TOOL && negb (truthy (tool_name self))
  then Raise (utf8 "tool_name is required when action=CALL_TOOL")
  else if negb (action_eqb (action self) CALL_TOOL) && is_some (tool_name self)
  then Raise (utf8 "tool_name must be None unless action=CALL_TOOL")
  else if negb (action_eqb (action self) CALL_TOOL) && is_some (tool_payload self)
  then Raise (utf8 "tool_payload must be None unless action=CALL_TOOL")
  else Ok self.

(** [Decision(action=..., missing_info=..., tool_name=..., notes=...,
    tool_payload=...)]: the constructor with its arguments' defaults
    written out. *)
Definition new_decision (a : Action) (mi : list str) (tn : option str)
    (n : option str) (tp : option pydict) : result Decision :=
  _check_tool_name
    {| action := a; missing_info := mi; tool_name := tn; notes := n;
       tool_payload := tp |}.

End Models.

Import Models.

(** ** backend/utils/weather_rules.py *)

Module WeatherRules.

(** [_MONTH_PATTERN], IGNORECASE *)
Definition _MONTH_PATTERN : regex :=
  ignorecase
    (seqs [WordB;
           Grp 1
             (alts [Seq (word "jan") (opt (word "uary"));
                    Seq (word "feb") (opt (word "ruary"));
                    Seq (word "mar") (opt (word "ch"));
                    Seq (word "apr") (opt (word "il"));
                    word "may";
                    Seq (word "jun") (opt (word "e"));
                    Seq (word "jul") (opt (word "y"));
                    Seq (word "aug") (opt (word "ust"));
                    Seq (word "sep") (opt (word "tember"));
                    Seq (word "oct") (opt (word "ober"));
                    Seq (word "nov") (opt (word "ember"));
                    Seq (word "dec") (opt (word "ember"))]);
           WordB]).

Definition mentions_month (text : str) : bool := found _MONTH_PATTERN text.

Definition is_within_open_meteo_forecast_window (today : date)
    (trip : TripProfile) (horizon_days : Z) : bool :=
  match start_date trip, end_date trip with
  | None, None => true
  | s, e =>
    let s := match s with None => e | _ => s end in
    let e := match e with None => s | _ => e end in
    match s, e with
    | Some start, Some end_ =>
      if date_ltb end_ start then false
      else if date_ltb end_ today then false
      else if (days_between start today >? horizon_days)%Z then false
      else if (days_between end_ today >? horizon_days)%Z then false
      else if (days_between end_ start + 1 >? horizon_days)%Z then false
      else true
    | _, _ => true
    end
  end.

Definition seasonal_triggers : list str :=
  map utf8
    ["usually"; "typical"; "around this time of year"; "on average";
     "generally"]%string.

Definition is_seasonal_weather_question (text : str) : bool :=
  let t := lower text in
  existsb (fun x => contains x t) seasonal_triggers.

End WeatherRules.

Import WeatherRules.

(** ** backend/core/validator.py *)

Module Validation.

Record ValidationResult := {
  ok : bool;
  v_missing_info : list str;
  problems : list str
}.

Definition _has_dates_or_duration (state : State) : bool :=
  let trip := trip_profile state in
  is_some (duration_days trip) ||
  (is_some (start_date trip) && is_some (end_date trip)).

Definition validate (intent : Intent) (state : State) : ValidationResult :=
  let trip := trip_profile state in
  let problems :=
    match duration_days trip with
    | Some d => if (d <=? 0)%Z then [utf8 "duration_days must be > 0"] else []
    | None => []
    end in
  let need_destination :=
    if truthy (destination trip) then [] else [utf8 "destination"] in
  let missing :=
    match intent with
    | ITINERARY_PLANNING =>
      need_destination ++
      (if _has_dates_or_duration state then [] else [utf8 "dates_or_duration"])
    | WEATHER_QUERY => need_destination
    | ATTRACTIONS_RECOMMENDATIONS | PACKING_LIST => need_destination
    | _ => []
    end in
  {| ok := Nat.eqb (length missing) 0 && Nat.eqb (length problems) 0;
     v_missing_info := missing;
     problems := problems |}.

End Validation.

Import Validation.

(** ** backend/utils/history_extractors.py *)

Module HistoryExtractors.

Record _CurrencyParts := {
  p_amount : option Q;
  p_pair : option (str * str)
}.

Definition _extract_currency_parts (text : str) : _CurrencyParts :=
  match parse_currency_query text with
  | Some full =>
    {| p_amount := Some (amount full);
       p_pair := Some (from_ccy full, to_ccy full) |}
  | None =>
    {| p_amount := parse_currency_amount text;
       p_pair := parse_currency_pair text |}
  end.

Definition first_some (A : Type) (found new : option A) : option A :=
  match found with
  | Some _ => found
  | None => new
  end.

(** The loop over [reversed(conversation_history)]; [msgs] is the
    history already reversed. *)
Fixpoint scan_history (amount_now : option Q) (pair_now : option (str * str))
    (max_lookback_user_messages : Z) (allow_amount_from_history : bool)
    (msgs : list Message)
    (found_amount : option Q) (found_pair : option (str * str))
    (lookback_count : Z) : option Q * option (str * str) :=
  match msgs with
  | [] => (found_amount, found_pair)
  | m :: rest =>
    if negb (is_user (role m)) then
      scan_history amount_now pair_now max_lookback_user_messages
        allow_amount_from_history rest found_amount found_pair lookback_count
    else
      match strip (content m) with
      | [] =>
        scan_history amount_now pair_now max_lookback_user_messages
          allow_amount_from_history rest found_amount found_pair lookback_count
      | text =>
        let lookback_count := (lookback_count + 1)%Z in
        if (lookback_count >? max_lookback_user_messages)%Z
        then (found_amount, found_pair)
        else
          let prev_parts := _extract_currency_parts text in
          let found_pair := first_some found_pair (p_pair prev_parts) in
          let found_amount :=
            if allow_amount_from_history
            then first_some found_amount (p_amount prev_parts)
            else found_amount in
          let need_amount := negb (is_some amount_now) in
          let need_pair := negb (is_some pair_now) in
          if (negb need_amount || is_some found_amount) &&
             (negb need_pair || is_some found_pair)
          then (found_amount, found_pair)
          else
            scan_history amount_now pair_now max_lookback_user_messages
              allow_amount_from_history rest found_amount found_pair
              lookback_count
      end
  end.

Definition combine_currency_query_from_history (user_message : str)
    (conversation_history : list Message)
    (max_lookback_user_messages : Z) (allow_amount_from_history : bool)
  : option CurrencyQuery :=
  match parse_currency_query user_message with
  | Some full_now => Some full_now
  | None =>
    let now_parts := _extract_currency_parts user_message in
    let amount_now := p_amount now_parts in
    let pair_now := p_pair now_parts in
    if negb (is_some amount_now) && negb (is_some pair_now) then None
    else
      let found :=
        scan_history amount_now pair_now max_lookback_user_messages
          allow_amount_from_history (rev conversation_history) None None 0 in
      let amount := first_some amount_now (fst found) in
      let pair := first_some pair_now (snd found) in
      match amount, pair with
      | Some a, Some (f, t) =>
        Some {| amount := a; from_ccy := f; to_ccy := t |}
      | _, _ => None
      end
  end.

End HistoryExtractors.

Import HistoryExtractors.

(** ** backend/core/decision_logic.py *)

Module DecisionLogic.

Definition _is_numeric_amount (msg : str) : bool :=
  is_some (parse_currency_amount msg).

Definition pending_amount : list str := [utf8 "currency_amount"].
Definition pending_pair : list str := [utf8 "currency_pair"].

Definition currency_payload (q : CurrencyQuery) : pydict :=
  [(utf8 "amount", VFloat (amount q));
   (utf8 "from_ccy", VStr (from_ccy q));
   (utf8 "to_ccy", VStr (to_ccy q))].

(** [DecisionLogic.decide]; [today] is what [date.today()] answers. *)
Definition decide (today : date) (intent : Intent)
    (validation : ValidationResult) (user_message : str) (state : State)
  : result Decision :=
  if intent_eqb intent OUT_OF_SCOPE then
    new_decision OUT_OF_SCOPE_RESPONSE [] None
      (Some (utf8 "User request is outside supported travel domain")) None
  else if intent_eqb intent CLARIFICATION_NEEDED then
    new_decision ASK_CLARIFICATION [utf8 "goal"] None
      (Some (utf8 "User message unclear -> ask for goal")) None
  else if negb (ok validation) then
    new_decision ASK_CLARIFICATION (v_missing_info validation) None
      (Some (utf8 "Missing or invalid information")) None
  else if intent_eqb intent WEATHER_QUERY then
    if mentions_month user_message || is_seasonal_weather_question user_message
    then
      new_decision GENERATE_RESPONSE [] None
        (Some (utf8 "Seasonal weather wording -> general seasonal answer (no tool)"))
        None
    else if negb (is_within_open_meteo_forecast_window today (trip_profile state) 16)
    then
      new_decision GENERATE_RESPONSE [] None
        (Some (utf8 "Weather query outside Open-Meteo window -> seasonal/general answer (no tool)"))
        None
    else
      new_decision CALL_TOOL [] (Some (utf8 "weather"))
        (Some (utf8 "Weather query within horizon -> call tool")) None
  else if intent_eqb intent CURRENCY_CONVERSION then
    let pending := pending_missing_info state in
    let currency_query := parse_currency_query user_message in
    let currency_query :=
      if negb (is_some currency_query) &&
         (strs_eqb pending pending_amount || strs_eqb pending pending_pair)
      then
        combine_currency_query_from_history user_message
          (removelast (conversation_history state)) 10
          (strs_eqb pending pending_amount)
      else currency_query in
    if strs_eqb pending pending_amount && negb (is_some currency_query) &&
       negb (_is_numeric_amount user_message)
    then
      new_decision ASK_CLARIFICATION [utf8 "currency_amount"] None
        (Some (utf8 "Still missing currency_amount (sticky slot)")) None
    else
      match currency_query with
      | None =>
        match parse_currency_pair user_message with
        | Some _ =>
          new_decision ASK_CLARIFICATION [utf8 "currency_amount"] None
            (Some (utf8 "Currency conversion missing amount (pair detected)"))
            None
        | None =>
          new_decision ASK_CLARIFICATION [utf8 "currency_pair"] None
            (Some (utf8 "Currency conversion missing currency pair")) None
        end
      | Some q =>
        new_decision CALL_TOOL [] (Some (utf8 "currency"))
          (Some (utf8 "Currency conversion -> call tool (use resolved currency_query; no re-parse in FlowController)"))
          (Some (currency_payload q))
      end
  else if intent_eqb intent ITINERARY_PLANNING ||
          intent_eqb intent ATTRACTIONS_RECOMMENDATIONS ||
          intent_eqb intent PACKING_LIST then
    new_decision GENERATE_RESPONSE [] None
      (Some (intent_value intent ++ utf8 " -> generate response")) None
  else
    new_decision GENERATE_RESPONSE [] None
      (Some (utf8 "Default fallback routing for intent=" ++ intent_value intent))
      None.

End DecisionLogic.

Import DecisionLogic.

(** ** backend/utils/clarification.py *)

Module Clarification.

Definition nl : str := [10%N].

Definition is_slot (first : str) (k : string) : bool := str_eqb first (utf8 k).

Definition build_clarification_question (missing_info : list str) : str :=
  match missing_info with
  | [] => utf8 "What details can you share about your trip (destination and dates)?"
  | first :: _ =>
    if is_slot first "destination" then utf8 "Where are you traveling to (city/country)?"
    else if is_slot first "dates" || is_slot first "dates_or_duration" then
      utf8 "What are your travel dates (or how many days is the trip)?"
    else if is_slot first "budget" then utf8 "What’s your budget level (low / mid / high)?"
    else if is_slot first "travelers" then
      utf8 "Who’s traveling (solo / couple / friends / family, kids yes/no)?"
    else if is_slot first "interests" then
      utf8 "What are your interests (e.g., food, museums, nature, nightlife)?"
    else if is_slot first "pace" then
      utf8 "What pace do you prefer (relaxed / balanced / intense)?"
    else if is_slot first "goal" then
      utf8 "What would you like help with: itinerary, attractions, packing, weather, or currency conversion?"
    else if is_slot first "currency_pair" then
      utf8 "Which currencies are you converting between? (e.g., USD to EUR)" ++ nl ++
      utf8 "Then tell me the amount (e.g., 100)."
    else if is_slot first "currency_amount" then
      utf8 "What amount do you want to convert? (e.g., 100)"
    else if is_slot first "currency_from" then utf8 "What is the FROM currency? (e.g., USD)"
    else if is_slot first "currency_to" then utf8 "What is the TO currency? (e.g., EUR)"
    else
      utf8 "What’s one more detail about your trip that matters most (destination, dates, budget, travelers)?"
  end.

End Clarification.

Import Clarification.

(** ** backend/core/trust_layer.py *)

Module TrustLayer.

Local Open Scope N_scope.

Record TrustResult := {
  text : str;
  flagged : bool;
  reasons : list str
}.

Definition any_in (triggers : list string) (s : str) : bool :=
  existsb (fun t => contains (utf8 t) s) triggers.

Definition _REALTIME_CLAIMS : list string :=
  ["real-time"; "live data"; "right now"; "currently"; "as of now";
   "i just checked"; "i checked online"; "i looked it up";
   "from the internet"; "according to google"]%string.

Definition _looks_like_tool_code (text : str) : bool :=
  let low := lower text in
  contains (utf8 "```tool_code") low ||
  contains (utf8 "currency_conversion(") low ||
  contains (utf8 "weather(") low ||
  contains (utf8 "invoke-restmethod") low.

Definition _strip_tool_code_fences (text : str) : str :=
  strip (replace (utf8 "```") [] (replace (utf8 "```tool_code") [] text)).

Definition _rewrite_no_realtime_claim (text : str) : str :=
  strip
    (fold_left
       (fun cleaned p =>
          sub (ignorecase (word p)) (utf8 "based on available info") cleaned)
       _REALTIME_CLAIMS text).

Definition _user_requested_exact_daily (user_message : str) : bool :=
  any_in
    ["exact daily"; "day-by-day"; "day by day"; "each day"; "every day";
     "for each day"; "daily highs"; "daily lows";
     "precipitation in mm for each day"; "exact highs"; "exact lows";
     "exact precipitation"]%string
    (lower user_message).

Definition _user_requested_live (user_message : str) : bool :=
  any_in
    ["right now"; "live"; "currently"; "as of now"; "exact temperature"; "0.1"]%string
    (lower user_message).

Definition digits_1_2 : regex := Seq digit (opt digit).
Definition digits_1_3 : regex := Seq digit (opt (Seq digit (opt digit))).
Definition minus_opt : regex := opt (chr 45).
Definition degree : regex := chr 176.

Definition forecast_patterns : list regex :=
  [ (* \b-?\d{1,2}\s*°\s*c\b *)
    seqs [WordB; minus_opt; digits_1_2; Star space; degree; Star space; word "c"; WordB];
    (* \b-?\d{1,3}\s*°\s*f\b *)
    seqs [WordB; minus_opt; digits_1_3; Star space; degree; Star space; word "f"; WordB];
    (* \b\d{1,3}\s*mm\b *)
    seqs [WordB; digits_1_3; Star space; word "mm"; WordB];
    (* \b\d{1,3}\s*km\/h\b *)
    seqs [WordB; digits_1_3; Star space; word "km/h"; WordB];
    (* \b\d{1,3}\s*kmh\b *)
    seqs [WordB; digits_1_3; Star space; word "kmh"; WordB];
    (* \bhighs?\s+of\s+\d{1,2}\b *)
    seqs [WordB; word "high"; opt (word "s"); plus space; word "of"; plus space; digits_1_2; WordB];
    (* \blows?\s+of\s+\d{1,2}\b *)
    seqs [WordB; word "low"; opt (word "s"); plus space; word "of"; plus space; digits_1_2; WordB] ].

Definition _contains_specific_forecast_numbers (text user_message : str) : bool :=
  let low := lower text in
  let user_low := lower user_message in
  let seasonal_markers :=
    ["typical"; "usually"; "generally"; "on average"; "average"; "around";
     "roughly"; "expect average"; "seasonal"; "in general"; "often";
     "range of"; "ranges from"; "between"]%string in
  if any_in seasonal_markers low && negb (_user_requested_exact_daily user_message)
  then false
  else
    let specific_request_markers :=
      ["exact"; "daily"; "each day"; "day-by-day"; "right now"; "live";
       "currently"; "today"; "tomorrow"; "on "]%string in
    let strict := any_in specific_request_markers user_low in
    let has_numbers := existsb (fun p => found p low) forecast_patterns in
    let forecast_claim_markers :=
      ["on "; "tomorrow"; "today"; "this weekend"; "next week";
       "expect a high of"; "expect a low of"]%string in
    let sounds_like_forecast := any_in forecast_claim_markers low in
    has_numbers && (strict || sounds_like_forecast).

(** [\d+(\.\d+)?] with its group numbered [n]. *)
Definition number (n : nat) : regex :=
  Seq (plus digit) (opt (Grp n (Seq (chr 46) (plus digit)))).

(** [(usd|eur|ils|gbp|jpy)] as group [n]. *)
Definition code (n : nat) : regex :=
  Grp n (alts [word "usd"; word "eur"; word "ils"; word "gbp"; word "jpy"]).

Definition currency_patterns : list regex :=
  map ignorecase
  [ (* \brate\s+of\s+\d+(\.\d+)?\b *)
    seqs [WordB; word "rate"; plus space; word "of"; plus space; number 1; WordB];
    (* \b\d+(\.\d+)?\s*(usd|eur|ils|gbp|jpy)\b *)
    seqs [WordB; number 1; Star space; code 2; WordB];
    (* \b(usd|eur|ils|gbp|jpy)\s*\d+(\.\d+)?\b *)
    seqs [WordB; code 1; Star space; number 2; WordB];
    (* [$€₪]\s*\d+(\.\d+)? *)
    seqs [Cls [(36, 36); (8364, 8364); (8362, 8362)]%N; Star space; number 1];
    (* \bconverts\s+to\s+\d+(\.\d+)?\b *)
    seqs [WordB; word "converts"; plus space; word "to"; plus space; number 1; WordB];
    (* \bexchange\s+rate\b.*\d *)
    seqs [WordB; word "exchange"; plus space; word "rate"; WordB; Star anychar; digit] ].

Definition _contains_currency_rate_or_conversion (text : str) : bool :=
  match text with
  | [] => false
  | _ =>
    let low := lower text in
    existsb (fun p => found p low) currency_patterns
  end.

Definition _safe_weather_without_tool (user_message : str) : str :=
  let u := lower user_message in
  if any_in ["right now"; "live"; "currently"; "today"]%string u then
    utf8 "I can’t guarantee a *live* weather reading without calling the weather API." ++ nl ++ nl ++
    utf8 "If you confirm the city (e.g., Paris) I can fetch today’s forecast from the tool, " ++
    utf8 "or I can give seasonal guidance if you’re planning ahead."
  else if any_in
       ["in january"; "in february"; "in march"; "in april"; "in may";
        "in june"; "in july"; "in august"; "in september"; "in october";
        "in november"; "in december"; "this winter"; "this summer";
        "season"]%string u
  then
    utf8 "I can’t provide exact day-by-day numbers that far in advance. Forecasts are typically reliable only up to ~16 days ahead." ++ nl ++ nl ++
    utf8 "If you want, tell me your rough dates or how sensitive you are to rain/cold, and I’ll give seasonal expectations + a packing list."
  else
    utf8 "I can’t fetch an exact forecast for that date right now (forecasts are typically only available/reliable up to ~16 days ahead)." ++ nl ++ nl ++
    utf8 "If you share your dates (or even just the month), I can give seasonal expectations and packing advice.".

Definition _safe_currency_without_tool : str :=
  utf8 "I can help convert currency, but I couldn’t fetch a live exchange rate right now." ++ nl ++
  utf8 "Please send it like: **“100 USD to EUR”** (amount + from + to).".

(** Truth value of a dynamically typed value. *)
Definition py_truthy (v : pyval) : bool :=
  match v with
  | VNone => false
  | VBool b => b
  | VInt z => negb (z =? 0)%Z
  | VFloat q => negb (Qnum q =? 0)%Z
  | VStr s => negb (Nat.eqb (length s) 0)
  | VDate _ => true
  | VList l => negb (Nat.eqb (length l) 0)
  | VDict d => negb (Nat.eqb (length d) 0)
  end.

Definition is_none (v : pyval) : bool :=
  match v with
  | VNone => true
  | _ => false
  end.

Section Format.

(** What an f-string prints for a value ([format(v)]); the printing of
    floats belongs to the Python runtime. *)
Variable py_format : pyval -> str.

Definition _safe_live_weather_response (tool_data : option pydict) : result str :=
  match tool_data with
  | Some ((_ :: _) as td) =>
    let loc :=
      match dict_get (utf8 "location") td with
      | Some v => v
      | None => VStr (utf8 "that city")
      end in
    let timeframe :=
      match dict_get (utf8 "timeframe") td with
      | Some v => v
      | None => VStr (utf8 "today")
      end in
    let today := get "today" td in
    let today :=
      if py_truthy today then
        match today with
        | VDict d => Ok d
        | _ => Raise (utf8 "AttributeError: object has no attribute 'get'")
        end
      else Ok [] in
    match today with
    | Raise e => Raise e
    | Ok today =>
      let tmin := get "temp_min_c" today in
      let tmax := get "temp_max_c" today in
      let precip := get "precip_mm" today in
      let parts :=
        [utf8 "I can’t guarantee a *live right-now* temperature reading to 0.1°C.";
         utf8 "What I *can* fetch is today’s forecast summary for " ++ py_format loc ++
         utf8 " (" ++ py_format timeframe ++ utf8 ")."] ++
        (if negb (is_none tmin) && negb (is_none tmax)
         then [utf8 "Today’s forecast range: low " ++ py_format tmin ++
               utf8 "°C, high " ++ py_format tmax ++ utf8 "°C."]
         else []) ++
        (if negb (is_none precip)
         then [utf8 "Forecast precipitation: " ++ py_format precip ++ utf8 " mm."]
         else []) ++
        [utf8 "If you still need *current observed temperature*, use a live weather app/station feed."] in
      Ok (join (nl ++ nl) parts)
    end
  | _ =>
    Ok (utf8 "I can’t guarantee a *live right-now* weather reading without calling the weather API." ++ nl ++ nl ++
        utf8 "If you confirm the city (e.g., Paris) I can fetch today’s forecast from the tool.")
  end.

(** [TrustLayer.apply] *)
Definition apply (intent : Intent) (assistant_text : str)
    (tool_data : option pydict) (user_message : option str)
  : result TrustResult :=
  let text := strip assistant_text in
  match text with
  | [] => Ok {| text := text; flagged := false; reasons := [] |}
  | _ =>
    let reasons : list str := [] in
    let leak := _looks_like_tool_code text in
    let reasons := if leak then reasons ++ [utf8 "tool_code_leak"] else reasons in
    let text := if leak then _strip_tool_code_fences text else text in
    let low := lower text in
    let u := match user_message with Some m => m | None => [] end in
    let realtime_hit := any_in _REALTIME_CLAIMS low in
    let soften :=
      realtime_hit &&
      negb (intent_eqb intent WEATHER_QUERY && _user_requested_live u) in
    let reasons := if soften then reasons ++ [utf8 "realtime_claim"] else reasons in
    let text := if soften then _rewrite_no_realtime_claim text else text in
    let weather : result (list str * str) :=
      if intent_eqb intent WEATHER_QUERY then
        if negb (is_some tool_data) && _user_requested_exact_daily u then
          Ok (reasons ++ [utf8 "exact_daily_weather_without_tool"],
              _safe_weather_without_tool u)
        else if _user_requested_live u then
          match _safe_live_weather_response tool_data with
          | Ok t => Ok (reasons ++ [utf8 "live_weather_request"], t)
          | Raise e => Raise e
          end
        else if negb (is_some tool_data) &&
                _contains_specific_forecast_numbers text u then
          Ok (reasons ++ [utf8 "weather_numbers_without_tool"],
              _safe_weather_without_tool u)
        else Ok (reasons, text)
      else Ok (reasons, text) in
    match weather with
    | Raise e => Raise e
    | Ok (reasons, text) =>
      let block :=
        intent_eqb intent CURRENCY_CONVERSION && negb (is_some tool_data) &&
        _contains_currency_rate_or_conversion text in
      let reasons :=
        if block then reasons ++ [utf8 "currency_numbers_without_tool"]
        else reasons in
      let text := if block then _safe_currency_without_tool else text in
      Ok {| text := text;
            flagged := negb (Nat.eqb (length reasons) 0);
            reasons := reasons |}
    end
  end.

End Format.

End TrustLayer.

Import TrustLayer.

(** ** backend/core/fallback_handler.py *)

Module FallbackHandler.

Record FallbackResult := {
  message : str;
  used_llm : bool;
  f_pending_missing_info : list str;
  resolved_intent : option Intent
}.

(** The last-resort generation call.  The prompt text is a function of the
    five arguments handed to [build_fallback_prompt]; the client is given
    them as they are.  [Raise] covers a missing API key, a failed call and
    the client's own refusal of an empty answer. *)
Definition FallbackClient : Type :=
  option Intent -> State -> str -> list Message -> option str -> result str.

Definition goal_question : str :=
  utf8 "What would you like help with: itinerary, attractions, packing, weather, or currency conversion?".

Definition canned_goal_selection : str :=
  utf8 "I can help with itineraries, attractions, packing, weather, or currency conversion. What would you like to do next?".

(** [FallbackHandler.recover] *)
Definition recover (client : FallbackClient) (state : State)
    (user_message : str) (intent_for_flow : option Intent)
    (recent_messages : list Message) (error : option str)
  : result FallbackResult :=
  match pending_missing_info state with
  | _ :: _ =>
    let pending := firstn 1 (pending_missing_info state) in
    let q := build_clarification_question pending in
    Ok {| message := q; used_llm := false; f_pending_missing_info := pending;
          resolved_intent := None |}
  | [] =>
    let active_goal :=
      if opt_is_goal (last_intent state) then last_intent state else None in
    if negb (is_some active_goal) && negb (opt_is_goal intent_for_flow) then
      Ok {| message := goal_question;
            used_llm := false;
            f_pending_missing_info := [utf8 "goal"];
            resolved_intent := None |}
    else
      let goal := if opt_is_goal intent_for_flow then intent_for_flow else active_goal in
      let early :=
        match goal with
        | Some g =>
          let validation := validate g state in
          if negb (ok validation) then
            let pending := firstn 1 (v_missing_info validation) in
            Some
              {| message := build_clarification_question pending;
                 used_llm := false;
                 f_pending_missing_info := pending;
                 resolved_intent := goal |}
          else None
        | None => None
        end in
      match early with
      | Some r => Ok r
      | None =>
        match client goal state user_message recent_messages error with
        | Raise e => Raise e
        | Ok generated =>
          match strip generated with
          | [] =>
            Ok {| message := canned_goal_selection;
                  used_llm := false;
                  f_pending_missing_info := [utf8 "goal"];
                  resolved_intent := goal |}
          | text =>
            Ok {| message := text; used_llm := true;
                  f_pending_missing_info := [];
                  resolved_intent := goal |}
          end
        end
      end
  end.

End FallbackHandler.

Import FallbackHandler.

(** ** backend/core/state_manager.py *)

Module StateManager.

(** [l[i:]] *)
Definition slice_from (A : Type) (i : Z) (l : list A) : list A :=
  if (i <? 0)%Z then skipn (Z.to_nat (Z.max (Z.of_nat (length l) + i) 0)) l
  else skipn (Z.to_nat i) l.

Record StateManager := {
  _states : list (str * State);
  _max_history_messages : Z
}.

(** [StateManager()] *)
Definition new_manager : StateManager :=
  {| _states := []; _max_history_messages := 12 |}.

Fixpoint store (sid : str) (st : State) (d : list (str * State))
  : list (str * State) :=
  match d with
  | [] => [(sid, st)]
  | (k, v) :: d' =>
    if str_eqb sid k then (k, st) :: d' else (k, v) :: store sid st d'
  end.

Definition get_or_create (self : StateManager) (sid : str)
  : StateManager * State :=
  match dict_get sid (_states self) with
  | Some st => (self, st)
  | None =>
    let st := new_state sid in
    ({| _states := store sid st (_states self);
        _max_history_messages := _max_history_messages self |}, st)
  end.

(** The effect of [add_message] on the session's state. *)
Definition add_message (max_history_messages : Z) (r : Role) (c : str)
    (state : State) : State :=
  let h := conversation_history state ++ [{| role := r; content := c |}] in
  if (Z.of_nat (length h) >? max_history_messages)%Z
  then set_history (slice_from (- max_history_messages) h) state
  else set_history h state.

Definition increment_turn (state : State) : State :=
  set_turn_count (turn_count state + 1)%Z state.

End StateManager.

Import StateManager.

(** ** backend/core/flow_controller.py *)

Module FlowController.

Record IntentResult := {
  intent : Intent;
  extracted_updates : pydict
}.

Record ToolResult := {
  tr_ok : bool;
  tr_data : pydict
}.

(** What the injected dependencies answer during one turn.  The
    conversions [float(amount)], [str(from_ccy)], [str(to_ccy)] are left to
    [convert], which is given the payload values as they are. *)
Record Env := {
  today : date;
  py_format : pyval -> str;
  classify : str -> list Message -> list str -> result IntentResult;
  decision_logic :
    Intent -> ValidationResult -> str -> State -> result (option Decision);
  generate : Intent -> State -> list Message -> option pydict -> result str;
  get_weather : TripProfile -> result ToolResult;
  convert : pyval -> pyval -> pyval -> result ToolResult;
  fallback_client : FallbackClient
}.

(** The decision logic of the repository as a dependency. *)
Definition the_decision_logic (today : date) (i : Intent)
    (v : ValidationResult) (m : str) (s : State) : result (option Decision) :=
  match decide today i v m s with
  | Ok d => Ok (Some d)
  | Raise e => Raise e
  end.

Record TurnResponse := {
  r_session_id : str;
  assistant_message : str
}.

Definition _recent_messages (state : State) (limit : Z) : list Message :=
  slice_from (- limit) (conversation_history state).

Definition has (k : string) (s : str) : bool := contains (utf8 k) s.

Definition _infer_pending_from_assistant (assistant_text : str)
    (intent : Intent) (state : State) : list str :=
  if Nat.eqb (length assistant_text) 0 ||
     negb (endswith (utf8 "?") (rstrip assistant_text))
  then []
  else
    let from_validator :=
      if is_goal intent && negb (intent_eqb intent CURRENCY_CONVERSION) then
        match v_missing_info (validate intent state) with
        | [] => None
        | mi => Some (firstn 1 mi)
        end
      else None in
    match from_validator with
    | Some r => r
    | None =>
      let low := lower assistant_text in
      let from_currency :=
        if intent_eqb intent CURRENCY_CONVERSION then
          if has "between" low || has "which currencies" low then Some [utf8 "currency_pair"]
          else if has "amount" low || has "how much" low then Some [utf8 "currency_amount"]
          else if has "from" low && has "currency" low then Some [utf8 "currency_from"]
          else if has "to" low && has "currency" low then Some [utf8 "currency_to"]
          else None
        else None in
      match from_currency with
      | Some r => r
      | None =>
        if has "interest" low then [utf8 "interests"]
        else if has "budget" low then [utf8 "budget"]
        else if has "who" low || has "traveling" low then [utf8 "travelers"]
        else if has "pace" low then [utf8 "pace"]
        else if has "month" low then [utf8 "dates_or_duration"]
        else if has "date" low || has "when" low then [utf8 "dates_or_duration"]
        else if has "where" low || has "city" low || has "country" low then [utf8 "destination"]
        else []
      end
    end.

Definition _looks_like_full_month_range (start_date end_date : date) : bool :=
  (year start_date =? year end_date)%Z &&
  (month start_date =? month end_date)%Z &&
  (day start_date =? 1)%Z &&
  ((day end_date =? 28) || (day end_date =? 29) ||
   (day end_date =? 30) || (day end_date =? 31))%Z.

(** [\b(19|20)\d{2}\b] *)
Definition year_re : regex :=
  seqs [WordB; Grp 1 (Alt (word "19") (word "20")); digit; digit; WordB].

Definition _guardrail_roll_month_without_year_forward (today : date)
    (user_message : str) (state : State) : State :=
  let has_year := found year_re user_message in
  if negb (mentions_month user_message && negb has_year) then state
  else
    match start_date (trip_profile state), end_date (trip_profile state) with
    | Some start_date, Some end_date =>
      if _looks_like_full_month_range start_date end_date &&
         date_ltb end_date today
      then
        match replace_year start_date (year start_date + 1) with
        | Some s' =>
          match replace_year end_date (year end_date + 1) with
          | Some e' =>
            set_trip_profile
              (set_end_date (Some e')
                 (set_start_date (Some s') (trip_profile state))) state
          | None =>
            set_trip_profile
              (set_end_date None (set_start_date None (trip_profile state)))
              state
          end
        | None =>
          set_trip_profile
            (set_end_date None (set_start_date None (trip_profile state)))
            state
        end
      else state
    | _, _ => state
    end.

Definition out_of_scope_text : str :=
  utf8 "I can help with travel planning only (itineraries, attractions, packing, weather, currency conversion). " ++
  utf8 "What would you like to do?".

(** [FlowController._execute_decision]: the state it leaves and the text
    it returns or the exception it raises. *)
Definition _execute_decision (env : Env) (decision : Decision)
    (state : State) (intent : Intent) (user_message : str)
  : State * result str :=
  match action decision with
  | OUT_OF_SCOPE_RESPONSE => (state, Ok out_of_scope_text)
  | ASK_CLARIFICATION =>
    (state, Ok (build_clarification_question (missing_info decision)))
  | CALL_TOOL =>
    let recent_for_response := _recent_messages state 8 in
    if opt_str_eqb (tool_name decision) (Some (utf8 "weather")) then
      match get_weather env (trip_profile state) with
      | Raise e => (state, Raise e)
      | Ok tool_result =>
        if tr_ok tool_result then
          match generate env intent state recent_for_response (Some (tr_data tool_result)) with
          | Raise e => (state, Raise e)
          | Ok text =>
            match apply (py_format env) intent text (Some (tr_data tool_result)) (Some user_message) with
            | Raise e => (state, Raise e)
            | Ok trust => (state, Ok (TrustLayer.text trust))
            end
          end
        else
          (state,
           Ok (utf8 "I couldn’t fetch weather info right now. " ++
               utf8 "If you tell me your dates (or month), I can still give general seasonal packing tips."))
      end
    else if opt_str_eqb (tool_name decision) (Some (utf8 "currency")) then
      let payload :=
        match tool_payload decision with
        | Some p => p
        | None => []
        end in
      let amount := get "amount" payload in
      let from_ccy := get "from_ccy" payload in
      let to_ccy := get "to_ccy" payload in
      if is_none amount || is_none from_ccy || is_none to_ccy then
        (state, Ok (utf8 "To convert currency, tell me something like: “100 USD to EUR”."))
      else
        match convert env amount from_ccy to_ccy with
        | Raise e => (state, Raise e)
        | Ok tool_result =>
          if tr_ok tool_result then
            match generate env intent state recent_for_response (Some (tr_data tool_result)) with
            | Raise e => (state, Raise e)
            | Ok text =>
              match apply (py_format env) intent text (Some (tr_data tool_result)) (Some user_message) with
              | Raise e => (state, Raise e)
              | Ok trust =>
                let state :=
                  match primary_intent state with
                  | Some p => set_last_intent (Some p) state
                  | None => state
                  end in
                (state, Ok (TrustLayer.text trust))
              end
            end
          else
            (state,
             Ok (utf8 "I couldn’t fetch the exchange rate right now. " ++
                 utf8 "Try again in a moment, or share the currencies in the format “100 USD to EUR”."))
        end
    else
      (state, Ok (utf8 "I can’t run that tool right now. What would you like to do next?"))
  | GENERATE_RESPONSE =>
    (state, generate env intent state (_recent_messages state 8) None)
  end.

(** The assignment to [state.pending_missing_info] and [state.last_intent]
    after a recovery. *)
Definition after_recovery (fallback : FallbackResult) (intent_for_flow : Intent)
    (state : State) : State :=
  let state :=
    set_pending
      (match f_pending_missing_info fallback with
       | _ :: _ => firstn 1 (f_pending_missing_info fallback)
       | [] => _infer_pending_from_assistant (message fallback) intent_for_flow state
       end) state in
  if opt_is_goal (resolved_intent fallback)
  then set_last_intent (resolved_intent fallback) state
  else state.

(** One turn on the session's state: the state the turn leaves behind and
    the assistant's text, or the exception that escapes [handle_turn]. *)
Definition turn (env : Env) (max_history_messages : Z) (user_message : str)
    (state : State) : State * result str :=
  let prev_intent := last_intent state in
  let prev_pending := pending_missing_info state in
  let recent_for_intent := _recent_messages state 6 in
  match classify env user_message recent_for_intent (pending_missing_info state) with
  | Raise e => (state, Raise e)
  | Ok intent_result =>
    let state := add_message max_history_messages user user_message state in
    let updated := apply_updates (trip_profile state) (extracted_updates intent_result) in
    let state := set_trip_profile (fst updated) state in
    match snd updated with
    | Raise e => (state, Raise e)
    | Ok _ =>
      let state := _guardrail_roll_month_without_year_forward (today env) user_message state in
      let intent_for_flow := intent intent_result in
      let active_goal := if opt_is_goal prev_intent then prev_intent else None in
      let intent_for_flow :=
        if intent_eqb intent_for_flow CONSTRAINTS_UPDATE then
          match active_goal with
          | Some g => g
          | None => CLARIFICATION_NEEDED
          end
        else intent_for_flow in
      let state :=
        if is_goal intent_for_flow then
          let state := set_last_intent (Some intent_for_flow) state in
          if negb (intent_eqb intent_for_flow CURRENCY_CONVERSION)
          then set_primary_intent (Some intent_for_flow) state
          else state
        else state in
      let state := increment_turn state in
      let validation := validate intent_for_flow state in
      match decision_logic env intent_for_flow validation user_message state with
      | Raise e => (state, Raise e)
      | Ok None =>
        match
          recover (fallback_client env) state user_message (Some intent_for_flow)
            (_recent_messages state 8)
            (Some (utf8 "DecisionLogic returned None"))
        with
        | Raise e => (state, Raise e)
        | Ok fallback =>
          let assistant_text := message fallback in
          let state := after_recovery fallback intent_for_flow state in
          match apply (py_format env) intent_for_flow assistant_text None (Some user_message) with
          | Raise e => (state, Raise e)
          | Ok trust =>
            let assistant_text := TrustLayer.text trust in
            (add_message max_history_messages assistant assistant_text state,
             Ok assistant_text)
          end
        end
      | Ok (Some decision) =>
        let state :=
          if action_eqb (action decision) ASK_CLARIFICATION
          then set_pending (firstn 1 (missing_info decision)) state
          else if strs_eqb prev_pending pending_amount &&
                  negb (intent_eqb intent_for_flow CURRENCY_CONVERSION)
          then set_pending prev_pending state
          else set_pending [] state in
        let executed := _execute_decision env decision state intent_for_flow user_message in
        let state := fst executed in
        let attempt :=
          match snd executed with
          | Ok t =>
            match strip t with
            | [] => Raise (utf8 "RuntimeError('Empty assistant_text')")
            | _ => Ok t
            end
          | Raise e => Raise e
          end in
        let recovered : result (State * str) :=
          match attempt with
          | Ok t => Ok (state, t)
          | Raise e =>
            match
              recover (fallback_client env) state user_message
                (Some intent_for_flow) (_recent_messages state 8) (Some e)
            with
            | Raise e' => Raise e'
            | Ok fallback =>
              Ok (after_recovery fallback intent_for_flow state, message fallback)
            end
          end in
        match recovered with
        | Raise e => (state, Raise e)
        | Ok (state, assistant_text) =>
          let filtered :=
            if negb (action_eqb (action decision) CALL_TOOL) then
              match apply (py_format env) intent_for_flow assistant_text None (Some user_message) with
              | Ok trust => Ok (TrustLayer.text trust)
              | Raise e => Raise e
              end
            else Ok assistant_text in
          match filtered with
          | Raise e => (state, Raise e)
          | Ok assistant_text =>
            let state :=
              if action_eqb (action decision) GENERATE_RESPONSE &&
                 Nat.eqb (length (pending_missing_info state)) 0
              then
                set_pending
                  (_infer_pending_from_assistant assistant_text intent_for_flow state)
                  state
              else state in
            (add_message max_history_messages assistant assistant_text state,
             Ok assistant_text)
          end
        end
      end
    end
  end.

(** [FlowController.handle_turn] on the session store. *)
Definition handle_turn (env : Env) (self : StateManager) (sid : str)
    (user_message : str) : StateManager * result TurnResponse :=
  let created := get_or_create self sid in
  let outcome := turn env (_max_history_messages self) user_message (snd created) in
  ({| _states := store sid (fst outcome) (_states (fst created));
      _max_history_messages := _max_history_messages self |},
   match snd outcome with
   | Ok t => Ok {| r_session_id := sid; assistant_message := t |}
   | Raise e => Raise e
   end).

End FlowController.

Import FlowController.

(** ** backend/llm/intent_classifier.py: the deterministic part *)

Module IntentClassifier.

Local Open Scope N_scope.

(** [bool(re.fullmatch(r, s))] *)
Definition fullmatch (r : regex) (s : str) : bool :=
  match
    rmatch r
      (fun _ s' _ =>
         match s' with
         | [] => Some tt
         | _ => None
         end)
      [] s []
  with
  | Some _ => true
  | None => false
  end.

Definition all_intents : list Intent :=
  [ITINERARY_PLANNING; ATTRACTIONS_RECOMMENDATIONS; PACKING_LIST;
   WEATHER_QUERY; CURRENCY_CONVERSION; CONSTRAINTS_UPDATE;
   CLARIFICATION_NEEDED; OUT_OF_SCOPE].

(** [IntentClassifier._parse_intent]: [Intent(value)] finds the member
    by its value, [None] stands for a value that is no string and for
    the [ValueError] of a string that is no member's value. *)
Definition _parse_intent (value : pyval) : option Intent :=
  match value with
  | VStr s => find (fun i => str_eqb s (intent_value i)) all_intents
  | _ => None
  end.

Definition _looks_like_generic_help (text : str) : bool :=
  let t := lower (strip text) in
  mem_str t
    (map utf8
       ["help"; "help me"; "i need help"; "need help"; "not sure";
        "not sure what to ask"; "what can you do"; "what do you do";
        "how can you help"; "can you help"; "please help";
        "pls help"]%string).

(** [\d{1,3}(?:,\d{3})*(?:\.\d+)?|\d+(?:\.\d+)?] *)
Definition amount_only_text_re : regex :=
  Alt
    (seqs [Seq digit (opt (Seq digit (opt digit)));
           Star (seqs [chr 44; digit; digit; digit]);
           fraction])
    (Seq (plus digit) fraction).

Definition _looks_like_amount_only (text : str) : bool :=
  fullmatch amount_only_text_re (strip text).

Definition capital : regex := Cls [(65, 90)].

(** [\b[A-Z]{3}\s*(?:TO|->|-|/)\s*[A-Z]{3}\b] *)
Definition code_pair_re : regex :=
  seqs [WordB; capital; capital; capital; Star space;
        alts [word "TO"; word "->"; word "-"; word "/"];
        Star space; capital; capital; capital; WordB].

Definition _looks_like_currency_pair (text : str) : bool :=
  found code_pair_re (upper (strip text)).

Definition _looks_like_itinerary_continue (text : str) : bool :=
  let t := strip (lower text) in
  existsb (fun m => contains (utf8 m) t)
    ["continue"; "keep going"; "go on"; "resume"; "itinerary"; "plan";
     "schedule"; "day "; "make day"]%string.

Section Confidence.

(** The confidence is a Python float; its arithmetic belongs to the
    runtime: [zero] is [0.0], [at_least_06 c] is [max(c, 0.6)]. *)
Variable float : Type.
Variable zero : float.
Variable at_least_06 : float -> float.

Record ClassifierResult := {
  c_intent : Intent;
  c_confidence : float;
  c_extracted_updates : pydict;
  c_missing_info : list str;
  c_raw_text : str
}.

(** [IntentClassifier._fallback] *)
Definition _fallback (raw_text : str) : ClassifierResult :=
  {| c_intent := CLARIFICATION_NEEDED;
     c_confidence := zero;
     c_extracted_updates := [];
     c_missing_info := [utf8 "destination"; utf8 "dates_or_duration"];
     c_raw_text := raw_text |}.

Definition currency_fields : list str :=
  map utf8 ["currency_pair"; "currency_amount"; "currency_from"; "currency_to"]%string.

(** [if intent != Intent.CURRENCY_CONVERSION: intent = ...; confidence = ...] *)
Definition force_currency (i_c : Intent * float) : Intent * float :=
  if negb (intent_eqb (fst i_c) CURRENCY_CONVERSION)
  then (CURRENCY_CONVERSION, at_least_06 (snd i_c))
  else i_c.

(** [IntentClassifier.classify] from the point where the answer of the
    model has been parsed: [intent] is what [_parse_intent] returned,
    [confidence], [extracted_updates] and [missing_info] what
    [_parse_confidence], [_parse_dict] and [_parse_list_of_strings]
    returned, [raw] the text of the answer. *)
Definition classify_parsed (intent : option Intent) (confidence : float)
    (extracted_updates : pydict) (missing_info : list str) (raw : str)
    (user_message : str) (pending_missing_info : list str)
  : ClassifierResult :=
  match intent with
  | None => _fallback raw
  | Some intent =>
    let after_pending : (Intent * float) * list str :=
      match pending_missing_info with
      | [] => ((intent, confidence), missing_info)
      | pending :: _ =>
        if mem_str pending currency_fields then
          let i_c :=
            if str_eqb pending (utf8 "currency_amount") then
              let is_amount :=
                _looks_like_amount_only user_message ||
                contains (utf8 "$") user_message ||
                contains (utf8 "usd") (lower user_message) ||
                contains (utf8 "eur") (lower user_message) in
              let is_pair := _looks_like_currency_pair user_message in
              if _looks_like_itinerary_continue user_message &&
                 negb is_amount && negb is_pair
              then (intent, confidence)
              else force_currency (intent, confidence)
            else force_currency (intent, confidence) in
          let missing_info :=
            if str_eqb pending (utf8 "currency_pair") &&
               _looks_like_amount_only user_message
            then [utf8 "currency_pair"] else missing_info in
          let missing_info :=
            if str_eqb pending (utf8 "currency_amount") &&
               _looks_like_currency_pair user_message
            then [utf8 "currency_amount"] else missing_info in
          (i_c, missing_info)
        else ((intent, confidence), missing_info)
      end in
    let intent := fst (fst after_pending) in
    let confidence := snd (fst after_pending) in
    let missing_info := snd after_pending in
    if intent_eqb intent OUT_OF_SCOPE && _looks_like_generic_help user_message
    then
      {| c_intent := CLARIFICATION_NEEDED;
         c_confidence := at_least_06 confidence;
         c_extracted_updates := extracted_updates;
         c_missing_info := [];
         c_raw_text := raw |}
    else
      {| c_intent := intent;
         c_confidence := confidence;
         c_extracted_updates := extracted_updates;
         c_missing_info := missing_info;
         c_raw_text := raw |}
  end.

End Confidence.

End IntentClassifier.

Import IntentClassifier.

(** ** backend/tools/weather_client.py: before the first request *)

Module WeatherClient.

(** What [get_weather] has settled when it turns to the network: a
    refusal with its error text, or the place and the days to ask for. *)
Inductive Prepared : Type :=
| Refused : str -> Prepared
| Request : str -> date -> date -> Prepared.

Definition FORECAST_HORIZON_DAYS : Z := 16.

(** [WeatherClient.get_weather] up to its first request; [today] is what
    [date.today()] answers. *)
Definition get_weather (today : date) (trip : TripProfile) : Prepared :=
  match destination trip with
  | Some ((_ :: _) as d) =>
    let dest := strip d in
    let start := match start_date trip with Some s => s | None => today end in
    let end_ := match end_date trip with Some e => e | None => start end in
    let days := (days_between end_ start + 1)%Z in
    if (days <=? 0)%Z then Refused (utf8 "Invalid date range")
    else if (days >? FORECAST_HORIZON_DAYS)%Z then
      Refused (utf8 "Forecast range too long (Open-Meteo forecasts up to ~16 days).")
    else Request dest start end_
  | _ => Refused (utf8 "Missing destination")
  end.

End WeatherClient.

(** ** backend/tools/currency_client.py: before the request *)

Module CurrencyClient.

(** What [convert] has settled when it turns to the network: a refusal
    with its error text, or the [base] and [symbols] of the request. *)
Inductive Prepared : Type :=
| Refused : str -> Prepared
| Request : str -> str -> Prepared.

(** [CurrencyClient.convert] up to its request. *)
Definition convert (amount : Q) (from_ccy to_ccy : str) : Prepared :=
  if Qle_bool amount 0 then Refused (utf8 "Amount must be > 0")
  else
    match from_ccy, to_ccy with
    | _ :: _, _ :: _ => Request (strip (upper from_ccy)) (strip (upper to_ccy))
    | _, _ => Refused (utf8 "Missing currency codes")
    end.

End CurrencyClient.

Arguments utf8 : simpl never.
Arguments strip : simpl never.
Arguments validate : simpl never.
Arguments build_clarification_question : simpl never.
Arguments apply : simpl never.
Arguments recover : simpl never.
Arguments decide : simpl never.
Arguments _execute_decision : simpl never.
Arguments _infer_pending_from_assistant : simpl never.
Arguments _guardrail_roll_month_without_year_forward : simpl never.
Arguments apply_updates : simpl never.
Arguments add_message : simpl never.
Arguments parse_currency_query : simpl never.
Arguments parse_currency_pair : simpl never.
Arguments parse_currency_amount : simpl never.
Arguments mentions_month : simpl never.
Arguments is_seasonal_weather_question : simpl never.
Arguments found : simpl never.
Arguments contains : simpl never.

(** ** Vocabulary of the statements *)

Module Notions.

Local Open Scope N_scope.


(** A message the history scan counts: from the user, with some text. *)
Definition counted (m : Message) : bool :=
  is_user (role m) &&
  match strip (content m) with
  | [] => false
  | _ => true
  end.


(** The call-tool Decision of the currency branch. *)
Definition currency_call (q : CurrencyQuery) : Decision :=
  {| action := CALL_TOOL;
     missing_info := [];
     tool_name := Some (utf8 "currency");
     notes := Some (utf8 "Currency conversion -> call tool (use resolved currency_query; no re-parse in FlowController)");
     tool_payload := Some (currency_payload q) |}.










End Notions.

Import Notions.

(** ** Sample sessions used by the closed lemmas *)

Module Samples.

Definition u (s : string) : Message := {| role := user; content := utf8 s |}.
Definition a (s : string) : Message := {| role := assistant; content := utf8 s |}.

Definition today0 : date := {| year := 2026; month := 11; day := 3 |}.

Definition paris : TripProfile := set_destination (Some (utf8 "Paris")) new_profile.

(** A session waiting for the amount of a conversion whose pair was given. *)
Definition awaiting_amount : State :=
  {| session_id := utf8 "s1";
     trip_profile := new_profile;
     conversation_history :=
       [u "USD to EUR";
        a "What amount do you want to convert? (e.g., 100)";
        u "100"];
     last_intent := Some CURRENCY_CONVERSION;
     primary_intent := None;
     turn_count := 2;
     pending_missing_info := pending_amount |}.

(** The same session with a trip length of zero days on record. *)
Definition awaiting_amount_zero_days : State :=
  set_trip_profile (set_duration_days (Some 0%Z) new_profile) awaiting_amount.

(** A session waiting for the pair after the user sent a number. *)
Definition awaiting_pair : State :=
  {| session_id := utf8 "s2";
     trip_profile := new_profile;
     conversation_history :=
       [u "100";
        a "Which currencies are you converting between?";
        u "EUR to USD"];
     last_intent := Some CURRENCY_CONVERSION;
     primary_intent := None;
     turn_count := 2;
     pending_missing_info := pending_pair |}.

Definition in_paris : State :=
  {| session_id := utf8 "s3";
     trip_profile := paris;
     conversation_history := [u "weather please"];
     last_intent := Some WEATHER_QUERY;
     primary_intent := Some WEATHER_QUERY;
     turn_count := 1;
     pending_missing_info := [] |}.


(** Paris for the whole of February 2024, a leap year. *)
Definition february_2024 : State :=
  set_trip_profile
    (set_end_date (Some {| year := 2024; month := 2; day := 29 |})
       (set_start_date (Some {| year := 2024; month := 2; day := 1 |}) paris))
    in_paris.

(** Collaborators that answer a fixed intent with fixed updates, a fixed
    generated text, failing tools, and the repository's decision logic. *)
Definition env_with (i : Intent) (updates : pydict) (generated : result str)
    (client : FallbackClient) : Env :=
  {| today := today0;
     py_format := fun _ => [];
     classify := fun _ _ _ => Ok {| intent := i; extracted_updates := updates |};
     decision_logic := the_decision_logic today0;
     generate := fun _ _ _ _ => generated;
     get_weather := fun _ => Ok {| tr_ok := false; tr_data := [] |};
     convert := fun _ _ _ => Ok {| tr_ok := false; tr_data := [] |};
     fallback_client := client |}.

(** The profile after a sequence of [apply_updates] calls (a call that
    raises leaves the profile as far as it got). *)
Definition apply_all (p : TripProfile) (updates : list pydict) : TripProfile :=
  fold_left (fun q upd => fst (apply_updates q upd)) updates p.

(** The entries an update offers for a list field: its strings, stripped,
    the empty ones dropped. *)
Fixpoint offered (items : list pyval) : list str :=
  match items with
  | [] => []
  | VStr s :: rest =>
    match strip s with
    | [] => offered rest
    | t => t :: offered rest
    end
  | _ :: rest => offered rest
  end.

Definition food_twice : pydict :=
  [(utf8 "destination", VStr (utf8 " Rome "));
   (utf8 "interests", VList [VStr (utf8 "food"); VStr (utf8 " museums"); VStr (utf8 "food ")]);
   (utf8 "constraints", VList [VStr (utf8 "vegetarian"); VInt 3])].

Definition more_interests : pydict :=
  [(utf8 "interests", VList [VStr (utf8 "museums"); VStr (utf8 "hiking")])].


(** A session of the store with at most one pending slot. *)
Definition bounded (kv : str * State) : Prop :=
  (length (pending_missing_info (snd kv)) <= 1)%nat.

Definition c4_text : str :=
  utf8 "The rate is 0.84, so 100 USD converts to 84.00 EUR".


Definition silent_client : FallbackClient := fun _ _ _ _ _ => Ok [].

(** A first message nobody can make sense of. *)
Definition env_hello : Env :=
  env_with CLARIFICATION_NEEDED [] (Ok (utf8 "Hello!")) silent_client.

(** What the month-without-year guardrail does to a profile. *)
Definition rolled (today : date) (user_message : str) (p : TripProfile)
  : TripProfile :=
  trip_profile
    (_guardrail_roll_month_without_year_forward today user_message
       (set_trip_profile p (new_state []))).



(** The February session and a question about the month. *)
Definition env_february : Env :=
  env_with WEATHER_QUERY [] (Ok (utf8 "February is mild and often wet.")) silent_client.

Definition february_question : str := utf8 "What is the weather like in February?".

End Samples.

Import Samples.

(** ** Vocabulary of the further properties *)

Module Shapes.

(** A currency code as the conversion service takes it: three capital
    letters. *)
Definition is_currency_code (c : str) : bool :=
  Nat.eqb (length c) 3 && forallb is_upper c.

(** Two codes to convert between. *)
Definition well_formed_pair (p : str * str) : bool :=
  is_currency_code (fst p) && is_currency_code (snd p) &&
  negb (str_eqb (fst p) (snd p)).

(** A query a conversion can be run on. *)
Definition well_formed (q : CurrencyQuery) : bool :=
  Qpositive (amount q) && well_formed_pair (from_ccy q, to_ccy q).

Definition opt_holds (A : Type) (P : A -> bool) (o : option A) : bool :=
  match o with
  | Some x => P x
  | None => true
  end.

(** The call-tool Decision of the weather branch. *)
Definition weather_call : Decision :=
  {| action := CALL_TOOL;
     missing_info := [];
     tool_name := Some (utf8 "weather");
     notes := Some (utf8 "Weather query within horizon -> call tool");
     tool_payload := None |}.

End Shapes.

Import Shapes.

(** ** Invariants of a session *)

Module Invariants.

Definition goal_or_none (o : option Intent) : bool :=
  match o with
  | Some i => is_goal i
  | None => true
  end.

(** The intents a session remembers are goals, and the primary goal is
    never currency conversion. *)
Definition intents_in_order (st : State) : Prop :=
  goal_or_none (last_intent st) = true
  /\ goal_or_none (primary_intent st) = true
  /\ primary_intent st <> Some CURRENCY_CONVERSION.

End Invariants.

Import Invariants.

(** ** More sample sessions *)

Module MoreSamples.

(** Paris, with the amount of a conversion still asked for. *)
Definition awaiting_amount_in_paris : State :=
  set_trip_profile paris awaiting_amount.

(** A packing question in between. *)
Definition env_packing : Env :=
  env_with PACKING_LIST [] (Ok (utf8 "Pack light layers and a rain jacket."))
    silent_client.

Definition packing_question : str := utf8 "what should I pack?".

End MoreSamples.

Import MoreSamples.

(** ** Field names *)

Module Fields.

(** The keys [apply_updates] reads. *)
Definition profile_fields : list str :=
  map utf8
    ["destination"; "start_date"; "end_date"; "duration_days"; "budget";
     "travelers"; "pace"; "interests"; "constraints"]%string.

End Fields.

Import Fields.

(** ** Calendar *)

Module Calendar.

(** A date of the calendar, as every [datetime.date] is. *)
Definition valid (d : date) : bool := valid_date (year d) (month d) (day d).

Definition leap_day (y : Z) : Z := if is_leap y then 1%Z else 0%Z.

(** The dates of a profile are dates of the calendar. *)
Definition valid_dates (trip : TripProfile) : Prop :=
  (forall d, start_date trip = Some d -> valid d = true)
  /\ (forall d, end_date trip = Some d -> valid d = true).

End Calendar.

Import Calendar.

(** ** Slots *)

Module Slots.

(** The slots the clarification helper has a question of its own for. *)
Definition known_slots : list str :=
  map utf8
    ["destination"; "dates"; "dates_or_duration"; "budget"; "travelers";
     "interests"; "pace"; "goal"; "currency_pair"; "currency_amount";
     "currency_from"; "currency_to"]%string.

Definition generic_question : str :=
  utf8 "What’s one more detail about your trip that matters most (destination, dates, budget, travelers)?".

(** Every pending slot of the session is a known one. *)
Definition slots_known (v : list str) : Prop :=
  Forall (fun x => In x known_slots) v.

End Slots.

Import Slots.

(** ** Texts on record *)

Module Records.

(** An optional text that is unset or not empty. *)
Definition filled (o : option str) : bool :=
  match o with
  | Some [] => false
  | _ => true
  end.

(** No empty text on record in a profile. *)
Definition no_blank_text (p : TripProfile) : Prop :=
  filled (destination p) = true
  /\ filled (budget p) = true
  /\ filled (travelers p) = true
  /\ filled (pace p) = true
  /\ Forall (fun x => x <> []) (interests p)
  /\ Forall (fun x => x <> []) (constraints p).

(** What is left of a currency token: lower case, and nothing but
    letters and currency signs. *)
Definition cleaned (token : str) : str :=
  filter (fun c => in_ranges c [(97, 122); (36, 36); (8362, 8362); (8364, 8364)]%N)
    (lower (strip token)).

End Records.

Import Records.

(** ** Proof steps *)

Ltac split_conditions :=
  repeat match goal with
         | |- context [if ?b then _ else _] =>
           let E := fresh "E" in destruct b eqn:E
         end.

Ltac known_field :=
  unfold profile_fields; cbn [map In];
  repeat (first [left; reflexivity | right]).

Ltac eval_tests :=
  repeat match goal with
         | |- context [mem_str (utf8 ?a) currency_fields] =>
           replace (mem_str (utf8 a) currency_fields) with true
             by (vm_compute; reflexivity)
         | |- context [str_eqb (utf8 ?a) (utf8 ?b)] =>
           let v := eval vm_compute in (str_eqb (utf8 a) (utf8 b)) in
           replace (str_eqb (utf8 a) (utf8 b)) with v
             by (vm_compute; reflexivity)
         end.

Ltac sum_months :=
  repeat match goal with
         | |- context [fold_left ?f ?l ?a] =>
           let v := eval vm_compute in (fold_left f l a) in
           change (fold_left f l a) with v
         end;
  cbn [Z.eqb Pos.eqb orb].

Ltac known_slot :=
  unfold slots_known;
  repeat (apply Forall_cons;
          [unfold known_slots; cbn [map In];
           repeat (first [left; reflexivity | right])|]);
  try apply Forall_nil.


(** * Properties *)

(** ** Text *)

Lemma str_eqb_refl (a : str) : str_eqb a a = true.
Proof.
  induction a as [|x a IH]; simpl; [reflexivity|].
  rewrite N.eqb_refl. exact IH.
Qed.

Lemma str_eqb_eq (a b : str) : str_eqb a b = true <-> a = b.
Proof.
  split.
  - revert b. induction a as [|x a IH]; intros [|y b]; simpl; try discriminate.
    + reflexivity.
    + intros H. apply andb_true_iff in H. destruct H as [H1 H2].
      apply N.eqb_eq in H1. apply IH in H2. congruence.
  - intros ->. apply str_eqb_refl.
Qed.

Lemma strs_eqb_eq (a b : list str) : strs_eqb a b = true <-> a = b.
Proof.
  split.
  - revert b. induction a as [|x a IH]; intros [|y b]; simpl; try discriminate.
    + reflexivity.
    + intros H. apply andb_true_iff in H. destruct H as [H1 H2].
      apply str_eqb_eq in H1. apply IH in H2. congruence.
  - intros ->. induction b as [|y b IH]; simpl; [reflexivity|].
    rewrite str_eqb_refl. exact IH.
Qed.

Lemma mem_str_In (x : str) (xs : list str) : mem_str x xs = true <-> In x xs.
Proof.
  unfold mem_str. rewrite existsb_exists. split.
  - intros [y [Hin Heq]]. apply str_eqb_eq in Heq. subst. exact Hin.
  - intros Hin. exists x. split; [exact Hin | apply str_eqb_refl].
Qed.

(** ** Decision *)

Lemma action_eqb_eq (a b : Action) : action_eqb a b = true <-> a = b.
Proof. destruct a, b; simpl; split; intros H; congruence. Qed.

(** C2, as stated, fails: the weather decision of [decide] is a call-tool
    Decision that is built without error and carries no payload. *)
Lemma C2_call_tool_without_payload :
  decide today0 WEATHER_QUERY (validate WEATHER_QUERY in_paris)
    (utf8 "What is the weather there?") in_paris
  = new_decision CALL_TOOL [] (Some (utf8 "weather"))
      (Some (utf8 "Weather query within horizon -> call tool")) None
  /\ exists d,
       new_decision CALL_TOOL [] (Some (utf8 "weather"))
         (Some (utf8 "Weather query within horizon -> call tool")) None = Ok d
       /\ action d = CALL_TOOL
       /\ tool_name d = Some (utf8 "weather")
       /\ tool_payload d = None.
Proof.
  split; [vm_compute; reflexivity|].
  eexists. split; [vm_compute; reflexivity|].
  simpl. repeat split.
Qed.

(** C2 (amended): a Decision is built exactly when its tool fields fit its
    action.  Once built, it has a non-empty tool name if and only if its
    action is call-tool, and it may carry a payload only if its action is
    call-tool; a call-tool Decision without a tool name, and any other
    Decision with a tool name or a payload, is refused at construction. *)
Theorem C2_decision_tool_fields (a : Action) (mi : list str)
    (tn n : option str) (tp : option pydict) :
  match new_decision a mi tn n tp with
  | Ok d =>
    d = {| action := a; missing_info := mi; tool_name := tn; notes := n;
           tool_payload := tp |}
    /\ (action d = CALL_TOOL <-> truthy (tool_name d) = true)
    /\ (action d = CALL_TOOL <-> is_some (tool_name d) = true)
    /\ (is_some (tool_payload d) = true -> action d = CALL_TOOL)
  | Raise _ =>
    (a = CALL_TOOL /\ truthy tn = false)
    \/ (a <> CALL_TOOL /\ (is_some tn = true \/ is_some tp = true))
  end.
Proof.
  unfold new_decision, _check_tool_name; simpl.
  destruct a; simpl;
    destruct tn as [[|c t]|]; simpl;
    destruct tp as [p|]; simpl;
    repeat split; intros; try discriminate; try congruence; auto;
    try (left; split; congruence);
    try (right; split; [congruence | auto]).
Qed.

(** ** Trust layer *)

(** C4, as stated, fails in its second half: the text the filter puts in
    place of the blocked answer shows the sample phrase "100 USD to EUR",
    a number next to a currency code, so the filter's own detector still
    fires on the output. *)
Lemma C4_output_still_matches :
  exists r,
    apply (fun _ => []) CURRENCY_CONVERSION c4_text None None = Ok r
    /\ _contains_currency_rate_or_conversion (text r) = true
    /\ contains (utf8 "100 USD") (text r) = true.
Proof.
  eexists. split; [vm_compute; reflexivity|].
  split; vm_compute; reflexivity.
Qed.

(** C4 (amended): on that input the filter answers the fixed "couldn't
    fetch a live exchange rate" message, flagged with the single reason
    [currency_numbers_without_tool]; the figures of the blocked answer
    (0.84, 84.00) are gone and no "rate of N", "converts to N",
    code-before-number, symbol-number or "exchange rate ... N" pattern is
    left: the only pattern the output still shows is the number-before-code
    of its sample phrase. *)
Theorem C4_currency_numbers_blocked (fmt : pyval -> str) (u : option str) :
  apply fmt CURRENCY_CONVERSION c4_text None u
  = Ok {| text := _safe_currency_without_tool;
          flagged := true;
          reasons := [utf8 "currency_numbers_without_tool"] |}
  /\ _contains_currency_rate_or_conversion c4_text = true
  /\ contains (utf8 "0.84") _safe_currency_without_tool = false
  /\ contains (utf8 "84.00") _safe_currency_without_tool = false
  /\ map (fun p => found p (lower _safe_currency_without_tool)) currency_patterns
     = [false; true; false; false; false; false].
Proof.
  repeat split; vm_compute; reflexivity.
Qed.

(** ** Decision routing: weather *)







(** ** Cross-message combination *)

Lemma scan_history_keeps_amount (an : option Q) (pn : option (str * str))
    (n : Z) (msgs : list Message) :
  forall fa fp cnt, fst (scan_history an pn n false msgs fa fp cnt) = fa.
Proof.
  induction msgs as [|m rest IH]; intros fa fp cnt; simpl; [reflexivity|].
  destruct (negb (is_user (role m))); [apply IH|].
  destruct (strip (content m)) as [|c t]; [apply IH|].
  destruct (cnt + 1 >? n)%Z; [reflexivity|].
  match goal with
  | |- context [if ?b then _ else _] => destruct b
  end; [reflexivity | apply IH].
Qed.

Lemma combine_amount_is_current (msg : str) (hist : list Message) (n : Z)
    (q : CurrencyQuery) :
  combine_currency_query_from_history msg hist n false = Some q ->
  p_amount (_extract_currency_parts msg) = Some (amount q).
Proof.
  unfold combine_currency_query_from_history, _extract_currency_parts.
  destruct (parse_currency_query msg) as [full|] eqn:Hfull; simpl.
  - intros H. injection H as <-. reflexivity.
  - destruct (parse_currency_amount msg) as [a|] eqn:Ha; simpl.
    + destruct (first_some _ _) as [[f t]|]; [|discriminate].
      intros H. injection H as <-. reflexivity.
    + destruct (parse_currency_pair msg) as [p|]; simpl; [|discriminate].
      rewrite scan_history_keeps_amount. simpl. discriminate.
Qed.

Lemma combine_needs_current_amount (msg : str) (hist : list Message) (n : Z) :
  p_amount (_extract_currency_parts msg) = None ->
  combine_currency_query_from_history msg hist n false = None.
Proof.
  intros H.
  destruct (combine_currency_query_from_history msg hist n false) as [q|] eqn:E;
    [|reflexivity].
  apply combine_amount_is_current in E. congruence.
Qed.

(** C7: with amount-from-history not permitted, the amount of a combined
    query is the one read in the current message, for every message,
    history and lookback, and a message without an amount combines to
    nothing; in particular "EUR to USD" after the earlier message "100"
    yields no query, and the router, with [currency_pair] pending, asks for
    the amount. *)
Theorem C7_amount_never_taken_from_history :
  (forall (msg : str) (hist : list Message) (n : Z) (q : CurrencyQuery),
      combine_currency_query_from_history msg hist n false = Some q ->
      p_amount (_extract_currency_parts msg) = Some (amount q))
  /\ (forall (msg : str) (hist : list Message) (n : Z),
         p_amount (_extract_currency_parts msg) = None ->
         combine_currency_query_from_history msg hist n false = None)
  /\ combine_currency_query_from_history (utf8 "EUR to USD") [u "100"] 10 false
     = None
  /\ decide today0 CURRENCY_CONVERSION
       (validate CURRENCY_CONVERSION awaiting_pair) (utf8 "EUR to USD")
       awaiting_pair
     = Ok {| action := ASK_CLARIFICATION;
             missing_info := [utf8 "currency_amount"];
             tool_name := None;
             notes := Some (utf8 "Currency conversion missing amount (pair detected)");
             tool_payload := None |}.
Proof.
  split; [|split; [|split]].
  - exact combine_amount_is_current.
  - exact combine_needs_current_amount.
  - vm_compute. reflexivity.
  - vm_compute. reflexivity.
Qed.

(** With the backfill permitted the same two messages do combine. *)
Lemma combine_with_backfill_example :
  combine_currency_query_from_history (utf8 "EUR to USD") [u "100"] 10 true
  = Some {| amount := 100; from_ccy := utf8 "EUR"; to_ccy := utf8 "USD" |}.
Proof. vm_compute. reflexivity. Qed.

(** ** Trip profile updates *)

Lemma merge_strings_extends (items : list pyval) :
  forall cur, exists added, merge_strings cur items = cur ++ added.
Proof.
  induction items as [|v rest IH]; intros cur; simpl.
  - exists []. symmetry. apply app_nil_r.
  - destruct v; try apply IH.
    destruct (strip s) as [|c t]; [apply IH|].
    destruct (mem_str (c :: t) cur); [apply IH|].
    destruct (IH (cur ++ [c :: t])) as [added Hadd].
    exists ((c :: t) :: added). rewrite <- app_assoc in Hadd. exact Hadd.
Qed.

Lemma merge_strings_keeps (items : list pyval) (cur : list str) (x : str) :
  In x cur -> In x (merge_strings cur items).
Proof.
  intros H. destruct (merge_strings_extends items cur) as [added ->].
  apply in_or_app. left. exact H.
Qed.

Lemma merge_strings_NoDup (items : list pyval) :
  forall cur, NoDup cur -> NoDup (merge_strings cur items).
Proof.
  induction items as [|v rest IH]; intros cur Hnd; simpl; [exact Hnd|].
  destruct v; try (apply IH; exact Hnd).
  destruct (strip s) as [|c t]; [apply IH; exact Hnd|].
  destruct (mem_str (c :: t) cur) eqn:Hmem; [apply IH; exact Hnd|].
  apply IH.
  apply NoDup_app.
  - exact Hnd.
  - constructor; [intros []|constructor].
  - intros x Hx [Hy|[]]. subst x.
    apply mem_str_In in Hx. congruence.
Qed.

Lemma merge_strings_In (items : list pyval) :
  forall cur x,
    In x (merge_strings cur items) <-> In x cur \/ In x (offered items).
Proof.
  induction items as [|v rest IH]; intros cur x; simpl.
  - tauto.
  - destruct v; try apply IH.
    destruct (strip s) as [|c t]; [apply IH|].
    destruct (mem_str (c :: t) cur) eqn:Hmem.
    + rewrite IH. simpl. apply mem_str_In in Hmem.
      split; [tauto|]. intros [H|[H|H]]; auto. subst x. auto.
    + rewrite IH, in_app_iff. simpl. tauto.
Qed.

Lemma merge_strings_absorbs (items : list pyval) :
  forall cur,
    (forall x, In x (offered items) -> In x cur) ->
    merge_strings cur items = cur.
Proof.
  induction items as [|v rest IH]; intros cur H; simpl; [reflexivity|].
  destruct v; try (apply IH; exact H).
  simpl in H.
  destruct (strip s) as [|c t]; [apply IH; exact H|].
  assert (Hin : In (c :: t) cur) by (apply H; left; reflexivity).
  apply mem_str_In in Hin. rewrite Hin.
  apply IH. intros x Hx. apply H. right. exact Hx.
Qed.

Lemma merge_strings_idempotent (items : list pyval) (cur : list str) :
  merge_strings (merge_strings cur items) items = merge_strings cur items.
Proof.
  apply merge_strings_absorbs.
  intros x Hx. apply merge_strings_In. right. exact Hx.
Qed.

Lemma merge_field_idempotent (v : pyval) (cur : list str) :
  merge_field (merge_field cur v) v = merge_field cur v.
Proof.
  destruct v; simpl; try reflexivity. apply merge_strings_idempotent.
Qed.

Lemma merge_field_extends (v : pyval) (cur : list str) :
  exists added, merge_field cur v = cur ++ added.
Proof.
  destruct v; simpl; try (exists []; symmetry; apply app_nil_r).
  apply merge_strings_extends.
Qed.

Lemma merge_field_NoDup (v : pyval) (cur : list str) :
  NoDup cur -> NoDup (merge_field cur v).
Proof.
  destruct v; simpl; auto. apply merge_strings_NoDup.
Qed.

Lemma text_update_idempotent (v : pyval) (old : option str) :
  text_update v (text_update v old) = text_update v old.
Proof.
  unfold text_update. destruct (stripped_text v); reflexivity.
Qed.

Lemma assigned_idempotent (A : Type) (new old : option A) :
  assigned new (assigned new old) = assigned new old.
Proof. destruct new; reflexivity. Qed.

(** What one call does to the two list fields. *)
Lemma apply_updates_lists (p : TripProfile) (upd : pydict) :
  (interests (fst (apply_updates p upd)) = interests p
   \/ interests (fst (apply_updates p upd))
      = merge_field (interests p) (get "interests" upd))
  /\ (constraints (fst (apply_updates p upd)) = constraints p
      \/ constraints (fst (apply_updates p upd))
         = merge_field (constraints p) (get "constraints" upd)).
Proof.
  unfold apply_updates.
  destruct upd as [|kv upd']; [simpl; auto|].
  destruct (date_update _) as [sd|e]; [|simpl; auto].
  destruct (date_update _) as [ed|e]; simpl; auto.
Qed.

Lemma apply_updates_idempotent (p : TripProfile) (upd : pydict) :
  fst (apply_updates (fst (apply_updates p upd)) upd) = fst (apply_updates p upd).
Proof.
  unfold apply_updates.
  destruct upd as [|kv upd']; [reflexivity|].
  set (dict := kv :: upd').
  destruct (date_update (get "start_date" dict)) as [sd|e] eqn:Hsd.
  - destruct (date_update (get "end_date" dict)) as [ed|e] eqn:Hed.
    + unfold fst at 2 3. cbn [fst destination start_date end_date duration_days
                               budget travelers interests pace constraints].
      rewrite !text_update_idempotent, !merge_field_idempotent,
        !assigned_idempotent.
      f_equal. destruct (get "duration_days" dict); reflexivity.
    + cbn [fst]. unfold set_start_date, set_destination.
      cbn [destination start_date end_date duration_days budget travelers
           interests pace constraints].
      rewrite text_update_idempotent, assigned_idempotent. reflexivity.
  - cbn [fst]. unfold set_destination.
    cbn [destination start_date end_date duration_days budget travelers
         interests pace constraints].
    rewrite text_update_idempotent. reflexivity.
Qed.

Lemma apply_all_lists (upds : list pydict) :
  forall p,
    NoDup (interests p) -> NoDup (constraints p) ->
    (NoDup (interests (apply_all p upds))
     /\ exists added, interests (apply_all p upds) = interests p ++ added)
    /\ (NoDup (constraints (apply_all p upds))
        /\ exists added, constraints (apply_all p upds) = constraints p ++ added).
Proof.
  unfold apply_all.
  induction upds as [|upd rest IH]; intros p Hi Hc; simpl.
  - repeat split; auto; exists []; symmetry; apply app_nil_r.
  - destruct (apply_updates_lists p upd) as [Hint Hcon].
    assert (Hi' : NoDup (interests (fst (apply_updates p upd)))).
    { destruct Hint as [-> | ->]; [exact Hi | apply merge_field_NoDup; exact Hi]. }
    assert (Hc' : NoDup (constraints (fst (apply_updates p upd)))).
    { destruct Hcon as [-> | ->]; [exact Hc | apply merge_field_NoDup; exact Hc]. }
    destruct (IH _ Hi' Hc') as [[Hn1 [a1 He1]] [Hn2 [a2 He2]]].
    repeat split; auto.
    + destruct Hint as [Hx | Hx]; rewrite Hx in He1.
      * exists a1. exact He1.
      * destruct (merge_field_extends (get "interests" upd) (interests p)) as [b Hb].
        exists (b ++ a1). rewrite He1, Hb, app_assoc. reflexivity.
    + destruct Hcon as [Hx | Hx]; rewrite Hx in He2.
      * exists a2. exact He2.
      * destruct (merge_field_extends (get "constraints" upd) (constraints p)) as [b Hb].
        exists (b ++ a2). rewrite He2, Hb, app_assoc. reflexivity.
Qed.

(** C6: along every sequence of [apply_updates] calls, [interests] and
    [constraints] stay free of duplicates and every entry keeps the place
    it was first given (the lists only grow at the end); and a second
    application of the same update changes nothing: the profile is the
    one the first application left. *)
Theorem C6_lists_distinct_ordered_idempotent (p : TripProfile)
    (upds : list pydict) (upd : pydict) :
  NoDup (interests p) ->
  NoDup (constraints p) ->
  NoDup (interests (apply_all p upds))
  /\ NoDup (constraints (apply_all p upds))
  /\ (exists added, interests (apply_all p upds) = interests p ++ added)
  /\ (exists added, constraints (apply_all p upds) = constraints p ++ added)
  /\ fst (apply_updates (fst (apply_updates p upd)) upd)
     = fst (apply_updates p upd).
Proof.
  intros Hi Hc.
  destruct (apply_all_lists upds p Hi Hc) as [[H1 H2] [H3 H4]].
  repeat split; auto.
  apply apply_updates_idempotent.
Qed.

Lemma C6_witness :
  NoDup (interests (apply_all new_profile [food_twice; more_interests; food_twice]))
  /\ NoDup (constraints (apply_all new_profile [food_twice; more_interests; food_twice]))
  /\ (exists added,
         interests (apply_all new_profile [food_twice; more_interests; food_twice])
         = interests new_profile ++ added)
  /\ (exists added,
         constraints (apply_all new_profile [food_twice; more_interests; food_twice])
         = constraints new_profile ++ added)
  /\ fst (apply_updates (fst (apply_updates new_profile food_twice)) food_twice)
     = fst (apply_updates new_profile food_twice).
Proof.
  apply (@C6_lists_distinct_ordered_idempotent new_profile
           [food_twice; more_interests; food_twice] food_twice);
    simpl; constructor.
Defined.

(** The order in the example: first seen, first placed. *)
Lemma apply_all_example :
  interests (apply_all new_profile [food_twice; more_interests; food_twice])
  = [utf8 "food"; utf8 "museums"; utf8 "hiking"]
  /\ constraints (apply_all new_profile [food_twice; more_interests; food_twice])
     = [utf8 "vegetarian"].
Proof. split; vm_compute; reflexivity. Qed.

(** ** Recovery ladder *)


Lemma firstn_1_length (A : Type) (l : list A) : (length (firstn 1 l) <= 1)%nat.
Proof. destruct l as [|x [|y l]]; simpl; lia. Qed.




(** With a client that answers nothing the ladder ends on the fixed text. *)
Lemma recover_silent_client_example :
  recover silent_client in_paris (utf8 "and tomorrow?") (Some WEATHER_QUERY)
    [] None
  = Ok {| message := canned_goal_selection; used_llm := false;
          f_pending_missing_info := [utf8 "goal"];
          resolved_intent := Some WEATHER_QUERY |}.
Proof. vm_compute. reflexivity. Qed.

(** ** One slot at most *)

Lemma pending_add_message (m : Z) (r : Role) (c : str) (st : State) :
  pending_missing_info (add_message m r c st) = pending_missing_info st.
Proof. unfold add_message. destruct (_ >? _)%Z; reflexivity. Qed.

Lemma infer_pending_length (t : str) (i : Intent) (st : State) :
  (length (_infer_pending_from_assistant t i st) <= 1)%nat.
Proof.
  unfold _infer_pending_from_assistant.
  destruct (_ || _); [simpl; lia|].
  destruct (is_goal i && negb (intent_eqb i CURRENCY_CONVERSION)).
  - destruct (v_missing_info (validate i st)) as [|x [|y l]] eqn:E.
    + destruct (intent_eqb i CURRENCY_CONVERSION);
        repeat match goal with
               | |- context [if ?b then _ else _] => destruct b
               end; simpl; lia.
    + simpl. lia.
    + simpl. lia.
  - destruct (intent_eqb i CURRENCY_CONVERSION);
      repeat match goal with
             | |- context [if ?b then _ else _] => destruct b
             end; simpl; lia.
Qed.

Lemma after_recovery_pending (fb : FallbackResult) (i : Intent) (st : State) :
  (length (pending_missing_info (after_recovery fb i st)) <= 1)%nat.
Proof.
  unfold after_recovery.
  match goal with
  | |- context [if ?b then _ else _] => destruct b
  end; simpl;
    (destruct (f_pending_missing_info fb) as [|x [|y l]];
     [apply infer_pending_length | simpl; lia | simpl; lia]).
Qed.

Lemma execute_decision_pending (env : Env) (d : Decision) (st : State)
    (i : Intent) (m : str) :
  pending_missing_info (fst (_execute_decision env d st i m))
  = pending_missing_info st.
Proof.
  unfold _execute_decision.
  destruct (action d); try reflexivity.
  repeat match goal with
         | |- context [if ?b then _ else _] => destruct b
         | |- context [match ?x with _ => _ end] => destruct x
         end; reflexivity.
Qed.

Lemma turn_tail_pending (env : Env) (m : Z) (d : Decision) (i : Intent)
    (msg : str) (state : State) (a : str) (st' : State) (t : str) :
  (length (pending_missing_info state) <= 1)%nat ->
  match
    (if negb (action_eqb (action d) CALL_TOOL)
     then
       match apply (py_format env) i a None (Some msg) with
       | Ok trust => Ok (text trust)
       | Raise e => Raise e
       end
     else Ok a)
  with
  | Ok a0 =>
    (add_message m assistant a0
       (if action_eqb (action d) GENERATE_RESPONSE &&
           Nat.eqb (length (pending_missing_info state)) 0
        then set_pending (_infer_pending_from_assistant a0 i state) state
        else state),
     Ok a0)
  | Raise e => (state, Raise e)
  end = (st', Ok t) ->
  (length (pending_missing_info st') <= 1)%nat.
Proof.
  intros Hle H.
  destruct (if negb (action_eqb (action d) CALL_TOOL) then _ else _)
    as [a0|e]; [|discriminate].
  injection H as <- _.
  rewrite pending_add_message.
  destruct (_ && _).
  - apply infer_pending_length.
  - exact Hle.
Qed.

Lemma turn_pending (env : Env) (m : Z) (msg : str) (st st' : State) (t : str) :
  turn env m msg st = (st', Ok t) ->
  (length (pending_missing_info st') <= 1)%nat.
Proof.
  unfold turn.
  destruct (classify env msg (_recent_messages st 6) (pending_missing_info st))
    as [ir|e]; [|discriminate].
  set (st1 := add_message m user msg st).
  set (upd := apply_updates (trip_profile st1) (extracted_updates ir)).
  destruct (snd upd); [|discriminate].
  set (st2 := _guardrail_roll_month_without_year_forward (today env) msg
                (set_trip_profile (fst upd) st1)).
  set (i := if intent_eqb (intent ir) CONSTRAINTS_UPDATE then _ else _).
  set (st3 := increment_turn _).
  destruct (decision_logic env i (validate i st3) msg st3) as [[d|]|e];
    [| |discriminate].
  - (* a decision *)
    set (st4 := if action_eqb (action d) ASK_CLARIFICATION then _ else _).
    assert (H4 : (length (pending_missing_info st4) <= 1)%nat).
    { subst st4. destruct (action_eqb (action d) ASK_CLARIFICATION).
      - apply firstn_1_length.
      - destruct (strs_eqb (pending_missing_info st) pending_amount) eqn:E.
        + destruct (negb _); cbn [andb pending_missing_info set_pending].
          * apply strs_eqb_eq in E. rewrite E. cbn. lia.
          * cbn. lia.
        + cbn. lia. }
    set (ex := _execute_decision env d st4 i msg).
    assert (H5 : (length (pending_missing_info (fst ex)) <= 1)%nat).
    { subst ex. rewrite execute_decision_pending. exact H4. }
    assert (Hrec : forall e0,
               match
                 match
                   recover (fallback_client env) (fst ex) msg (Some i)
                     (_recent_messages (fst ex) 8) (Some e0)
                 with
                 | Ok fallback =>
                   Ok (after_recovery fallback i (fst ex), message fallback)
                 | Raise e' => Raise e'
                 end
               with
               | Ok (state, a) =>
                 match
                   (if negb (action_eqb (action d) CALL_TOOL)
                    then
                      match apply (py_format env) i a None (Some msg) with
                      | Ok trust => Ok (text trust)
                      | Raise e => Raise e
                      end
                    else Ok a)
                 with
                 | Ok a0 =>
                   (add_message m assistant a0
                      (if action_eqb (action d) GENERATE_RESPONSE &&
                          Nat.eqb (length (pending_missing_info state)) 0
                       then set_pending (_infer_pending_from_assistant a0 i state) state
                       else state),
                    Ok a0)
                 | Raise e => (state, Raise e)
                 end
               | Raise e => (fst ex, Raise e)
               end = (st', Ok t) ->
               (length (pending_missing_info st') <= 1)%nat).
    { intros e0.
      destruct (recover _ _ _ _ _ _) as [fb|e']; [|discriminate].
      apply turn_tail_pending. apply after_recovery_pending. }
    destruct (snd ex) as [t0|e0].
    + destruct (strip t0) as [|c0 t0'].
      * apply Hrec.
      * apply turn_tail_pending. exact H5.
    + apply Hrec.
  - (* no decision *)
    destruct (recover _ _ _ _ _ _) as [fb|e']; [|discriminate].
    destruct (apply _ _ _ _ _) as [trust|e']; [|discriminate].
    intros H. injection H as <- _.
    rewrite pending_add_message. apply after_recovery_pending.
Qed.

Lemma pending_guardrail (today : date) (msg : str) (st : State) :
  pending_missing_info (_guardrail_roll_month_without_year_forward today msg st)
  = pending_missing_info st.
Proof.
  unfold _guardrail_roll_month_without_year_forward.
  repeat match goal with
         | |- context [if ?b then _ else _] => destruct b
         | |- context [match ?x with _ => _ end] => destruct x
         end; reflexivity.
Qed.

(** Whatever the outcome of the turn, completed or not, a state with at
    most one pending slot is left with at most one. *)
Lemma turn_keeps_pending_bound (env : Env) (m : Z) (msg : str) (st : State) :
  (length (pending_missing_info st) <= 1)%nat ->
  (length (pending_missing_info (fst (turn env m msg st))) <= 1)%nat.
Proof.
  intros Hst.
  destruct (turn env m msg st) as [st' [t|e]] eqn:Hturn.
  - apply turn_pending in Hturn. exact Hturn.
  - cbn [fst]. revert Hturn. unfold turn.
    destruct (classify env msg (_recent_messages st 6) (pending_missing_info st))
      as [ir|e0]; [|intros H; injection H as <- _; exact Hst].
    set (st1 := add_message m user msg st).
    set (upd := apply_updates (trip_profile st1) (extracted_updates ir)).
    assert (H1 : (length (pending_missing_info (set_trip_profile (fst upd) st1)) <= 1)%nat).
    { cbn [set_trip_profile pending_missing_info]. subst st1.
      rewrite pending_add_message. exact Hst. }
    destruct (snd upd); [|intros H; injection H as <- _; exact H1].
    set (st2 := _guardrail_roll_month_without_year_forward (today env) msg
                  (set_trip_profile (fst upd) st1)).
    set (i := if intent_eqb (intent ir) CONSTRAINTS_UPDATE then _ else _).
    set (st3 := increment_turn _).
    assert (H3 : (length (pending_missing_info st3) <= 1)%nat).
    { subst st3.
      assert (H2 : (length (pending_missing_info st2) <= 1)%nat).
      { subst st2. rewrite pending_guardrail. exact H1. }
      destruct (is_goal i); [destruct (negb _)|]; exact H2. }
    destruct (decision_logic env i (validate i st3) msg st3) as [[d|]|e0];
      [| |intros H; injection H as <- _; exact H3].
    + set (st4 := if action_eqb (action d) ASK_CLARIFICATION then _ else _).
      assert (H4 : (length (pending_missing_info st4) <= 1)%nat).
      { subst st4. destruct (action_eqb (action d) ASK_CLARIFICATION).
        - apply firstn_1_length.
        - destruct (_ && _); cbn [pending_missing_info set_pending];
            [exact Hst | cbn; lia]. }
      set (ex := _execute_decision env d st4 i msg).
      assert (H5 : (length (pending_missing_info (fst ex)) <= 1)%nat).
      { subst ex. rewrite execute_decision_pending. exact H4. }
      destruct (match match snd ex with Ok _ => _ | Raise _ => _ end with
                | Ok _ => _ | Raise _ => _ end) as [[s5 a5]|e5] eqn:Hrec.
      * assert (H6 : (length (pending_missing_info s5) <= 1)%nat).
        { destruct (match snd ex with Ok _ => _ | Raise _ => _ end) as [t0|e0].
          - injection Hrec as <- _. exact H5.
          - destruct (recover _ _ _ _ _ _) as [fb|e']; [|discriminate].
            injection Hrec as <- _. apply after_recovery_pending. }
        destruct (if negb (action_eqb (action d) CALL_TOOL) then _ else _)
          as [a0|e6]; [discriminate|].
        intros H. injection H as <- _. exact H6.
      * intros H. injection H as <- _. exact H5.
    + destruct (recover _ _ _ _ _ _) as [fb|e']; [|intros H; injection H as <- _; exact H3].
      destruct (apply _ _ _ _ _) as [trust|e']; [discriminate|].
      intros H. injection H as <- _. apply after_recovery_pending.
Qed.

Lemma dict_get_store (sid : str) (st : State) (d : list (str * State)) :
  dict_get sid (store sid st d) = Some st.
Proof.
  induction d as [|[k v] d IH]; simpl.
  - rewrite str_eqb_refl. reflexivity.
  - destruct (str_eqb sid k) eqn:E; simpl; rewrite E; [reflexivity | exact IH].
Qed.

Lemma store_bounded (sid : str) (st : State) (d : list (str * State)) :
  (length (pending_missing_info st) <= 1)%nat ->
  Forall bounded d -> Forall bounded (store sid st d).
Proof.
  intros Hst Hd. induction Hd as [|[k v] d Hkv Hd IH]; simpl.
  - constructor; [exact Hst | constructor].
  - destruct (str_eqb sid k); constructor; auto.
Qed.

Lemma dict_get_bounded (sid : str) (st : State) (d : list (str * State)) :
  Forall bounded d -> dict_get sid d = Some st ->
  (length (pending_missing_info st) <= 1)%nat.
Proof.
  intros Hd. induction Hd as [|[k v] d Hkv Hd IH]; simpl; [discriminate|].
  destruct (str_eqb sid k); [|exact IH].
  intros H. injection H as <-. exact Hkv.
Qed.

(** After a turn, whatever its outcome, every session of the store that
    had at most one pending slot still has at most one. *)
Lemma handle_turn_keeps_store_bounded (env : Env) (self : StateManager)
    (sid msg : str) :
  Forall bounded (_states self) ->
  Forall bounded (_states (fst (handle_turn env self sid msg))).
Proof.
  intros Hall. unfold handle_turn, get_or_create.
  destruct (dict_get sid (_states self)) as [st|] eqn:Hget;
    cbn [fst snd _states _max_history_messages].
  - apply store_bounded; [|exact Hall].
    apply turn_keeps_pending_bound.
    apply (dict_get_bounded sid Hall Hget).
  - apply store_bounded.
    + apply turn_keeps_pending_bound. cbn. lia.
    + apply store_bounded; [cbn; lia | exact Hall].
Qed.

(** C1: after every completed turn of [handle_turn], on every path (a
    clarification decision, any other decision, no decision at all, an
    execution error or an empty answer followed by recovery), the session
    of the turn is in the store with at most one pending slot, whatever
    its state was before; and every other session keeps the bound. *)
Theorem C1_pending_at_most_one (env : Env) (self self' : StateManager)
    (sid msg : str) (resp : TurnResponse) :
  handle_turn env self sid msg = (self', Ok resp) ->
  (exists st',
      dict_get sid (_states self') = Some st'
      /\ (length (pending_missing_info st') <= 1)%nat)
  /\ (Forall bounded (_states self) -> Forall bounded (_states self')).
Proof.
  intros H. split.
  - unfold handle_turn in H.
    destruct (turn env (_max_history_messages self) msg
                (snd (get_or_create self sid))) as [st' [t|e]] eqn:Hturn;
      cbn [fst snd] in H; [|discriminate].
    injection H as <- _. cbn [_states].
    exists st'. split; [apply dict_get_store|].
    apply (turn_pending _ _ _ _ Hturn).
  - intros Hall.
    replace self' with (fst (handle_turn env self sid msg)) by (rewrite H; reflexivity).
    apply handle_turn_keeps_store_bounded. exact Hall.
Qed.

Lemma C1_witness :
  (exists st',
      dict_get (utf8 "s9")
        (_states (fst (handle_turn env_hello new_manager (utf8 "s9") (utf8 "hello"))))
      = Some st'
      /\ (length (pending_missing_info st') <= 1)%nat)
  /\ (Forall bounded (_states new_manager) ->
      Forall bounded
        (_states (fst (handle_turn env_hello new_manager (utf8 "s9") (utf8 "hello"))))).
Proof.
  apply (@C1_pending_at_most_one env_hello new_manager
           (fst (handle_turn env_hello new_manager (utf8 "s9") (utf8 "hello")))
           (utf8 "s9") (utf8 "hello")
           {| r_session_id := utf8 "s9";
              assistant_message :=
                utf8 "What would you like help with: itinerary, attractions, packing, weather, or currency conversion?" |}).
  vm_compute. reflexivity.
Defined.

(** ** The trip profile during a turn *)

Lemma trip_profile_add_message (m : Z) (r : Role) (c : str) (st : State) :
  trip_profile (add_message m r c st) = trip_profile st.
Proof. unfold add_message. destruct (_ >? _)%Z; reflexivity. Qed.

Lemma trip_profile_execute (env : Env) (d : Decision) (st : State)
    (i : Intent) (m : str) :
  trip_profile (fst (_execute_decision env d st i m)) = trip_profile st.
Proof.
  unfold _execute_decision.
  destruct (action d); try reflexivity.
  repeat match goal with
         | |- context [if ?b then _ else _] => destruct b
         | |- context [match ?x with _ => _ end] => destruct x
         end; reflexivity.
Qed.

Lemma trip_profile_after_recovery (fb : FallbackResult) (i : Intent) (st : State) :
  trip_profile (after_recovery fb i st) = trip_profile st.
Proof. unfold after_recovery. destruct (opt_is_goal _); reflexivity. Qed.

Lemma trip_profile_guardrail (today : date) (msg : str) (st : State) :
  trip_profile (_guardrail_roll_month_without_year_forward today msg st)
  = rolled today msg (trip_profile st).
Proof.
  unfold rolled, _guardrail_roll_month_without_year_forward.
  cbn [trip_profile set_trip_profile].
  destruct (negb _); [reflexivity|].
  destruct (start_date (trip_profile st)) as [sd|]; [|reflexivity].
  destruct (end_date (trip_profile st)) as [ed|]; [|reflexivity].
  destruct (_ && _); [|reflexivity].
  destruct (replace_year sd _); [|reflexivity].
  destruct (replace_year ed _); reflexivity.
Qed.

(** The profile a turn leaves: the old one (the classifier raised), the
    merged one (a date of the update did not parse), or the merged one
    after the guardrail. *)
Lemma turn_profile_cases (env : Env) (m : Z) (msg : str) (st : State) :
  exists updates,
    trip_profile (fst (turn env m msg st)) = trip_profile st
    \/ trip_profile (fst (turn env m msg st))
       = fst (apply_updates (trip_profile st) updates)
    \/ trip_profile (fst (turn env m msg st))
       = rolled (today env) msg (fst (apply_updates (trip_profile st) updates)).
Proof.
  unfold turn.
  destruct (classify env msg (_recent_messages st 6) (pending_missing_info st))
    as [ir|e0]; [|exists []; left; reflexivity].
  exists (extracted_updates ir).
  set (st1 := add_message m user msg st).
  assert (E1 : trip_profile st1 = trip_profile st)
    by apply trip_profile_add_message.
  rewrite E1.
  set (upd := apply_updates (trip_profile st) (extracted_updates ir)).
  destruct (snd upd); [|right; left; reflexivity].
  right. right.
  set (st2 := _guardrail_roll_month_without_year_forward (today env) msg
                (set_trip_profile (fst upd) st1)).
  assert (E2 : trip_profile st2 = rolled (today env) msg (fst upd)).
  { subst st2. rewrite trip_profile_guardrail. reflexivity. }
  set (i := if intent_eqb (intent ir) CONSTRAINTS_UPDATE then _ else _).
  set (st3 := increment_turn _).
  assert (E3 : trip_profile st3 = rolled (today env) msg (fst upd)).
  { subst st3. rewrite <- E2.
    destruct (is_goal i); [destruct (negb _)|]; reflexivity. }
  destruct (decision_logic env i (validate i st3) msg st3) as [[d|]|e0];
    [| |exact E3].
  - set (st4 := if action_eqb (action d) ASK_CLARIFICATION then _ else _).
    assert (E4 : trip_profile st4 = rolled (today env) msg (fst upd)).
    { subst st4. rewrite <- E3.
      destruct (action_eqb _ _); [|destruct (_ && _)]; reflexivity. }
    set (ex := _execute_decision env d st4 i msg).
    assert (E5 : trip_profile (fst ex) = rolled (today env) msg (fst upd)).
    { subst ex. rewrite trip_profile_execute. exact E4. }
    destruct (match match snd ex with Ok _ => _ | Raise _ => _ end with
              | Ok _ => _ | Raise _ => _ end) as [[s5 a5]|e5] eqn:Hrec;
      [|exact E5].
    assert (E6 : trip_profile s5 = rolled (today env) msg (fst upd)).
    { destruct (match snd ex with Ok _ => _ | Raise _ => _ end) as [t0|e0].
      - injection Hrec as <- _. exact E5.
      - destruct (recover _ _ _ _ _ _) as [fb|e']; [|discriminate].
        injection Hrec as <- _. rewrite trip_profile_after_recovery. exact E5. }
    destruct (if negb (action_eqb (action d) CALL_TOOL) then _ else _)
      as [a0|e6]; [|exact E6].
    cbn [fst]. rewrite trip_profile_add_message.
    destruct (action_eqb (action d) GENERATE_RESPONSE && _); exact E6.
  - destruct (recover _ _ _ _ _ _) as [fb|e']; [|exact E3].
    destruct (apply _ _ _ _ _) as [trust|e'];
      cbn [fst]; rewrite ?trip_profile_add_message, trip_profile_after_recovery;
      exact E3.
Qed.









(** ** A bare amount after a pair *)



Lemma strs_eqb_refl (a : list str) : strs_eqb a a = true.
Proof. apply strs_eqb_eq. reflexivity. Qed.


(** ** Facts about the matcher *)

Section MatcherFacts.

Variable R : Type.













End MatcherFacts.



(** ** Bare numbers under the currency patterns *)


(** A character between [lo] and [hi] is in no range that lies wholly
    below [lo] or above [hi]. *)
Lemma outside_ranges (lo hi c : char) (rs : list (char * char)) :
  (lo <= c /\ c <= hi)%N ->
  forallb (fun r => (snd r <? lo)%N || (hi <? fst r)%N) rs = true ->
  in_ranges c rs = false.
Proof.
  intros [Hlo Hhi] Hall. unfold in_ranges.
  induction rs as [|r rs IH]; cbn [existsb]; [reflexivity|].
  cbn [forallb] in Hall. apply andb_true_iff in Hall. destruct Hall as [Hr Hrs].
  rewrite (IH Hrs), orb_false_r. unfold in_range.
  apply orb_true_iff in Hr. unfold char in *.
  destruct Hr as [Hr | Hr]; apply N.ltb_lt in Hr.
  - apply andb_false_iff. right. apply N.leb_gt. lia.
  - apply andb_false_iff. left. apply N.leb_gt. lia.
Qed.




















Section AmountMatch.

Variable R : Type.
Variable K : str -> str -> caps -> option R.
Variable x : R.

Hypothesis K_end : forall l, word_at l = true -> K l [] [] = Some x.
Hypothesis K_dead :
  forall l d tl c, word_at l = true -> is_digit d = true ->
                   K l (d :: tl) c = None.










End AmountMatch.








(** * Further properties *)

(** ** Currency codes and queries *)

Lemma dict_get_In (A : Type) (k : str) (d : list (str * A)) (v : A) :
  dict_get k d = Some v -> In v (map snd d).
Proof.
  induction d as [|[k' v'] d IH]; cbn [dict_get map snd]; [discriminate|].
  destruct (str_eqb k k').
  - intros H. injection H as <-. left. reflexivity.
  - intros H. right. apply IH. exact H.
Qed.

Lemma alias_codes (c : str) :
  In c (map snd _ALIASES) -> is_currency_code c = true.
Proof.
  assert (H : forallb is_currency_code (map snd _ALIASES) = true)
    by (vm_compute; reflexivity).
  rewrite forallb_forall in H. apply H.
Qed.

Lemma upper_char_alpha (c : char) :
  is_alpha c = true -> is_upper (upper_char c) = true.
Proof.
  unfold is_alpha, upper_char, is_lower, is_upper, in_range. unfold char in *.
  intros H.
  destruct ((97 <=? c) && (c <=? 122))%N eqn:E.
  - apply andb_true_iff in E. destruct E as [E1 E2].
    apply N.leb_le in E1. apply N.leb_le in E2.
    apply andb_true_iff. split; apply N.leb_le; lia.
  - rewrite orb_false_r in H. exact H.
Qed.

Lemma upper_alpha (t : str) :
  forallb is_alpha t = true -> forallb is_upper (upper t) = true.
Proof.
  induction t as [|c t IH]; cbn [forallb upper map]; [reflexivity|].
  intros H. apply andb_true_iff in H. destruct H as [Hc Ht].
  rewrite (upper_char_alpha c Hc). apply IH. exact Ht.
Qed.

Lemma normalize_code (token c : str) :
  _normalize_currency_token token = Some c -> is_currency_code c = true.
Proof.
  unfold _normalize_currency_token.
  destruct token as [|x token]; [discriminate|].
  set (t := filter _ _). destruct t as [|y t'] eqn:Et; [discriminate|].
  rewrite <- Et. clear Et.
  destruct (Nat.eqb (length t) 3 && forallb is_alpha t) eqn:E.
  - intros H. injection H as <-.
    apply andb_true_iff in E. destruct E as [El Ea].
    unfold is_currency_code. unfold upper at 1. rewrite length_map, El.
    apply upper_alpha. exact Ea.
  - intros H. apply dict_get_In in H. apply alias_codes. exact H.
Qed.

(** X1: whatever token it is given, the currency normaliser answers
    nothing or a code of three capital letters, be it a three-letter
    word put in capitals or the code of a known name or sign. *)
Theorem normalized_token_is_code (token c : str) :
  _normalize_currency_token token = Some c ->
  length c = 3%nat /\ Forall (fun x => is_upper x = true) c.
Proof.
  intros H. apply normalize_code in H. unfold is_currency_code in H.
  apply andb_true_iff in H. destruct H as [Hl Hu].
  split; [apply Nat.eqb_eq; exact Hl|].
  apply Forall_forall. apply forallb_forall. exact Hu.
Qed.

Lemma normalized_token_is_code_witness :
  length (utf8 "USD") = 3%nat /\ Forall (fun x => is_upper x = true) (utf8 "USD").
Proof.
  apply (@normalized_token_is_code (utf8 " Dollars. ") (utf8 "USD")).
  vm_compute. reflexivity.
Defined.

Lemma pair_of_match_well_formed (m : rmatch_result) (p : str * str) :
  pair_of_match m = Some p -> well_formed_pair p = true.
Proof.
  unfold pair_of_match.
  destruct (_normalize_currency_token (group 1 (m_caps m))) as [a|] eqn:A;
    [|discriminate].
  destruct (_normalize_currency_token (group 2 (m_caps m))) as [b|] eqn:B;
    [|discriminate].
  destruct (truthy (Some a) && truthy (Some b) && negb (str_eqb a b)) eqn:E;
    [|discriminate].
  intros H. injection H as <-.
  unfold well_formed_pair. cbn [fst snd].
  rewrite (normalize_code _ A), (normalize_code _ B).
  apply andb_true_iff in E. destruct E as [_ E]. rewrite E. reflexivity.
Qed.

Lemma parse_pair_well_formed (text : str) (p : str * str) :
  parse_currency_pair text = Some p -> well_formed_pair p = true.
Proof.
  unfold parse_currency_pair. destruct text as [|x text]; [discriminate|].
  destruct (search pair_to_re _) as [m|].
  - destruct (pair_of_match m) as [p1|] eqn:E1.
    + intros H. injection H as <-. apply (pair_of_match_well_formed _ E1).
    + destruct (search pair_sep_re _) as [m2|]; [|discriminate].
      apply pair_of_match_well_formed.
  - destruct (search pair_sep_re _) as [m2|]; [|discriminate].
    apply pair_of_match_well_formed.
Qed.

Lemma parse_amount_str_positive (raw : str) (v : Q) :
  _parse_amount_str raw = Some v -> Qpositive v = true.
Proof.
  unfold _parse_amount_str. destruct raw as [|x raw]; [discriminate|].
  destruct (py_float _) as [val|]; [|discriminate].
  destruct (Qpositive val) eqn:E; [|discriminate].
  intros H. injection H as <-. exact E.
Qed.

Lemma parse_amount_positive (text : str) (v : Q) :
  parse_currency_amount text = Some v -> Qpositive v = true.
Proof.
  unfold parse_currency_amount. destruct text as [|x text]; [discriminate|].
  destruct (found day_n_re _ && negb (found currency_word_re _)); [discriminate|].
  destruct (search amount_only_re _) as [m|]; [|discriminate].
  apply parse_amount_str_positive.
Qed.

Lemma query_of_groups_well_formed (a : option Q) (f t : option str)
    (q : CurrencyQuery) :
  opt_holds Qpositive a = true ->
  opt_holds is_currency_code f = true ->
  opt_holds is_currency_code t = true ->
  query_of_groups a f t = Some q -> well_formed q = true.
Proof.
  unfold query_of_groups.
  destruct a as [a|]; [|discriminate].
  destruct f as [f|]; [|discriminate].
  destruct t as [t|]; [|discriminate].
  cbn [opt_holds]. intros Ha Hf Ht.
  destruct (truthy (Some f) && truthy (Some t) && negb (str_eqb f t)) eqn:E;
    [|discriminate].
  intros H. injection H as <-.
  unfold well_formed, well_formed_pair. cbn [amount from_ccy to_ccy fst snd].
  rewrite Ha, Hf, Ht. apply andb_true_iff in E. destruct E as [_ E].
  rewrite E. reflexivity.
Qed.

Lemma opt_amount_positive (raw : str) :
  opt_holds Qpositive (_parse_amount_str raw) = true.
Proof.
  destruct (_parse_amount_str raw) as [v|] eqn:E; [|reflexivity].
  apply (parse_amount_str_positive _ E).
Qed.

Lemma opt_normalize_code (token : str) :
  opt_holds is_currency_code (_normalize_currency_token token) = true.
Proof.
  destruct (_normalize_currency_token token) as [c|] eqn:E; [|reflexivity].
  apply (normalize_code _ E).
Qed.

Lemma parse_query_well_formed (text : str) (q : CurrencyQuery) :
  parse_currency_query text = Some q -> well_formed q = true.
Proof.
  unfold parse_currency_query. destruct text as [|x text]; [discriminate|].
  assert (G : forall a f t q',
             query_of_groups (_parse_amount_str a) (_normalize_currency_token f)
               (_normalize_currency_token t) = Some q' ->
             well_formed q' = true).
  { intros a f t q'. apply query_of_groups_well_formed;
      [apply opt_amount_positive | apply opt_normalize_code | apply opt_normalize_code]. }
  destruct (search query_amount_first_re _) as [m|].
  - destruct (query_of_groups _ _ _) as [q1|] eqn:E1.
    + intros H. injection H as <-. apply (G _ _ _ _ E1).
    + destruct (search query_pair_first_re _) as [m2|]; [|discriminate].
      apply G.
  - destruct (search query_pair_first_re _) as [m2|]; [|discriminate].
    apply G.
Qed.

(** X2: a pair read from a text is two different codes of three capital
    letters each. *)
Theorem parsed_pair_is_two_distinct_codes (text a b : str) :
  parse_currency_pair text = Some (a, b) ->
  is_currency_code a = true /\ is_currency_code b = true /\ a <> b.
Proof.
  intros H. apply parse_pair_well_formed in H.
  unfold well_formed_pair in H. cbn [fst snd] in H.
  apply andb_true_iff in H. destruct H as [H Hd].
  apply andb_true_iff in H. destruct H as [Ha Hb].
  split; [exact Ha|]. split; [exact Hb|].
  intros ->. rewrite str_eqb_refl in Hd. discriminate.
Qed.

Lemma parsed_pair_is_two_distinct_codes_witness :
  is_currency_code (utf8 "ILS") = true /\ is_currency_code (utf8 "USD") = true
  /\ utf8 "ILS" <> utf8 "USD".
Proof.
  apply (@parsed_pair_is_two_distinct_codes
           (utf8 "how many shekels in dollars?") (utf8 "ILS") (utf8 "USD")).
  vm_compute. reflexivity.
Defined.

(** X3: a full query read from a text has a positive amount and two
    different codes of three capital letters. *)
Theorem parsed_query_is_well_formed (text : str) (q : CurrencyQuery) :
  parse_currency_query text = Some q ->
  (0 < amount q)%Q
  /\ is_currency_code (from_ccy q) = true
  /\ is_currency_code (to_ccy q) = true
  /\ from_ccy q <> to_ccy q.
Proof.
  intros H. apply parse_query_well_formed in H.
  unfold well_formed, well_formed_pair in H. cbn [fst snd] in H.
  apply andb_true_iff in H. destruct H as [Hp H].
  apply andb_true_iff in H. destruct H as [H Hd].
  apply andb_true_iff in H. destruct H as [Ha Hb].
  split.
  - unfold Qpositive in Hp. apply Z.ltb_lt in Hp.
    unfold Qlt. cbn [Qnum Qden]. lia.
  - split; [exact Ha|]. split; [exact Hb|].
    intros E. rewrite E, str_eqb_refl in Hd. discriminate.
Qed.

Lemma parsed_query_is_well_formed_witness :
  (0 < 1250 # 1)%Q
  /\ is_currency_code (utf8 "GBP") = true
  /\ is_currency_code (utf8 "EUR") = true
  /\ utf8 "GBP" <> utf8 "EUR".
Proof.
  apply (@parsed_query_is_well_formed (utf8 "convert 1,250 pounds to euros")
           {| amount := 1250 # 1; from_ccy := utf8 "GBP"; to_ccy := utf8 "EUR" |}).
  vm_compute. reflexivity.
Defined.

Lemma extract_amount_positive (text : str) :
  opt_holds Qpositive (p_amount (_extract_currency_parts text)) = true.
Proof.
  unfold _extract_currency_parts.
  destruct (parse_currency_query text) as [full|] eqn:E; cbn [p_amount opt_holds].
  - apply parse_query_well_formed in E. unfold well_formed in E.
    apply andb_true_iff in E. apply E.
  - destruct (parse_currency_amount text) as [v|] eqn:Ea; [|reflexivity].
    apply (parse_amount_positive _ Ea).
Qed.

Lemma extract_pair_well_formed (text : str) :
  opt_holds well_formed_pair (p_pair (_extract_currency_parts text)) = true.
Proof.
  unfold _extract_currency_parts.
  destruct (parse_currency_query text) as [full|] eqn:E; cbn [p_pair opt_holds].
  - apply parse_query_well_formed in E. unfold well_formed in E.
    apply andb_true_iff in E. apply E.
  - destruct (parse_currency_pair text) as [p|] eqn:Ep; [|reflexivity].
    apply (parse_pair_well_formed _ Ep).
Qed.

Lemma first_some_holds (A : Type) (P : A -> bool) (a b : option A) :
  opt_holds P a = true -> opt_holds P b = true ->
  opt_holds P (first_some a b) = true.
Proof. destruct a; auto. Qed.

Lemma scan_history_well_formed (an : option Q) (pn : option (str * str))
    (n : Z) (allow : bool) (msgs : list Message) :
  forall fa fp cnt,
    opt_holds Qpositive fa = true ->
    opt_holds well_formed_pair fp = true ->
    opt_holds Qpositive (fst (scan_history an pn n allow msgs fa fp cnt)) = true
    /\ opt_holds well_formed_pair
         (snd (scan_history an pn n allow msgs fa fp cnt)) = true.
Proof.
  induction msgs as [|m rest IH]; intros fa fp cnt Ha Hp; cbn [scan_history].
  - split; assumption.
  - destruct (negb (is_user (role m))); [apply IH; assumption|].
    destruct (strip (content m)) as [|c t]; [apply IH; assumption|].
    destruct (cnt + 1 >? n)%Z; [split; assumption|].
    set (fp' := first_some fp _).
    set (fa' := if allow then _ else fa).
    assert (Hp' : opt_holds well_formed_pair fp' = true)
      by (apply first_some_holds; [exact Hp | apply extract_pair_well_formed]).
    assert (Ha' : opt_holds Qpositive fa' = true).
    { subst fa'. destruct allow; [|exact Ha].
      apply first_some_holds; [exact Ha | apply extract_amount_positive]. }
    destruct (_ && _); [split; assumption | apply IH; assumption].
Qed.

Lemma combine_well_formed (msg : str) (hist : list Message) (n : Z)
    (allow : bool) (q : CurrencyQuery) :
  combine_currency_query_from_history msg hist n allow = Some q ->
  well_formed q = true.
Proof.
  unfold combine_currency_query_from_history.
  destruct (parse_currency_query msg) as [full|] eqn:E.
  - intros H. injection H as <-. apply (parse_query_well_formed _ E).
  - pose proof (extract_amount_positive msg) as Ha.
    pose proof (extract_pair_well_formed msg) as Hp.
    set (an := p_amount (_extract_currency_parts msg)) in *.
    set (pn := p_pair (_extract_currency_parts msg)) in *.
    destruct (negb (is_some an) && negb (is_some pn)); [discriminate|].
    destruct (@scan_history_well_formed an pn n allow (rev hist) None None 0%Z
                eq_refl eq_refl) as [Sa Sp].
    pose proof (first_some_holds Qpositive an _ Ha Sa) as Fa.
    pose proof (first_some_holds well_formed_pair pn _ Hp Sp) as Fp.
    destruct (first_some an _) as [a|]; [|discriminate].
    destruct (first_some pn _) as [[f t]|]; [|discriminate].
    intros H. injection H as <-.
    unfold well_formed. cbn [amount from_ccy to_ccy opt_holds] in *.
    rewrite Fa, Fp. reflexivity.
Qed.

(** X4: a query put together from the current message and the earlier
    user messages is well formed too, whether or not the amount may come
    from the history: the amount is positive and the codes are two
    different codes of three capital letters. *)
Theorem combined_query_is_well_formed (msg : str) (hist : list Message)
    (n : Z) (allow : bool) (q : CurrencyQuery) :
  combine_currency_query_from_history msg hist n allow = Some q ->
  Qpositive (amount q) = true
  /\ is_currency_code (from_ccy q) = true
  /\ is_currency_code (to_ccy q) = true
  /\ from_ccy q <> to_ccy q.
Proof.
  intros H. apply combine_well_formed in H.
  unfold well_formed, well_formed_pair in H. cbn [fst snd] in H.
  apply andb_true_iff in H. destruct H as [Hp H].
  apply andb_true_iff in H. destruct H as [H Hd].
  apply andb_true_iff in H. destruct H as [Ha Hb].
  split; [exact Hp|]. split; [exact Ha|]. split; [exact Hb|].
  intros E. rewrite E, str_eqb_refl in Hd. discriminate.
Qed.

Lemma combined_query_is_well_formed_witness :
  Qpositive (100 # 1) = true
  /\ is_currency_code (utf8 "EUR") = true
  /\ is_currency_code (utf8 "USD") = true
  /\ utf8 "EUR" <> utf8 "USD".
Proof.
  apply (@combined_query_is_well_formed (utf8 "EUR to USD")
           [u "100"; a "Which currencies are you converting between?"] 10%Z true
           {| amount := 100 # 1; from_ccy := utf8 "EUR"; to_ccy := utf8 "USD" |}).
  vm_compute. reflexivity.
Defined.

(** ** The router *)

Lemma decide_currency_branch (today : date) (v : ValidationResult) (msg : str)
    (st : State) :
  ok v = true ->
  (exists mi n,
      (mi = [utf8 "currency_amount"] \/ mi = [utf8 "currency_pair"])
      /\ decide today CURRENCY_CONVERSION v msg st
         = Ok {| action := ASK_CLARIFICATION; missing_info := mi;
                 tool_name := None; notes := n; tool_payload := None |})
  \/ (exists q,
         well_formed q = true
         /\ decide today CURRENCY_CONVERSION v msg st = Ok (currency_call q)).
Proof.
  intros Hok. unfold decide. simpl. rewrite Hok. simpl.
  set (pending := pending_missing_info st).
  set (cq := if negb (is_some (parse_currency_query msg)) && _ then _ else _).
  assert (Hcq : opt_holds well_formed cq = true).
  { subst cq. destruct (negb _ && _).
    - destruct (combine_currency_query_from_history _ _ _ _) as [q|] eqn:E;
        [|reflexivity].
      apply (combine_well_formed _ _ _ _ E).
    - destruct (parse_currency_query msg) as [q|] eqn:E; [|reflexivity].
      apply (parse_query_well_formed _ E). }
  destruct (strs_eqb pending pending_amount && negb (is_some cq) &&
            negb (_is_numeric_amount msg)).
  - left. eexists. eexists. split; [left; reflexivity | reflexivity].
  - destruct cq as [q|].
    + right. exists q. split; [exact Hcq | reflexivity].
    + left. destruct (parse_currency_pair msg);
        eexists; eexists; (split; [|reflexivity]); [left | right]; reflexivity.
Qed.

Lemma decide_weather_branch (today : date) (v : ValidationResult) (msg : str)
    (st : State) :
  ok v = true ->
  (exists n,
      decide today WEATHER_QUERY v msg st
      = Ok {| action := GENERATE_RESPONSE; missing_info := []; tool_name := None;
              notes := n; tool_payload := None |})
  \/ (mentions_month msg = false
      /\ is_seasonal_weather_question msg = false
      /\ is_within_open_meteo_forecast_window today (trip_profile st) 16 = true
      /\ decide today WEATHER_QUERY v msg st = Ok weather_call).
Proof.
  intros Hok. unfold decide. simpl. rewrite Hok. simpl.
  destruct (mentions_month msg); [left; eexists; reflexivity|].
  destruct (is_seasonal_weather_question msg); [left; eexists; reflexivity|].
  destruct (is_within_open_meteo_forecast_window today (trip_profile st) 16).
  - right. repeat split.
  - left. eexists. reflexivity.
Qed.

Lemma decide_not_ok (today : date) (i : Intent) (v : ValidationResult)
    (msg : str) (st : State) :
  ok v = false -> i <> OUT_OF_SCOPE -> i <> CLARIFICATION_NEEDED ->
  decide today i v msg st
  = Ok {| action := ASK_CLARIFICATION; missing_info := v_missing_info v;
          tool_name := None;
          notes := Some (utf8 "Missing or invalid information");
          tool_payload := None |}.
Proof.
  intros Hok H1 H2. unfold decide.
  destruct i; try contradiction; simpl; rewrite Hok; reflexivity.
Qed.

(** X5: the router always answers with a Decision: none of its branches
    builds a Decision that the model's validator refuses, whatever the
    intent, the validation result, the message and the session. *)
Theorem decide_never_raises (today : date) (i : Intent) (v : ValidationResult)
    (msg : str) (st : State) :
  exists d, decide today i v msg st = Ok d.
Proof.
  destruct (ok v) eqn:Hok.
  - destruct i;
      try (unfold decide; simpl; rewrite ?Hok; simpl; eexists; reflexivity).
    + destruct (decide_weather_branch today v msg st Hok) as [[n H] | [_ [_ [_ H]]]];
        eexists; exact H.
    + destruct (decide_currency_branch today v msg st Hok)
        as [[mi [n [_ H]]] | [q [_ H]]]; eexists; exact H.
  - destruct i;
      try (eexists; apply decide_not_ok; [exact Hok | discriminate | discriminate]);
      unfold decide; simpl; eexists; reflexivity.
Qed.



Lemma validate_not_ok_duration (i : Intent) (st : State) (z : Z) :
  duration_days (trip_profile st) = Some z -> (z <= 0)%Z ->
  ok (validate i st) = false.
Proof.
  intros Hd Hz. unfold validate. cbn [ok]. rewrite Hd.
  apply Z.leb_le in Hz. rewrite Hz. cbn [length Nat.eqb]. apply andb_false_r.
Qed.

(** X7: a trip length of zero or fewer days on record blocks every
    request that names a goal: whatever the intent (other than
    out-of-scope and unclear), the message and the rest of the session,
    the router answers with a clarification that carries the validator's
    list, so that no tool is called and nothing is generated. *)
Theorem non_positive_duration_blocks_routing (today : date) (i : Intent)
    (msg : str) (st : State) (z : Z) :
  duration_days (trip_profile st) = Some z ->
  (z <= 0)%Z ->
  i <> OUT_OF_SCOPE ->
  i <> CLARIFICATION_NEEDED ->
  decide today i (validate i st) msg st
  = Ok {| action := ASK_CLARIFICATION;
          missing_info := v_missing_info (validate i st);
          tool_name := None;
          notes := Some (utf8 "Missing or invalid information");
          tool_payload := None |}.
Proof.
  intros Hd Hz H1 H2.
  apply decide_not_ok; [apply (validate_not_ok_duration i st Hd Hz) | exact H1 | exact H2].
Qed.

Lemma non_positive_duration_blocks_routing_witness :
  decide today0 CURRENCY_CONVERSION
    (validate CURRENCY_CONVERSION awaiting_amount_zero_days) (utf8 "100")
    awaiting_amount_zero_days
  = Ok {| action := ASK_CLARIFICATION;
          missing_info :=
            v_missing_info (validate CURRENCY_CONVERSION awaiting_amount_zero_days);
          tool_name := None;
          notes := Some (utf8 "Missing or invalid information");
          tool_payload := None |}.
Proof.
  apply (@non_positive_duration_blocks_routing today0 CURRENCY_CONVERSION
           (utf8 "100") awaiting_amount_zero_days 0%Z).
  - reflexivity.
  - lia.
  - discriminate.
  - discriminate.
Defined.

(** ** Validation *)

Lemma validate_missing_destination (i : Intent) (st : State) :
  i = ITINERARY_PLANNING \/ i = WEATHER_QUERY
  \/ i = ATTRACTIONS_RECOMMENDATIONS \/ i = PACKING_LIST ->
  truthy (destination (trip_profile st)) = false ->
  ok (validate i st) = false
  /\ exists rest, v_missing_info (validate i st) = utf8 "destination" :: rest.
Proof.
  intros Hi Ht. unfold validate. cbn [ok v_missing_info]. rewrite Ht.
  destruct Hi as [-> | [-> | [-> | ->]]]; cbn [app length Nat.eqb andb];
    (split; [reflexivity | eexists; reflexivity]).
Qed.

(** X8: validation passes exactly when the profile is ready for the
    intent: no trip length of zero or fewer days is on record; for an
    itinerary, attractions, packing or weather request the destination is
    a non-empty text; and for an itinerary the trip length or both dates
    are known. *)
Theorem validate_ok_iff_ready (i : Intent) (st : State) :
  ok (validate i st) = true
  <-> (forall z, duration_days (trip_profile st) = Some z -> (0 < z)%Z)
      /\ (i = ITINERARY_PLANNING \/ i = WEATHER_QUERY
          \/ i = ATTRACTIONS_RECOMMENDATIONS \/ i = PACKING_LIST ->
          truthy (destination (trip_profile st)) = true)
      /\ (i = ITINERARY_PLANNING -> _has_dates_or_duration st = true).
Proof.
  unfold validate. cbn [ok].
  assert (Hp : Nat.eqb
                 (length
                    match duration_days (trip_profile st) with
                    | Some d =>
                      if (d <=? 0)%Z then [utf8 "duration_days must be > 0"] else []
                    | None => []
                    end) 0 = true
               <-> (forall z, duration_days (trip_profile st) = Some z -> (0 < z)%Z)).
  { destruct (duration_days (trip_profile st)) as [d|].
    - destruct (Z.leb_spec d 0) as [Hle | Hgt]; cbn [length Nat.eqb]; split.
      + discriminate.
      + intros H. specialize (H d eq_refl). lia.
      + intros _ z Hz. injection Hz as <-. exact Hgt.
      + reflexivity.
    - cbn [length Nat.eqb]. split; [intros _ z Hz; discriminate | reflexivity]. }
  rewrite andb_true_iff, Hp. clear Hp.
  destruct (truthy (destination (trip_profile st))) eqn:Ht;
    destruct (_has_dates_or_duration st) eqn:Hh;
    destruct i; cbn [app length Nat.eqb];
    (split;
     [ intros [Hm Hd]; try discriminate Hm;
       (split; [exact Hd|]);
       (split; [intros [E | [E | [E | E]]]; try discriminate E; reflexivity
               | intros E; try discriminate E; reflexivity])
     | intros [Hd [Hdest Hdates]]; (split; [|exact Hd]);
       try reflexivity;
       try (discriminate Hdest; auto; fail);
       try (discriminate Hdates; reflexivity) ]).
Qed.

(** X9: when the destination is missing, an itinerary, weather,
    attractions or packing request is answered by one question, the one
    for the destination: the router asks for a clarification whose first
    missing slot is the destination, and carrying out that Decision
    returns the destination question and leaves the session as it is,
    whatever the collaborators. *)
Theorem missing_destination_is_asked_first (env : Env) (i : Intent) (msg : str)
    (st : State) :
  i = ITINERARY_PLANNING \/ i = WEATHER_QUERY
  \/ i = ATTRACTIONS_RECOMMENDATIONS \/ i = PACKING_LIST ->
  truthy (destination (trip_profile st)) = false ->
  exists d,
    decide (today env) i (validate i st) msg st = Ok d
    /\ action d = ASK_CLARIFICATION
    /\ firstn 1 (missing_info d) = [utf8 "destination"]
    /\ _execute_decision env d st i msg
       = (st, Ok (utf8 "Where are you traveling to (city/country)?")).
Proof.
  intros Hi Ht.
  destruct (validate_missing_destination st Hi Ht) as [Hok [rest Hmi]].
  eexists. split.
  - apply decide_not_ok; [exact Hok | |];
      destruct Hi as [-> | [-> | [-> | ->]]]; discriminate.
  - cbn [action missing_info]. rewrite Hmi. split; [reflexivity|].
    split; [reflexivity|].
    unfold _execute_decision. cbn [action missing_info].
    unfold build_clarification_question, is_slot. rewrite str_eqb_refl.
    reflexivity.
Qed.

Lemma missing_destination_is_asked_first_witness :
  exists d,
    decide (today env_hello) PACKING_LIST
      (validate PACKING_LIST (new_state (utf8 "s"))) (utf8 "what should I pack?")
      (new_state (utf8 "s")) = Ok d
    /\ action d = ASK_CLARIFICATION
    /\ firstn 1 (missing_info d) = [utf8 "destination"]
    /\ _execute_decision env_hello d (new_state (utf8 "s")) PACKING_LIST
         (utf8 "what should I pack?")
       = (new_state (utf8 "s"),
          Ok (utf8 "Where are you traveling to (city/country)?")).
Proof.
  apply (@missing_destination_is_asked_first env_hello PACKING_LIST
           (utf8 "what should I pack?") (new_state (utf8 "s"))).
  - right. right. right. reflexivity.
  - reflexivity.
Defined.

(** ** The currency client *)

Lemma strip_no_space (s : str) :
  Forall (fun c => is_space c = false) s -> strip s = s.
Proof.
  intros H. unfold strip, rstrip.
  assert (Hl : forall t, Forall (fun c => is_space c = false) t -> lstrip t = t).
  { intros t Ht. destruct Ht as [|c t Hc Ht]; cbn [lstrip]; [reflexivity|].
    rewrite Hc. reflexivity. }
  rewrite (Hl s H), (Hl (rev s) (Forall_rev H)). apply rev_involutive.
Qed.

Lemma upper_bounds (c : char) : is_upper c = true -> (65 <= c /\ c <= 90)%N.
Proof.
  unfold is_upper, in_range. intros H.
  apply andb_true_iff in H. destruct H as [H1 H2].
  apply N.leb_le in H1. apply N.leb_le in H2. split; assumption.
Qed.

Lemma code_upper_strip (c : str) :
  is_currency_code c = true -> strip (upper c) = c.
Proof.
  unfold is_currency_code. intros H.
  apply andb_true_iff in H. destruct H as [_ H].
  rewrite forallb_forall in H. apply Forall_forall in H.
  assert (Hu : upper c = c).
  { unfold upper. induction H as [|x c Hx Hc IH]; cbn [map]; [reflexivity|].
    rewrite IH. f_equal. apply upper_bounds in Hx.
    unfold upper_char, is_lower, in_range.
    replace (97 <=? x)%N with false; [reflexivity|].
    symmetry. apply N.leb_gt. unfold char in *. lia. }
  rewrite Hu. apply strip_no_space.
  apply (Forall_impl _ (fun x Hx =>
           @outside_ranges 65%N 90%N x space_ranges (upper_bounds x Hx) eq_refl) H).
Qed.

Lemma well_formed_parts (q : CurrencyQuery) :
  well_formed q = true ->
  Qpositive (amount q) = true
  /\ is_currency_code (from_ccy q) = true
  /\ is_currency_code (to_ccy q) = true.
Proof.
  unfold well_formed, well_formed_pair. cbn [fst snd]. intros H.
  apply andb_true_iff in H. destruct H as [Hp H].
  apply andb_true_iff in H. destruct H as [H _].
  apply andb_true_iff in H. destruct H as [Ha Hb]. auto.
Qed.

Lemma code_nonempty (c : str) : is_currency_code c = true -> c <> [].
Proof. intros H E. subst c. discriminate H. Qed.

(** X10: every conversion the router sends to the currency tool passes
    the input checks of the currency client, and the client asks the rate
    service for exactly the two codes of the payload: putting them in
    capitals and stripping them changes nothing. *)
Theorem routed_conversion_passes_client_checks (today : date)
    (v : ValidationResult) (msg : str) (st : State) (d : Decision) :
  decide today CURRENCY_CONVERSION v msg st = Ok d ->
  action d = CALL_TOOL ->
  exists q,
    tool_payload d = Some (currency_payload q)
    /\ CurrencyClient.convert (amount q) (from_ccy q) (to_ccy q)
       = CurrencyClient.Request (from_ccy q) (to_ccy q).
Proof.
  intros Hd Ha.
  assert (Hq : exists q, d = currency_call q /\ well_formed q = true).
  { destruct (ok v) eqn:Hok.
    - destruct (decide_currency_branch today v msg st Hok)
        as [[mi [n [_ H]]] | [q [Hq H]]];
        rewrite H in Hd; injection Hd as <-; [discriminate Ha|].
      exists q. split; [reflexivity | exact Hq].
    - rewrite (@decide_not_ok today _ v msg st Hok) in Hd;
        [injection Hd as <-; discriminate Ha | discriminate | discriminate]. }
  destruct Hq as [q [-> Hq]]. exists q. split; [reflexivity|].
  destruct (well_formed_parts q Hq) as [Hp [Hf Ht]].
  unfold CurrencyClient.convert.
  replace (Qle_bool (amount q) 0) with false.
  - pose proof (code_nonempty Hf) as Nf. pose proof (code_nonempty Ht) as Nt.
    rewrite (code_upper_strip _ Hf), (code_upper_strip _ Ht).
    destruct (from_ccy q); [contradiction|].
    destruct (to_ccy q); [contradiction|]. reflexivity.
  - symmetry. unfold Qle_bool. cbn [Qnum Qden].
    unfold Qpositive in Hp. apply Z.ltb_lt in Hp. apply Z.leb_gt. lia.
Qed.

Lemma routed_conversion_passes_client_checks_witness :
  exists q,
    tool_payload
      (currency_call {| amount := 100 # 1; from_ccy := utf8 "USD";
                        to_ccy := utf8 "EUR" |})
    = Some (currency_payload q)
    /\ CurrencyClient.convert (amount q) (from_ccy q) (to_ccy q)
       = CurrencyClient.Request (from_ccy q) (to_ccy q).
Proof.
  apply (@routed_conversion_passes_client_checks today0
           (validate CURRENCY_CONVERSION awaiting_amount) (utf8 "100")
           awaiting_amount).
  - vm_compute. reflexivity.
  - reflexivity.
Defined.

(** ** The session store *)

Lemma add_message_history (m : Z) (r : Role) (c : str) (st : State) :
  let h := conversation_history st ++ [{| role := r; content := c |}] in
  conversation_history (add_message m r c st)
  = if (Z.of_nat (length h) >? m)%Z then slice_from (- m) h else h.
Proof.
  cbv zeta. unfold add_message. destruct (_ >? _)%Z; reflexivity.
Qed.

Lemma skipn_keeps_tail (A : Type) (n : nat) (l tl : list A) :
  (n <= length l)%nat -> skipn n (l ++ tl) = skipn n l ++ tl.
Proof.
  intros H. rewrite skipn_app.
  replace (n - length l)%nat with 0%nat by lia. reflexivity.
Qed.

Lemma trimmed_history (m : Z) (h tl : list Message) :
  (0 < m)%Z ->
  (Z.of_nat (length tl) <= m)%Z ->
  let h' := if (Z.of_nat (length (h ++ tl)) >? m)%Z
            then slice_from (- m) (h ++ tl) else h ++ tl in
  (Z.of_nat (length h') <= m)%Z
  /\ (exists dropped, h ++ tl = dropped ++ h')
  /\ (exists earlier, h' = earlier ++ tl)
  /\ ((Z.of_nat (length (h ++ tl)) <= m)%Z -> h' = h ++ tl).
Proof.
  intros Hm Htl. cbv zeta.
  destruct (Z.gtb_spec (Z.of_nat (length (h ++ tl))) m) as [Hgt | Hle].
  - unfold slice_from.
    destruct (Z.ltb_spec (- m) 0) as [Hneg | Hzero]; [|lia].
    rewrite length_app in *.
    set (n := Z.to_nat (Z.max (Z.of_nat (length h + length tl) + - m) 0)).
    assert (Hn : (n <= length h)%nat) by (subst n; lia).
    assert (Hn' : Z.of_nat n = (Z.of_nat (length h + length tl) - m)%Z)
      by (subst n; lia).
    rewrite (@skipn_keeps_tail _ n h tl Hn).
    split; [rewrite length_app, length_skipn; lia|].
    split; [|split].
    + exists (firstn n h). rewrite app_assoc, firstn_skipn. reflexivity.
    + exists (skipn n h). reflexivity.
    + intros Hfit. lia.
  - split; [exact Hle|]. split; [exists []; reflexivity|].
    split; [exists h; reflexivity | reflexivity].
Qed.

(** X11: with a positive bound on the history, appending a message keeps
    at most that many messages, all of them the most recent ones in their
    order, the new message last; nothing is dropped while the history
    fits. *)
Theorem add_message_keeps_the_latest (m : Z) (r : Role) (c : str) (st : State) :
  (0 < m)%Z ->
  let new := {| role := r; content := c |} in
  let h' := conversation_history (add_message m r c st) in
  (Z.of_nat (length h') <= m)%Z
  /\ (exists dropped, conversation_history st ++ [new] = dropped ++ h')
  /\ (exists earlier, h' = earlier ++ [new])
  /\ ((Z.of_nat (length (conversation_history st)) < m)%Z ->
      h' = conversation_history st ++ [new]).
Proof.
  intros Hm. cbv zeta. rewrite add_message_history. cbv zeta.
  destruct (@trimmed_history m (conversation_history st)
              [{| role := r; content := c |}] Hm) as [H1 [H2 [H3 H4]]].
  { cbn [length]. lia. }
  split; [exact H1|]. split; [exact H2|]. split; [exact H3|].
  intros Hfit. apply H4. rewrite length_app. cbn [length]. lia.
Qed.

Lemma add_message_keeps_the_latest_witness :
  let new := {| role := user; content := utf8 "and Rome?" |} in
  let h' := conversation_history (add_message 2 user (utf8 "and Rome?") awaiting_pair) in
  (Z.of_nat (length h') <= 2)%Z
  /\ (exists dropped, conversation_history awaiting_pair ++ [new] = dropped ++ h')
  /\ (exists earlier, h' = earlier ++ [new])
  /\ ((Z.of_nat (length (conversation_history awaiting_pair)) < 2)%Z ->
      h' = conversation_history awaiting_pair ++ [new]).
Proof.
  apply (@add_message_keeps_the_latest 2%Z user (utf8 "and Rome?") awaiting_pair).
  lia.
Defined.

(** X12: a bound of zero or less is no bound.  The history is then cut
    from the front by the size of the bound: with a bound of zero nothing
    is ever dropped and the history grows by one message at each call;
    with a bound of [-k] the [k] oldest messages go and the rest, however
    many, stay. *)
Theorem add_message_non_positive_bound (m : Z) (r : Role) (c : str) (st : State) :
  (m <= 0)%Z ->
  conversation_history (add_message m r c st)
  = skipn (Z.to_nat (- m))
      (conversation_history st ++ [{| role := r; content := c |}]).
Proof.
  intros Hm. rewrite add_message_history. cbv zeta.
  rewrite length_app. cbn [length].
  destruct (Z.gtb_spec (Z.of_nat (length (conversation_history st) + 1)) m)
    as [Hgt | Hle]; [|lia].
  unfold slice_from.
  destruct (Z.ltb_spec (- m) 0) as [Hneg | Hpos]; [lia | reflexivity].
Qed.

Lemma add_message_non_positive_bound_witness :
  conversation_history (add_message 0 user (utf8 "and Rome?") awaiting_pair)
  = skipn (Z.to_nat (- 0))
      (conversation_history awaiting_pair
       ++ [{| role := user; content := utf8 "and Rome?" |}]).
Proof.
  apply (@add_message_non_positive_bound 0%Z user (utf8 "and Rome?") awaiting_pair).
  lia.
Defined.

Lemma str_eqb_neq (a b : str) : a <> b -> str_eqb a b = false.
Proof.
  intros H. destruct (str_eqb a b) eqn:E; [|reflexivity].
  apply str_eqb_eq in E. contradiction.
Qed.

Lemma dict_get_store_other (sid other : str) (st : State)
    (d : list (str * State)) :
  other <> sid -> dict_get other (store sid st d) = dict_get other d.
Proof.
  intros Hne. induction d as [|[k v] d IH]; cbn [store dict_get].
  - rewrite (str_eqb_neq Hne). reflexivity.
  - destruct (str_eqb sid k) eqn:E; cbn [dict_get].
    + apply str_eqb_eq in E. subst k. rewrite (str_eqb_neq Hne). reflexivity.
    + destruct (str_eqb other k); [reflexivity | exact IH].
Qed.

(** X13: a turn touches one session of the store.  The state the turn
    leaves is stored under the session's id, also when the turn raises;
    the state of every other session, present or not, is as before; and
    the bound on the history is unchanged. *)
Theorem handle_turn_touches_one_session (env : Env) (self : StateManager)
    (sid other msg : str) :
  other <> sid ->
  let self' := fst (handle_turn env self sid msg) in
  dict_get other (_states self') = dict_get other (_states self)
  /\ dict_get sid (_states self')
     = Some (fst (turn env (_max_history_messages self) msg
                    (snd (get_or_create self sid))))
  /\ _max_history_messages self' = _max_history_messages self.
Proof.
  intros Hne. cbv zeta. unfold handle_turn. cbn [fst _states _max_history_messages].
  split; [|split; [apply dict_get_store | reflexivity]].
  rewrite (@dict_get_store_other _ _ _ _ Hne).
  unfold get_or_create. destruct (dict_get sid (_states self)); cbn [fst _states].
  - reflexivity.
  - apply (@dict_get_store_other _ _ _ _ Hne).
Qed.

Lemma handle_turn_touches_one_session_witness :
  let self := {| _states := [(utf8 "s3", in_paris)]; _max_history_messages := 12 |} in
  let self' := fst (handle_turn env_hello self (utf8 "s9") (utf8 "hello")) in
  dict_get (utf8 "s3") (_states self') = dict_get (utf8 "s3") (_states self)
  /\ dict_get (utf8 "s9") (_states self')
     = Some (fst (turn env_hello (_max_history_messages self) (utf8 "hello")
                    (snd (get_or_create self (utf8 "s9")))))
  /\ _max_history_messages self' = _max_history_messages self.
Proof.
  apply (@handle_turn_touches_one_session env_hello
           {| _states := [(utf8 "s3", in_paris)]; _max_history_messages := 12 |}
           (utf8 "s9") (utf8 "s3") (utf8 "hello")).
  vm_compute. discriminate.
Defined.

(** ** The trust filter *)

Lemma flagged_after_reason (rs : list str) (x : str) :
  negb (Nat.eqb (length (rs ++ [x])) 0) = true.
Proof. rewrite length_app, Nat.add_comm. reflexivity. Qed.

(** X14: without tool data the trust filter always returns a result: no
    path raises.  The result is flagged exactly when a reason was
    recorded, and an unflagged result carries the assistant's text as it
    came, stripped: every rewriting and every replacement leaves a
    reason. *)
Theorem trust_filter_without_tool_data (fmt : pyval -> str) (i : Intent)
    (assistant_text : str) (user_message : option str) :
  exists r,
    apply fmt i assistant_text None user_message = Ok r
    /\ (flagged r = true <-> reasons r <> [])
    /\ (flagged r = false -> text r = strip assistant_text).
Proof.
  unfold apply. destruct (strip assistant_text) as [|c0 t0] eqn:Et.
  - eexists. split; [reflexivity|]. cbn [flagged reasons text].
    split; [split; [discriminate | intros H; contradiction H; reflexivity]|].
    reflexivity.
  - cbn [_safe_live_weather_response is_some negb andb].
    set (t := c0 :: t0).
    split_conditions;
      (eexists; split; [reflexivity|]; cbn [flagged reasons text app];
       rewrite ?flagged_after_reason; cbn [length Nat.eqb negb];
       split;
       [ split;
         [ intros H; try discriminate H;
           intros H'; try discriminate H';
           apply (f_equal (@length str)) in H'; rewrite ?length_app in H';
           cbn [length] in H'; lia
         | intros H; try reflexivity; contradiction H; reflexivity ]
       | intros H; try discriminate H; reflexivity ]).
Qed.

(** X15: in a conversion turn without tool data no rate or converted
    amount of the model's own passes the filter: the text returned is the
    fixed message about the missing live rate, or the filter's detector
    finds no rate or conversion figure in it. *)
Theorem unverified_rates_never_pass (fmt : pyval -> str)
    (assistant_text : str) (user_message : option str) (r : TrustResult) :
  apply fmt CURRENCY_CONVERSION assistant_text None user_message = Ok r ->
  (text r = _safe_currency_without_tool
   /\ In (utf8 "currency_numbers_without_tool") (reasons r))
  \/ _contains_currency_rate_or_conversion (text r) = false.
Proof.
  unfold apply. destruct (strip assistant_text) as [|c0 t0] eqn:Et.
  - intros H. injection H as <-. right. reflexivity.
  - cbn [intent_eqb is_some negb andb].
    set (t := c0 :: t0).
    destruct (_contains_currency_rate_or_conversion _) eqn:Eb.
    + intros H. injection H as <-. left. cbn [text reasons].
      split; [reflexivity|]. apply in_or_app. right. left. reflexivity.
    + intros H. injection H as <-. right. cbn [text]. exact Eb.
Qed.

Lemma unverified_rates_never_pass_witness :
  (text {| text := _safe_currency_without_tool; flagged := true;
           reasons := [utf8 "currency_numbers_without_tool"] |}
   = _safe_currency_without_tool
   /\ In (utf8 "currency_numbers_without_tool")
        (reasons {| text := _safe_currency_without_tool; flagged := true;
                    reasons := [utf8 "currency_numbers_without_tool"] |}))
  \/ _contains_currency_rate_or_conversion
       (text {| text := _safe_currency_without_tool; flagged := true;
                reasons := [utf8 "currency_numbers_without_tool"] |}) = false.
Proof.
  apply (@unverified_rates_never_pass (fun _ => []) c4_text None).
  vm_compute. reflexivity.
Defined.

(** X16: in a weather turn without tool data no forecast figure of the
    model's own passes the filter: the text returned is one of the fixed
    weather messages, with its reason recorded, or the filter's detector
    finds no specific forecast number in it for that user message. *)
Theorem unverified_forecasts_never_pass (fmt : pyval -> str)
    (assistant_text : str) (user_message : option str) (r : TrustResult) :
  apply fmt WEATHER_QUERY assistant_text None user_message = Ok r ->
  let u := match user_message with Some m => m | None => [] end in
  (text r = _safe_weather_without_tool u
   /\ (In (utf8 "exact_daily_weather_without_tool") (reasons r)
       \/ In (utf8 "weather_numbers_without_tool") (reasons r)))
  \/ (_safe_live_weather_response fmt None = Ok (text r)
      /\ In (utf8 "live_weather_request") (reasons r))
  \/ _contains_specific_forecast_numbers (text r) u = false.
Proof.
  cbv zeta. unfold apply. destruct (strip assistant_text) as [|c0 t0] eqn:Et.
  - intros H. injection H as <-. right. right. cbn [text].
    unfold _contains_specific_forecast_numbers. cbn [lower map].
    split_conditions; reflexivity.
  - cbn [intent_eqb is_some negb andb _safe_live_weather_response].
    set (t := c0 :: t0).
    set (u := match user_message with Some m => m | None => [] end).
    destruct (_user_requested_exact_daily u).
    + intros H. injection H as <-. left. cbn [text reasons].
      split; [reflexivity|]. left. apply in_or_app. right. left. reflexivity.
    + destruct (_user_requested_live u).
      * intros H. injection H as <-. right. left. cbn [text reasons].
        split; [reflexivity|]. apply in_or_app. right. left. reflexivity.
      * destruct (_contains_specific_forecast_numbers _ u) eqn:En.
        -- intros H. injection H as <-. left. cbn [text reasons].
           split; [reflexivity|]. right. apply in_or_app. right. left. reflexivity.
        -- intros H. injection H as <-. right. right. cbn [text]. exact En.
Qed.

Lemma unverified_forecasts_never_pass_witness :
  let r := {| text := _safe_weather_without_tool (utf8 "and on Friday?");
              flagged := true;
              reasons := [utf8 "weather_numbers_without_tool"] |} in
  let u := match Some (utf8 "and on Friday?") with Some m => m | None => [] end in
  (text r = _safe_weather_without_tool u
   /\ (In (utf8 "exact_daily_weather_without_tool") (reasons r)
       \/ In (utf8 "weather_numbers_without_tool") (reasons r)))
  \/ (_safe_live_weather_response (fun _ => []) None = Ok (text r)
      /\ In (utf8 "live_weather_request") (reasons r))
  \/ _contains_specific_forecast_numbers (text r) u = false.
Proof.
  apply (@unverified_forecasts_never_pass (fun _ => [])
           (utf8 "On Friday expect a high of 21 and 3 mm of rain.")
           (Some (utf8 "and on Friday?"))).
  vm_compute. reflexivity.
Defined.

(** ** What a turn does to the session *)

(** An invariant of the session state holds after a turn, completed or
    not, as soon as each assignment of the turn preserves it. *)
Section TurnInvariant.

Variable P : State -> Prop.

Hypothesis P_history : forall st h, P st -> P (set_history h st).
Hypothesis P_profile : forall st p, P st -> P (set_trip_profile p st).
Hypothesis P_pending : forall st v, P st -> P (set_pending v st).
Hypothesis P_turn : forall st, P st -> P (increment_turn st).
Hypothesis P_last :
  forall st v,
    P st -> v = primary_intent st \/ opt_is_goal v = true ->
    P (set_last_intent v st).
Hypothesis P_primary :
  forall st g,
    P st -> is_goal g = true -> g <> CURRENCY_CONVERSION ->
    P (set_primary_intent (Some g) st).

Lemma P_add_message (m : Z) (r : Role) (c : str) (st : State) :
  P st -> P (add_message m r c st).
Proof. intros H. unfold add_message. destruct (_ >? _)%Z; apply P_history; exact H. Qed.

Lemma P_guardrail (today : date) (msg : str) (st : State) :
  P st -> P (_guardrail_roll_month_without_year_forward today msg st).
Proof.
  intros H. unfold _guardrail_roll_month_without_year_forward.
  repeat match goal with
         | |- context [if ?b then _ else _] => destruct b
         | |- context [match ?x with _ => _ end] => destruct x
         end; try exact H; apply P_profile; exact H.
Qed.

Lemma P_execute (env : Env) (d : Decision) (st : State) (i : Intent) (msg : str) :
  P st -> P (fst (_execute_decision env d st i msg)).
Proof.
  intros H. unfold _execute_decision.
  destruct (action d); try exact H.
  destruct (primary_intent st) as [p|] eqn:Ep;
    repeat match goal with
           | |- context [if ?b then _ else _] => destruct b
           | |- context [match ?x with _ => _ end] => destruct x
           end; try exact H; cbn [fst];
    apply P_last; [exact H | left; symmetry; exact Ep].
Qed.

Lemma P_after_recovery (fb : FallbackResult) (i : Intent) (st : State) :
  P st -> P (after_recovery fb i st).
Proof.
  intros H. unfold after_recovery.
  destruct (opt_is_goal (resolved_intent fb)) eqn:E.
  - apply P_last; [apply P_pending; exact H | right; exact E].
  - apply P_pending. exact H.
Qed.

Lemma turn_invariant (env : Env) (m : Z) (msg : str) (st : State) :
  P st -> P (fst (turn env m msg st)).
Proof.
  intros Hst. unfold turn.
  destruct (classify env msg (_recent_messages st 6) (pending_missing_info st))
    as [ir|e0]; [|exact Hst].
  set (st1 := add_message m user msg st).
  set (upd := apply_updates (trip_profile st1) (extracted_updates ir)).
  assert (H1 : P (set_trip_profile (fst upd) st1)).
  { apply P_profile. subst st1. apply P_add_message. exact Hst. }
  destruct (snd upd); [|exact H1].
  set (st2 := _guardrail_roll_month_without_year_forward (today env) msg
                (set_trip_profile (fst upd) st1)).
  assert (H2 : P st2) by (subst st2; apply P_guardrail; exact H1).
  set (i := if intent_eqb (intent ir) CONSTRAINTS_UPDATE then _ else _).
  set (st3 := increment_turn _).
  assert (H3 : P st3).
  { subst st3. apply P_turn.
    destruct (is_goal i) eqn:Eg; [|exact H2].
    destruct (negb (intent_eqb i CURRENCY_CONVERSION)) eqn:Ec.
    - apply P_primary; [apply P_last; [exact H2 | right; exact Eg] | exact Eg |].
      intros E. rewrite E in Ec. discriminate Ec.
    - apply P_last; [exact H2 | right; exact Eg]. }
  destruct (decision_logic env i (validate i st3) msg st3) as [[d|]|e0];
    [| |exact H3].
  - set (st4 := if action_eqb (action d) ASK_CLARIFICATION then _ else _).
    assert (H4 : P st4).
    { subst st4. destruct (action_eqb (action d) ASK_CLARIFICATION);
        [|destruct (_ && _)]; apply P_pending; exact H3. }
    set (ex := _execute_decision env d st4 i msg).
    assert (H5 : P (fst ex)) by (subst ex; apply P_execute; exact H4).
    destruct (match match snd ex with Ok _ => _ | Raise _ => _ end with
              | Ok _ => _ | Raise _ => _ end) as [[s5 a5]|e5] eqn:Hrec;
      [|exact H5].
    assert (H6 : P s5).
    { destruct (match snd ex with Ok _ => _ | Raise _ => _ end) as [t0|e0].
      - injection Hrec as <- _. exact H5.
      - destruct (recover _ _ _ _ _ _) as [fb|e']; [|discriminate].
        injection Hrec as <- _. apply P_after_recovery. exact H5. }
    destruct (if negb (action_eqb (action d) CALL_TOOL) then _ else _)
      as [a0|e6]; [|exact H6].
    cbn [fst]. apply P_add_message.
    destruct (action_eqb (action d) GENERATE_RESPONSE &&
              Nat.eqb (length (pending_missing_info s5)) 0);
      [apply P_pending|]; exact H6.
  - destruct (recover _ _ _ _ _ _) as [fb|e']; [|exact H3].
    destruct (apply _ _ _ _ _) as [trust|e'].
    + cbn [fst]. apply P_add_message. apply P_after_recovery. exact H3.
    + cbn [fst]. apply P_after_recovery. exact H3.
Qed.

End TurnInvariant.

Lemma new_state_in_order (sid : str) : intents_in_order (new_state sid).
Proof. unfold intents_in_order. cbn. repeat split. discriminate. Qed.

Lemma turn_keeps_intents_in_order (env : Env) (m : Z) (msg : str) (st : State) :
  intents_in_order st -> intents_in_order (fst (turn env m msg st)).
Proof.
  apply turn_invariant; unfold intents_in_order;
    try (intros s x H; exact H); try (intros s H; exact H).
  - intros s v [Hl [Hp Hc]] Hv. cbn [last_intent primary_intent set_last_intent].
    split; [|split; assumption].
    destruct Hv as [-> | Hv]; [exact Hp|].
    destruct v; [exact Hv | reflexivity].
  - intros s g [Hl [Hp Hc]] Hg Hne.
    cbn [last_intent primary_intent set_primary_intent goal_or_none].
    split; [exact Hl|]. split; [exact Hg|].
    intros E. injection E as E. contradiction.
Qed.

Lemma store_Forall (P : State -> Prop) (sid : str) (st : State)
    (d : list (str * State)) :
  P st -> Forall (fun kv => P (snd kv)) d ->
  Forall (fun kv => P (snd kv)) (store sid st d).
Proof.
  intros Hst Hd. induction Hd as [|[k v] d Hk Hd IH]; cbn [store].
  - constructor; [exact Hst | constructor].
  - destruct (str_eqb sid k); constructor; try assumption.
Qed.

Lemma dict_get_Forall (P : State -> Prop) (sid : str) (st : State)
    (d : list (str * State)) :
  Forall (fun kv => P (snd kv)) d -> dict_get sid d = Some st -> P st.
Proof.
  intros Hd. induction Hd as [|[k v] d Hk Hd IH]; cbn [dict_get]; [discriminate|].
  destruct (str_eqb sid k); [|exact IH].
  intros E. injection E as <-. exact Hk.
Qed.

(** X17: every session of the store remembers goals only, one turn after
    the other: its last intent and its primary intent are unset or one of
    the five goals, and the primary intent is never currency conversion,
    so that a conversion on the side never replaces the goal of the trip.
    A new session starts that way and every turn, completed or not, keeps
    it so, whatever the classifier, the router, the tools and the
    generation answer. *)
Theorem remembered_intents_stay_in_order (env : Env) (self : StateManager)
    (sid msg : str) :
  Forall (fun kv => intents_in_order (snd kv)) (_states self) ->
  Forall (fun kv => intents_in_order (snd kv))
    (_states (fst (handle_turn env self sid msg))).
Proof.
  intros H. unfold handle_turn. cbn [fst _states].
  assert (Hc : intents_in_order (snd (get_or_create self sid))
               /\ Forall (fun kv => intents_in_order (snd kv))
                    (_states (fst (get_or_create self sid)))).
  { unfold get_or_create.
    destruct (dict_get sid (_states self)) as [st|] eqn:E; cbn [fst snd _states].
    - split; [apply (dict_get_Forall intents_in_order sid H E) | exact H].
    - split; [apply new_state_in_order|].
      apply store_Forall; [apply new_state_in_order | exact H]. }
  destruct Hc as [Hs Hd].
  apply store_Forall; [|exact Hd].
  apply turn_keeps_intents_in_order. exact Hs.
Qed.

Lemma remembered_intents_stay_in_order_witness :
  Forall (fun kv => intents_in_order (snd kv))
    (_states (fst (handle_turn env_february
                     {| _states := [(utf8 "s3", february_2024)];
                        _max_history_messages := 12 |}
                     (utf8 "s3") february_question))).
Proof.
  apply (@remembered_intents_stay_in_order env_february
           {| _states := [(utf8 "s3", february_2024)];
              _max_history_messages := 12 |}
           (utf8 "s3") february_question).
  constructor; [|constructor].
  unfold intents_in_order. cbn. repeat split. discriminate.
Defined.

(** The history and the turn counter through the steps of a turn. *)
Lemma log_add_message (m : Z) (r : Role) (c : str) (st : State) :
  turn_count (add_message m r c st) = turn_count st.
Proof. unfold add_message. destruct (_ >? _)%Z; reflexivity. Qed.

Lemma log_guardrail (today : date) (msg : str) (st : State) :
  conversation_history (_guardrail_roll_month_without_year_forward today msg st)
  = conversation_history st
  /\ turn_count (_guardrail_roll_month_without_year_forward today msg st)
     = turn_count st.
Proof.
  unfold _guardrail_roll_month_without_year_forward.
  repeat match goal with
         | |- context [if ?b then _ else _] => destruct b
         | |- context [match ?x with _ => _ end] => destruct x
         end; split; reflexivity.
Qed.

Lemma log_execute (env : Env) (d : Decision) (st : State) (i : Intent)
    (msg : str) :
  conversation_history (fst (_execute_decision env d st i msg))
  = conversation_history st
  /\ turn_count (fst (_execute_decision env d st i msg)) = turn_count st.
Proof.
  unfold _execute_decision.
  destruct (action d); try (split; reflexivity).
  repeat match goal with
         | |- context [if ?b then _ else _] => destruct b
         | |- context [match ?x with _ => _ end] => destruct x
         end; split; reflexivity.
Qed.

Lemma log_after_recovery (fb : FallbackResult) (i : Intent) (st : State) :
  conversation_history (after_recovery fb i st) = conversation_history st
  /\ turn_count (after_recovery fb i st) = turn_count st.
Proof. unfold after_recovery. destruct (opt_is_goal _); split; reflexivity. Qed.

Lemma turn_tail_log (env : Env) (m : Z) (d : Decision) (i : Intent)
    (msg : str) (state : State) (a : str) (st' : State) (t : str) :
  match
    (if negb (action_eqb (action d) CALL_TOOL)
     then
       match apply (py_format env) i a None (Some msg) with
       | Ok trust => Ok (text trust)
       | Raise e => Raise e
       end
     else Ok a)
  with
  | Ok a0 =>
    (add_message m assistant a0
       (if action_eqb (action d) GENERATE_RESPONSE &&
           Nat.eqb (length (pending_missing_info state)) 0
        then set_pending (_infer_pending_from_assistant a0 i state) state
        else state),
     Ok a0)
  | Raise e => (state, Raise e)
  end = (st', Ok t) ->
  exists mid,
    st' = add_message m assistant t mid
    /\ conversation_history mid = conversation_history state
    /\ turn_count mid = turn_count state.
Proof.
  intros H.
  destruct (if negb (action_eqb (action d) CALL_TOOL) then _ else _)
    as [a0|e]; [|discriminate].
  injection H as <- <-.
  eexists. split; [reflexivity|].
  destruct (action_eqb (action d) GENERATE_RESPONSE &&
            Nat.eqb (length (pending_missing_info state)) 0);
    split; reflexivity.
Qed.

Lemma turn_completed (env : Env) (m : Z) (msg : str) (st st' : State) (t : str) :
  turn env m msg st = (st', Ok t) ->
  exists mid,
    st' = add_message m assistant t mid
    /\ conversation_history mid
       = conversation_history (add_message m user msg st)
    /\ turn_count mid = (turn_count st + 1)%Z.
Proof.
  unfold turn.
  destruct (classify env msg (_recent_messages st 6) (pending_missing_info st))
    as [ir|e]; [|discriminate].
  set (st1 := add_message m user msg st).
  set (upd := apply_updates (trip_profile st1) (extracted_updates ir)).
  destruct (snd upd); [|discriminate].
  set (st2 := _guardrail_roll_month_without_year_forward (today env) msg
                (set_trip_profile (fst upd) st1)).
  set (i := if intent_eqb (intent ir) CONSTRAINTS_UPDATE then _ else _).
  set (st3 := increment_turn _).
  assert (L3 : conversation_history st3 = conversation_history st1
               /\ turn_count st3 = (turn_count st + 1)%Z).
  { destruct (log_guardrail (today env) msg (set_trip_profile (fst upd) st1))
      as [Lh Lt].
    fold st2 in Lh, Lt. cbn [conversation_history turn_count set_trip_profile] in Lh, Lt.
    subst st3. unfold increment_turn.
    destruct (is_goal i); [destruct (negb _)|];
      cbn [conversation_history turn_count set_turn_count set_last_intent
           set_primary_intent];
      rewrite Lh, Lt; subst st1; rewrite log_add_message; split; reflexivity. }
  destruct L3 as [Lh3 Lt3].
  destruct (decision_logic env i (validate i st3) msg st3) as [[d|]|e0];
    [| |discriminate].
  - set (st4 := if action_eqb (action d) ASK_CLARIFICATION then _ else _).
    assert (L4 : conversation_history st4 = conversation_history st1
                 /\ turn_count st4 = (turn_count st + 1)%Z).
    { subst st4. rewrite <- Lh3, <- Lt3.
      destruct (action_eqb (action d) ASK_CLARIFICATION);
        [|destruct (_ && _)]; split; reflexivity. }
    set (ex := _execute_decision env d st4 i msg).
    assert (L5 : conversation_history (fst ex) = conversation_history st1
                 /\ turn_count (fst ex) = (turn_count st + 1)%Z).
    { destruct (log_execute env d st4 i msg) as [Eh Et]. fold ex in Eh, Et.
      rewrite Eh, Et. exact L4. }
    assert (Hrec : forall e0,
               match
                 match
                   recover (fallback_client env) (fst ex) msg (Some i)
                     (_recent_messages (fst ex) 8) (Some e0)
                 with
                 | Ok fallback =>
                   Ok (after_recovery fallback i (fst ex), message fallback)
                 | Raise e' => Raise e'
                 end
               with
               | Ok (state, a) =>
                 match
                   (if negb (action_eqb (action d) CALL_TOOL)
                    then
                      match apply (py_format env) i a None (Some msg) with
                      | Ok trust => Ok (text trust)
                      | Raise e => Raise e
                      end
                    else Ok a)
                 with
                 | Ok a0 =>
                   (add_message m assistant a0
                      (if action_eqb (action d) GENERATE_RESPONSE &&
                          Nat.eqb (length (pending_missing_info state)) 0
                       then set_pending (_infer_pending_from_assistant a0 i state) state
                       else state),
                    Ok a0)
                 | Raise e => (state, Raise e)
                 end
               | Raise e => (fst ex, Raise e)
               end = (st', Ok t) ->
               exists mid,
                 st' = add_message m assistant t mid
                 /\ conversation_history mid = conversation_history st1
                 /\ turn_count mid = (turn_count st + 1)%Z).
    { intros e0.
      destruct (recover _ _ _ _ _ _) as [fb|e']; [|discriminate].
      intros H. apply turn_tail_log in H. destruct H as [mid [E [Hh Ht]]].
      exists mid. split; [exact E|].
      destruct (log_after_recovery fb i (fst ex)) as [Rh Rt].
      rewrite Hh, Ht, Rh, Rt. exact L5. }
    destruct (snd ex) as [t0|e0].
    + destruct (strip t0) as [|c0 t0'].
      * apply Hrec.
      * intros H. apply turn_tail_log in H. destruct H as [mid [E [Hh Ht]]].
        exists mid. split; [exact E|]. rewrite Hh, Ht. exact L5.
    + apply Hrec.
  - destruct (recover _ _ _ _ _ _) as [fb|e']; [|discriminate].
    destruct (apply _ _ _ _ _) as [trust|e']; [|discriminate].
    intros H. injection H as <- <-.
    eexists. split; [reflexivity|].
    destruct (log_after_recovery fb i st3) as [Rh Rt].
    rewrite Rh, Rt. split; assumption.
Qed.

Lemma turn_keeps_session_id (env : Env) (m : Z) (msg : str) (st : State) :
  session_id (fst (turn env m msg st)) = session_id st.
Proof.
  apply (@turn_invariant (fun s => session_id s = session_id st));
    try (intros s x H; exact H); try (intros s H; exact H);
    try reflexivity.
  - intros s v H _. exact H.
  - intros s g H _ _. exact H.
Qed.

(** X18: a completed turn is logged once.  The turn counter goes up by
    exactly one and the session id stays.  With a positive bound on the
    history, the history respects the bound and ends with the assistant's
    reply as it was returned; with a bound of two or more it ends with the
    user's message followed by that reply. *)
Theorem completed_turn_is_logged (env : Env) (m : Z) (msg : str)
    (st st' : State) (t : str) :
  turn env m msg st = (st', Ok t) ->
  turn_count st' = (turn_count st + 1)%Z
  /\ session_id st' = session_id st
  /\ ((0 < m)%Z ->
      (Z.of_nat (length (conversation_history st')) <= m)%Z
      /\ exists earlier,
           conversation_history st'
           = earlier ++ [{| role := assistant; content := t |}])
  /\ ((2 <= m)%Z ->
      exists earlier,
        conversation_history st'
        = earlier ++ [{| role := user; content := msg |};
                      {| role := assistant; content := t |}]).
Proof.
  intros H.
  pose proof (turn_keeps_session_id env m msg st) as Hsid.
  rewrite H in Hsid. cbn [fst] in Hsid.
  apply turn_completed in H. destruct H as [mid [-> [Hh Ht]]].
  split; [rewrite log_add_message; exact Ht|].
  split; [exact Hsid|].
  split.
  - intros Hm. rewrite add_message_history. cbv zeta.
    destruct (@trimmed_history m (conversation_history mid)
                [{| role := assistant; content := t |}] Hm)
      as [H1 [_ [H3 _]]]; [cbn [length]; lia|].
    split; assumption.
  - intros Hm.
    assert (Hpos : (0 < m)%Z) by lia.
    rewrite add_message_history. cbv zeta. rewrite Hh.
    rewrite add_message_history. cbv zeta.
    destruct (@trimmed_history m (conversation_history st)
                [{| role := user; content := msg |}] Hpos)
      as [_ [_ [[e1 ->] _]]]; [cbn [length]; lia|].
    rewrite <- app_assoc. cbn [app].
    destruct (@trimmed_history m e1
                [{| role := user; content := msg |};
                 {| role := assistant; content := t |}] Hpos)
      as [_ [_ [H3 _]]]; [cbn [length]; lia|].
    exact H3.
Qed.

Lemma completed_turn_is_logged_witness :
  let st := new_state (utf8 "s9") in
  let st' := fst (turn env_hello 12 (utf8 "hello") st) in
  turn_count st' = (turn_count st + 1)%Z
  /\ session_id st' = session_id st
  /\ ((0 < 12)%Z ->
      (Z.of_nat (length (conversation_history st')) <= 12)%Z
      /\ exists earlier,
           conversation_history st'
           = earlier ++ [{| role := assistant; content := goal_question |}])
  /\ ((2 <= 12)%Z ->
      exists earlier,
        conversation_history st'
        = earlier ++ [{| role := user; content := utf8 "hello" |};
                      {| role := assistant; content := goal_question |}]).
Proof.
  apply (@completed_turn_is_logged env_hello 12%Z (utf8 "hello")
           (new_state (utf8 "s9"))
           (fst (turn env_hello 12 (utf8 "hello") (new_state (utf8 "s9"))))
           goal_question).
  vm_compute. reflexivity.
Defined.

(** ** A pending amount and a detour *)

Lemma validate_profile (i : Intent) (a b : State) :
  trip_profile a = trip_profile b -> validate i a = validate i b.
Proof.
  intros H. unfold validate, _has_dates_or_duration. rewrite H. reflexivity.
Qed.

Lemma turn_profile_after_updates (env : Env) (m : Z) (msg : str) (st : State)
    (ir : IntentResult) (u0 : unit) :
  classify env msg (_recent_messages st 6) (pending_missing_info st) = Ok ir ->
  snd (apply_updates (trip_profile st) (extracted_updates ir)) = Ok u0 ->
  trip_profile (fst (turn env m msg st))
  = rolled (today env) msg
      (fst (apply_updates (trip_profile st) (extracted_updates ir))).
Proof.
  intros Hc Hu. unfold turn. rewrite Hc.
  set (st1 := add_message m user msg st).
  assert (E1 : trip_profile st1 = trip_profile st)
    by apply trip_profile_add_message.
  rewrite E1.
  set (upd := apply_updates (trip_profile st) (extracted_updates ir)) in *.
  rewrite Hu.
  set (st2 := _guardrail_roll_month_without_year_forward (today env) msg
                (set_trip_profile (fst upd) st1)).
  assert (E2 : trip_profile st2 = rolled (today env) msg (fst upd)).
  { subst st2. rewrite trip_profile_guardrail. reflexivity. }
  set (i := if intent_eqb (intent ir) CONSTRAINTS_UPDATE then _ else _).
  set (st3 := increment_turn _).
  assert (E3 : trip_profile st3 = rolled (today env) msg (fst upd)).
  { subst st3. rewrite <- E2.
    destruct (is_goal i); [destruct (negb _)|]; reflexivity. }
  destruct (decision_logic env i (validate i st3) msg st3) as [[d|]|e0];
    [| |exact E3].
  - set (st4 := if action_eqb (action d) ASK_CLARIFICATION then _ else _).
    assert (E4 : trip_profile st4 = rolled (today env) msg (fst upd)).
    { subst st4. rewrite <- E3.
      destruct (action_eqb _ _); [|destruct (_ && _)]; reflexivity. }
    set (ex := _execute_decision env d st4 i msg).
    assert (E5 : trip_profile (fst ex) = rolled (today env) msg (fst upd)).
    { subst ex. rewrite trip_profile_execute. exact E4. }
    destruct (match match snd ex with Ok _ => _ | Raise _ => _ end with
              | Ok _ => _ | Raise _ => _ end) as [[s5 a5]|e5] eqn:Hrec;
      [|exact E5].
    assert (E6 : trip_profile s5 = rolled (today env) msg (fst upd)).
    { destruct (match snd ex with Ok _ => _ | Raise _ => _ end) as [t0|e0].
      - injection Hrec as <- _. exact E5.
      - destruct (recover _ _ _ _ _ _) as [fb|e']; [|discriminate].
        injection Hrec as <- _. rewrite trip_profile_after_recovery. exact E5. }
    destruct (if negb (action_eqb (action d) CALL_TOOL) then _ else _)
      as [a0|e6]; [|exact E6].
    cbn [fst]. rewrite trip_profile_add_message.
    destruct (action_eqb (action d) GENERATE_RESPONSE && _); exact E6.
  - destruct (recover _ _ _ _ _ _) as [fb|e']; [|exact E3].
    destruct (apply _ _ _ _ _) as [trust|e'];
      cbn [fst]; rewrite ?trip_profile_add_message, trip_profile_after_recovery;
      exact E3.
Qed.

Lemma decide_goal_ok (today : date) (i : Intent) (v : ValidationResult)
    (msg : str) (st : State) :
  ok v = true ->
  i = ITINERARY_PLANNING \/ i = ATTRACTIONS_RECOMMENDATIONS
  \/ i = PACKING_LIST \/ i = WEATHER_QUERY ->
  exists d,
    decide today i v msg st = Ok d
    /\ action_eqb (action d) ASK_CLARIFICATION = false.
Proof.
  intros Hok [-> | [-> | [-> | ->]]];
    try (unfold decide; simpl; rewrite Hok; simpl; eexists; split; reflexivity).
  destruct (decide_weather_branch today v msg st Hok) as [[n H] | [_ [_ [_ H]]]];
    eexists; (split; [exact H | reflexivity]).
Qed.

Lemma recover_pending (client : FallbackClient) (state : State) (msg : str)
    (i : option Intent) (recent : list Message) (error : option str)
    (x : str) :
  pending_missing_info state = [x] ->
  exists fb,
    recover client state msg i recent error = Ok fb
    /\ f_pending_missing_info fb = [x].
Proof.
  intros H. unfold recover. rewrite H. eexists. split; reflexivity.
Qed.

Lemma after_recovery_keeps_slot (fb : FallbackResult) (i : Intent) (st : State)
    (x : str) :
  f_pending_missing_info fb = [x] ->
  pending_missing_info (after_recovery fb i st) = [x].
Proof.
  intros H. unfold after_recovery. rewrite H.
  destruct (opt_is_goal _); reflexivity.
Qed.

(** X19: a pending amount survives a detour.  When a session waits for
    the amount of a conversion and the next message is classified as an
    itinerary, attractions, packing or weather request for which the
    profile the turn leaves is valid, the session still waits for the
    amount after the turn, with the router of the repository and whatever
    the tools and the generation answer, whether they fail or not. *)
Theorem pending_amount_survives_a_detour (env : Env) (m : Z) (msg : str)
    (st : State) (ir : IntentResult) :
  decision_logic env = the_decision_logic (today env) ->
  pending_missing_info st = [utf8 "currency_amount"] ->
  classify env msg (_recent_messages st 6) (pending_missing_info st) = Ok ir ->
  intent ir = ITINERARY_PLANNING \/ intent ir = ATTRACTIONS_RECOMMENDATIONS
  \/ intent ir = PACKING_LIST \/ intent ir = WEATHER_QUERY ->
  ok (validate (intent ir) (fst (turn env m msg st))) = true ->
  pending_missing_info (fst (turn env m msg st)) = [utf8 "currency_amount"].
Proof.
  intros Hdl Hp Hc Hi Hv.
  destruct (snd (apply_updates (trip_profile st) (extracted_updates ir)))
    as [u0|e0] eqn:Hu.
  - pose proof (turn_profile_after_updates env m msg st Hc Hu) as Hprof.
    clear Hu. revert Hv Hprof. unfold turn. rewrite Hc.
    set (st1 := add_message m user msg st).
    set (upd := apply_updates (trip_profile st1) (extracted_updates ir)).
    assert (H1 : pending_missing_info (set_trip_profile (fst upd) st1)
                 = [utf8 "currency_amount"]).
    { cbn [set_trip_profile pending_missing_info]. subst st1.
      rewrite pending_add_message. exact Hp. }
    destruct (snd upd); [|intros _ _; exact H1].
    set (st2 := _guardrail_roll_month_without_year_forward (today env) msg
                  (set_trip_profile (fst upd) st1)).
    set (i := if intent_eqb (intent ir) CONSTRAINTS_UPDATE then _ else _).
    assert (Ei : i = intent ir).
    { subst i. destruct Hi as [E | [E | [E | E]]]; rewrite E; reflexivity. }
    assert (Hi' : i = ITINERARY_PLANNING \/ i = ATTRACTIONS_RECOMMENDATIONS
                  \/ i = PACKING_LIST \/ i = WEATHER_QUERY)
      by (rewrite Ei; exact Hi).
    assert (Hnc : negb (intent_eqb i CURRENCY_CONVERSION) = true)
      by (destruct Hi' as [E | [E | [E | E]]]; rewrite E; reflexivity).
    clearbody i.
    set (st3 := increment_turn _).
    assert (P3 : trip_profile st3 = rolled (today env) msg
                   (fst (apply_updates (trip_profile st) (extracted_updates ir)))).
    { subst st3.
      assert (E2 : trip_profile st2 = rolled (today env) msg (fst upd)).
      { subst st2. rewrite trip_profile_guardrail. reflexivity. }
      unfold upd, st1 in E2. rewrite trip_profile_add_message in E2.
      rewrite <- E2.
      destruct (is_goal i); [destruct (negb _)|]; reflexivity. }
    assert (H3 : pending_missing_info st3 = [utf8 "currency_amount"]).
    { subst st3.
      assert (H2 : pending_missing_info st2 = [utf8 "currency_amount"]).
      { subst st2. rewrite pending_guardrail. exact H1. }
      destruct (is_goal i); [destruct (negb _)|]; exact H2. }
    rewrite Hdl. unfold the_decision_logic.
    intros Hv Hprof.
    assert (Hv3 : ok (validate i st3) = true).
    { rewrite <- Hv, <- Ei. f_equal. apply validate_profile.
      rewrite P3, Hprof. reflexivity. }
    clear Hv Hprof.
    destruct (@decide_goal_ok (today env) i (validate i st3) msg st3 Hv3 Hi')
      as [d [Hd Ha]].
    rewrite Hd, Ha, Hp.
    change (strs_eqb [utf8 "currency_amount"] pending_amount)
      with (strs_eqb pending_amount pending_amount).
    rewrite strs_eqb_refl, Hnc. cbn [andb].
    set (st4 := set_pending [utf8 "currency_amount"] st3).
    set (ex := _execute_decision env d st4 i msg).
    assert (H5 : pending_missing_info (fst ex) = [utf8 "currency_amount"]).
    { subst ex. rewrite execute_decision_pending. reflexivity. }
    assert (Htail : forall (s : State) (a0 : str),
               pending_missing_info s = [utf8 "currency_amount"] ->
               pending_missing_info
                 (fst
                    match
                      (if negb (action_eqb (action d) CALL_TOOL)
                       then
                         match apply (py_format env) i a0 None (Some msg) with
                         | Ok trust => Ok (text trust)
                         | Raise e => Raise e
                         end
                       else Ok a0)
                    with
                    | Ok a1 =>
                      (add_message m assistant a1
                         (if action_eqb (action d) GENERATE_RESPONSE &&
                             Nat.eqb (length (pending_missing_info s)) 0
                          then set_pending (_infer_pending_from_assistant a1 i s) s
                          else s),
                       Ok a1)
                    | Raise e => (s, Raise e)
                    end) = [utf8 "currency_amount"]).
    { intros s a0 Hs.
      destruct (if negb (action_eqb (action d) CALL_TOOL) then _ else _)
        as [a1|e1]; cbn [fst]; [|exact Hs].
      rewrite pending_add_message, Hs. cbn [length Nat.eqb].
      rewrite andb_false_r. exact Hs. }
    assert (Hrec : forall e1,
               pending_missing_info
                 (fst
                    match
                      match
                        recover (fallback_client env) (fst ex) msg (Some i)
                          (_recent_messages (fst ex) 8) (Some e1)
                      with
                      | Ok fallback =>
                        Ok (after_recovery fallback i (fst ex), message fallback)
                      | Raise e' => Raise e'
                      end
                    with
                    | Ok (state, a) =>
                      match
                        (if negb (action_eqb (action d) CALL_TOOL)
                         then
                           match apply (py_format env) i a None (Some msg) with
                           | Ok trust => Ok (text trust)
                           | Raise e => Raise e
                           end
                         else Ok a)
                      with
                      | Ok a0 =>
                        (add_message m assistant a0
                           (if action_eqb (action d) GENERATE_RESPONSE &&
                               Nat.eqb (length (pending_missing_info state)) 0
                            then set_pending (_infer_pending_from_assistant a0 i state) state
                            else state),
                         Ok a0)
                      | Raise e => (state, Raise e)
                      end
                    | Raise e => (fst ex, Raise e)
                    end) = [utf8 "currency_amount"]).
    { intros e1.
      destruct (@recover_pending (fallback_client env) (fst ex) msg (Some i)
                  (_recent_messages (fst ex) 8) (Some e1) _ H5) as [fb [Hr Hf]].
      rewrite Hr. apply Htail. apply after_recovery_keeps_slot. exact Hf. }
    destruct (snd ex) as [t0|e1].
    + destruct (strip t0) as [|c0 t0'].
      * apply Hrec.
      * apply Htail. exact H5.
    + apply Hrec.
  - clear Hv. unfold turn. rewrite Hc.
    set (st1 := add_message m user msg st).
    assert (E1 : trip_profile st1 = trip_profile st)
      by apply trip_profile_add_message.
    rewrite E1, Hu. cbn [fst pending_missing_info set_trip_profile].
    subst st1. rewrite pending_add_message. exact Hp.
Qed.

Lemma pending_amount_survives_a_detour_witness :
  pending_missing_info
    (fst (turn env_packing 12 packing_question awaiting_amount_in_paris))
  = [utf8 "currency_amount"].
Proof.
  apply (@pending_amount_survives_a_detour env_packing 12%Z packing_question
           awaiting_amount_in_paris
           {| intent := PACKING_LIST; extracted_updates := [] |}).
  - reflexivity.
  - reflexivity.
  - reflexivity.
  - right. right. left. reflexivity.
  - vm_compute. reflexivity.
Defined.

(** ** The history scan *)

Lemma scan_history_counted (an : option Q) (pn : option (str * str)) (n : Z)
    (allow : bool) (msgs : list Message) :
  forall fa fp cnt,
    scan_history an pn n allow (filter counted msgs) fa fp cnt
    = scan_history an pn n allow msgs fa fp cnt.
Proof.
  induction msgs as [|m rest IH]; intros fa fp cnt; [reflexivity|].
  cbn [filter]. unfold counted at 1.
  destruct (is_user (role m)) eqn:Eu; cbn [andb].
  - destruct (strip (content m)) as [|c t] eqn:Es.
    + rewrite IH. cbn [scan_history]. rewrite Eu, Es. reflexivity.
    + cbn [scan_history]. rewrite Eu, Es. cbn [negb].
      destruct (cnt + 1 >? n)%Z; [reflexivity|].
      match goal with
      | |- context [if ?b then _ else _] => destruct b
      end; [reflexivity | apply IH].
  - rewrite IH. cbn [scan_history]. rewrite Eu. reflexivity.
Qed.

Lemma filter_rev_counted (l : list Message) :
  filter counted (rev l) = rev (filter counted l).
Proof.
  induction l as [|m l IH]; [reflexivity|].
  cbn [rev filter]. rewrite filter_app, IH. cbn [filter].
  destruct (counted m); [reflexivity|]. apply app_nil_r.
Qed.

(** X20: the history scan sees the user's words only: the assistant's
    messages, the system's and the user messages that are blank once
    stripped neither give it anything nor count against the lookback, so
    that combining with a history gives what combining with its counted
    messages gives. *)
Theorem combine_reads_counted_messages_only (msg : str) (hist : list Message)
    (n : Z) (allow : bool) :
  combine_currency_query_from_history msg hist n allow
  = combine_currency_query_from_history msg (filter counted hist) n allow.
Proof.
  unfold combine_currency_query_from_history.
  rewrite <- filter_rev_counted, scan_history_counted. reflexivity.
Qed.

(** ** Profile updates *)

Lemma get_other (f : string) (k : str) (v : pyval) (d : pydict) :
  utf8 f <> k -> get f ((k, v) :: d) = get f d.
Proof.
  intros H. unfold get. cbn [dict_get]. rewrite (str_eqb_neq H). reflexivity.
Qed.

Lemma field_name (f : string) (k : str) :
  In (utf8 f) profile_fields -> ~ In k profile_fields -> utf8 f <> k.
Proof. intros Hf Hk E. apply Hk. rewrite <- E. exact Hf. Qed.

(** X21: a key that is no field of the profile changes nothing: an
    update gives the same profile and the same outcome with and without
    it, and an update made of such a key alone leaves the profile as it
    is. *)
Theorem apply_updates_ignores_unknown_keys (p : TripProfile) (k : str)
    (v : pyval) (updates : pydict) :
  ~ In k profile_fields ->
  apply_updates p ((k, v) :: updates) = apply_updates p updates.
Proof.
  intros Hk.
  assert (G : forall f d, In (utf8 f) profile_fields ->
                          get f ((k, v) :: d) = get f d).
  { intros f d Hf. apply get_other. apply (field_name f Hf Hk). }
  unfold apply_updates.
  rewrite !G by known_field.
  destruct updates as [|kv updates']; [|reflexivity].
  unfold get. cbn [dict_get date_update text_update stripped_text assigned
                   merge_field].
  destruct p. reflexivity.
Qed.

Lemma apply_updates_ignores_unknown_keys_witness :
  apply_updates paris ((utf8 "mood", VStr (utf8 "excited")) :: food_twice)
  = apply_updates paris food_twice.
Proof.
  apply (@apply_updates_ignores_unknown_keys paris (utf8 "mood")
           (VStr (utf8 "excited")) food_twice).
  vm_compute. intros H.
  repeat (destruct H as [H | H]; [discriminate H|]). exact H.
Defined.

(** ** The classifier's overrides *)

Lemma force_currency_intent (float : Type) (at_least_06 : float -> float)
    (i : Intent) (c : float) :
  fst (force_currency at_least_06 (i, c)) = CURRENCY_CONVERSION.
Proof. destruct i; reflexivity. Qed.

(** X22: while a currency slot is pending the classifier keeps the turn
    a conversion, whatever intent the model answered: always for a
    pending pair, from-currency or to-currency, and for a pending amount
    whenever the message does not read as a return to the itinerary. *)
Theorem pending_currency_slot_keeps_the_intent (float : Type) (zero : float)
    (at_least_06 : float -> float) (i : Intent) (conf : float) (upd : pydict)
    (mi : list str) (raw msg pending : str) (rest : list str) :
  In pending (map utf8 ["currency_pair"; "currency_from"; "currency_to"]%string)
  \/ (pending = utf8 "currency_amount"
      /\ _looks_like_itinerary_continue msg = false) ->
  c_intent
    (classify_parsed zero at_least_06 (Some i) conf upd mi raw msg
       (pending :: rest))
  = CURRENCY_CONVERSION.
Proof.
  intros H.
  assert (G : forall ml : list str,
             c_intent
               (if intent_eqb
                     (fst (fst (force_currency at_least_06 (i, conf), ml)))
                     OUT_OF_SCOPE && _looks_like_generic_help msg
                then
                  {| c_intent := CLARIFICATION_NEEDED;
                     c_confidence :=
                       at_least_06
                         (snd (fst (force_currency at_least_06 (i, conf), ml)));
                     c_extracted_updates := upd;
                     c_missing_info := [];
                     c_raw_text := raw |}
                else
                  {| c_intent :=
                       fst (fst (force_currency at_least_06 (i, conf), ml));
                     c_confidence :=
                       snd (fst (force_currency at_least_06 (i, conf), ml));
                     c_extracted_updates := upd;
                     c_missing_info := snd (force_currency at_least_06 (i, conf), ml);
                     c_raw_text := raw |})
             = CURRENCY_CONVERSION).
  { intros ml. cbn [fst snd]. rewrite force_currency_intent. reflexivity. }
  unfold classify_parsed.
  destruct H as [H | [-> Hc]].
  - cbn [map In] in H. destruct H as [<- | [<- | [<- | []]]];
      eval_tests; cbn [andb]; apply G.
  - eval_tests. rewrite Hc. cbn [andb]. apply G.
Qed.

Lemma pending_currency_slot_keeps_the_intent_witness :
  c_intent
    (classify_parsed 0%Z (Z.max 6) (Some ITINERARY_PLANNING) 9%Z [] [] []
       (utf8 "around fifty") (utf8 "currency_amount" :: []))
  = CURRENCY_CONVERSION.
Proof.
  apply (@pending_currency_slot_keeps_the_intent Z 0%Z (Z.max 6)
           ITINERARY_PLANNING 9%Z [] [] [] (utf8 "around fifty")
           (utf8 "currency_amount") []).
  right. split; [reflexivity | vm_compute; reflexivity].
Defined.




(** X24: a plain call for help is never turned away: when the message is
    one of the generic help phrases the classifier does not answer
    out-of-scope, whatever the model answered, parsed or not, and
    whatever is pending. *)
Theorem generic_help_is_never_out_of_scope (float : Type) (zero : float)
    (at_least_06 : float -> float) (intent : option Intent) (conf : float)
    (upd : pydict) (mi : list str) (raw msg : str) (pending : list str) :
  _looks_like_generic_help msg = true ->
  intent_eqb
    (c_intent
       (classify_parsed zero at_least_06 intent conf upd mi raw msg pending))
    OUT_OF_SCOPE = false.
Proof.
  intros H. unfold classify_parsed.
  destruct intent as [i|]; [|reflexivity].
  rewrite H.
  match goal with
  | |- context [intent_eqb ?x OUT_OF_SCOPE && true] =>
    destruct (intent_eqb x OUT_OF_SCOPE) eqn:E
  end; cbn [andb c_intent]; [reflexivity | exact E].
Qed.

Lemma generic_help_is_never_out_of_scope_witness :
  intent_eqb
    (c_intent
       (classify_parsed 0%Z (Z.max 6) (Some OUT_OF_SCOPE) 2%Z [] [] []
          (utf8 "  Help me ") []))
    OUT_OF_SCOPE = false.
Proof.
  apply (@generic_help_is_never_out_of_scope Z 0%Z (Z.max 6)
           (Some OUT_OF_SCOPE) 2%Z [] [] [] (utf8 "  Help me ") []).
  vm_compute. reflexivity.
Defined.

(** ** Dates and the weather client *)

Lemma days_before_year_step (y : Z) :
  days_before_year (y + 1) = (days_before_year y + 365 + leap_day y)%Z.
Proof.
  unfold days_before_year, leap_day, is_leap.
  replace (y + 1 - 1)%Z with y by lia.
  destruct (Z.eqb_spec (y mod 4) 0); destruct (Z.eqb_spec (y mod 100) 0);
    destruct (Z.eqb_spec (y mod 400) 0); cbn [andb orb negb];
    Z.div_mod_to_equations; lia.
Qed.

Lemma days_before_year_mono (y y' : Z) :
  (y <= y')%Z -> (days_before_year y <= days_before_year y')%Z.
Proof.
  intros H. unfold days_before_year. Z.div_mod_to_equations. lia.
Qed.

Lemma month_cases (m : Z) :
  (1 <= m <= 12)%Z ->
  In m [1; 2; 3; 4; 5; 6; 7; 8; 9; 10; 11; 12]%Z.
Proof.
  intros H. cbn [In].
  assert (m = 1 \/ m = 2 \/ m = 3 \/ m = 4 \/ m = 5 \/ m = 6 \/ m = 7 \/ m = 8
          \/ m = 9 \/ m = 10 \/ m = 11 \/ m = 12)%Z by lia.
  intuition auto.
Qed.

Lemma valid_date_bounds (y m d : Z) :
  valid_date y m d = true ->
  (1 <= m <= 12)%Z /\ (1 <= d <= days_in_month y m)%Z.
Proof.
  unfold valid_date. intros H.
  repeat (apply andb_true_iff in H; destruct H as [H ?]).
  repeat match goal with
         | H : (_ <=? _)%Z = true |- _ => apply Z.leb_le in H
         end.
  lia.
Qed.

Lemma days_in_year (y m d : Z) :
  valid_date y m d = true ->
  (1 <= days_before_month y m + d <= 365 + leap_day y)%Z.
Proof.
  intros H. apply valid_date_bounds in H. destruct H as [Hm Hd].
  apply month_cases in Hm. unfold leap_day. revert Hd.
  unfold days_before_month, days_in_month.
  cbn [In] in Hm. destruct (is_leap y);
    repeat (destruct Hm as [<- | Hm]; [sum_months; lia|]); contradiction.
Qed.

Lemma days_before_month_mono (y m m' d : Z) :
  valid_date y m d = true -> (1 <= m' <= 12)%Z -> (m < m')%Z ->
  (days_before_month y m + d <= days_before_month y m')%Z.
Proof.
  intros H Hm' Hlt. apply valid_date_bounds in H. destruct H as [Hm Hd].
  apply month_cases in Hm. apply month_cases in Hm'. revert Hd Hlt.
  unfold days_before_month, days_in_month.
  cbn [In] in Hm, Hm'. destruct (is_leap y);
    repeat (destruct Hm as [<- | Hm];
            [repeat (destruct Hm' as [<- | Hm']; [sum_months; lia|]);
             contradiction|]);
    contradiction.
Qed.

Lemma toordinal_mono (a b : date) :
  valid a = true -> valid b = true -> date_ltb a b = false ->
  (toordinal b <= toordinal a)%Z.
Proof.
  unfold valid, date_ltb, toordinal. intros Ha Hb H.
  apply orb_false_iff in H. destruct H as [Hy H].
  apply Z.ltb_ge in Hy.
  pose proof (@days_in_year _ _ _ Ha) as Ia.
  pose proof (@days_in_year _ _ _ Hb) as Ib.
  destruct (Z.eqb_spec (year a) (year b)) as [Ey | Ny].
  - cbn [andb] in H. apply orb_false_iff in H. destruct H as [Hm H].
    apply Z.ltb_ge in Hm. rewrite Ey in *.
    destruct (Z.eqb_spec (month a) (month b)) as [Em | Nm].
    + cbn [andb] in H. apply Z.ltb_ge in H. rewrite Em. lia.
    + pose proof (@valid_date_bounds _ _ _ Ha) as [Ma Da].
      assert (Hlt : (month b < month a)%Z) by lia.
      pose proof (@days_before_month_mono (year b) (month b) (month a) (day b)
                    Hb Ma Hlt).
      lia.
  - assert (Hlt : (year b + 1 <= year a)%Z) by lia.
    apply days_before_year_mono in Hlt.
    rewrite days_before_year_step in Hlt. lia.
Qed.

Lemma date_ltb_irrefl (d : date) : date_ltb d d = false.
Proof.
  unfold date_ltb. rewrite !Z.ltb_irrefl, !Z.eqb_refl. reflexivity.
Qed.

(** X25: what the router lets through, the weather client accepts.  For
    a profile with a destination whose dates are dates of the calendar
    and which does not have an end date alone, a true answer of the
    forecast-window check means that the client passes its own checks
    and asks for a range of one to sixteen days at the stripped
    destination. *)
Theorem forecast_window_satisfies_weather_client (today : date)
    (trip : TripProfile) (dest : str) :
  destination trip = Some dest ->
  dest <> [] ->
  valid_dates trip ->
  (start_date trip = None -> end_date trip = None) ->
  is_within_open_meteo_forecast_window today trip 16 = true ->
  exists s e,
    WeatherClient.get_weather today trip = WeatherClient.Request (strip dest) s e
    /\ (1 <= days_between e s + 1 <= 16)%Z.
Proof.
  intros Hd Hne [Vs Ve] Hend Hw.
  unfold WeatherClient.get_weather, WeatherClient.FORECAST_HORIZON_DAYS. rewrite Hd.
  destruct dest as [|c dest']; [contradiction|].
  unfold is_within_open_meteo_forecast_window in Hw.
  destruct (start_date trip) as [s|] eqn:Es.
  - destruct (end_date trip) as [e|] eqn:Ee.
    + destruct (date_ltb e s) eqn:Lt; [discriminate|].
      destruct (date_ltb e today); [discriminate|].
      destruct (days_between s today >? 16)%Z; [discriminate|].
      destruct (days_between e today >? 16)%Z; [discriminate|].
      destruct (Z.gtb_spec (days_between e s + 1) 16) as [Hgt | Hle];
        [discriminate|].
      pose proof (toordinal_mono e s (Ve e eq_refl) (Vs s eq_refl) Lt) as Hm.
      assert (Hpos : (0 < days_between e s + 1)%Z)
        by (unfold days_between; lia).
      destruct (Z.leb_spec (days_between e s + 1) 0) as [H0 | H0]; [lia|].
      exists s, e. split; [reflexivity | lia].
    + assert (H1 : (days_between s s + 1 = 1)%Z)
        by (unfold days_between; lia).
      rewrite H1. exists s, s. split; [reflexivity | lia].
  - rewrite (Hend eq_refl).
    assert (H1 : (days_between today today + 1 = 1)%Z)
      by (unfold days_between; lia).
    rewrite H1. exists today, today. split; [reflexivity | lia].
Qed.

Lemma forecast_window_satisfies_weather_client_witness :
  exists s e,
    WeatherClient.get_weather today0
      (set_end_date (Some {| year := 2026; month := 11; day := 9 |})
         (set_start_date (Some {| year := 2026; month := 11; day := 5 |}) paris))
    = WeatherClient.Request (strip (utf8 "Paris")) s e
    /\ (1 <= days_between e s + 1 <= 16)%Z.
Proof.
  apply (@forecast_window_satisfies_weather_client today0
           (set_end_date (Some {| year := 2026; month := 11; day := 9 |})
              (set_start_date (Some {| year := 2026; month := 11; day := 5 |})
                 paris))
           (utf8 "Paris")).
  - reflexivity.
  - discriminate.
  - split; intros d H; injection H as <-; reflexivity.
  - discriminate.
  - vm_compute. reflexivity.
Defined.

(** X26: an end date alone can pass the router and fail at the client.
    With a destination, no start date and an end date sixteen days after
    today, the forecast-window check answers true, since it takes the
    end date for the start as well, while the client, which starts the
    range today, counts seventeen days and refuses the range as too
    long. *)
Theorem end_date_alone_passes_router_fails_client (today : date)
    (trip : TripProfile) (dest : str) (e : date) :
  destination trip = Some dest ->
  dest <> [] ->
  start_date trip = None ->
  end_date trip = Some e ->
  date_ltb e today = false ->
  days_between e today = 16%Z ->
  is_within_open_meteo_forecast_window today trip 16 = true
  /\ WeatherClient.get_weather today trip
     = WeatherClient.Refused
         (utf8 "Forecast range too long (Open-Meteo forecasts up to ~16 days).").
Proof.
  intros Hd Hne Hs He Hlt H16. split.
  - unfold is_within_open_meteo_forecast_window. rewrite Hs, He.
    rewrite date_ltb_irrefl, Hlt, H16.
    assert (H1 : (days_between e e + 1 = 1)%Z) by (unfold days_between; lia).
    rewrite H1. reflexivity.
  - unfold WeatherClient.get_weather, WeatherClient.FORECAST_HORIZON_DAYS.
    rewrite Hd, Hs, He, H16.
    destruct dest as [|c dest']; [contradiction | reflexivity].
Qed.

Lemma end_date_alone_passes_router_fails_client_witness :
  is_within_open_meteo_forecast_window today0
    (set_end_date (Some {| year := 2026; month := 11; day := 19 |}) paris) 16
  = true
  /\ WeatherClient.get_weather today0
       (set_end_date (Some {| year := 2026; month := 11; day := 19 |}) paris)
     = WeatherClient.Refused
         (utf8 "Forecast range too long (Open-Meteo forecasts up to ~16 days).").
Proof.
  apply (@end_date_alone_passes_router_fails_client today0
           (set_end_date (Some {| year := 2026; month := 11; day := 19 |}) paris)
           (utf8 "Paris") {| year := 2026; month := 11; day := 19 |}).
  - reflexivity.
  - discriminate.
  - reflexivity.
  - reflexivity.
  - reflexivity.
  - reflexivity.
Defined.

(** ** The slots a session waits for *)

(** A property of the pending slots holds after a turn, completed or
    not, as soon as every source of pending slots has it. *)
Section PendingSlots.

Variable A : list str -> Prop.
Variable env : Env.

Hypothesis A_nil : A [].
Hypothesis A_first : forall v, A v -> A (firstn 1 v).
Hypothesis A_goal : A [utf8 "goal"].
Hypothesis A_validator :
  forall i s, A (firstn 1 (v_missing_info (validate i s))).
Hypothesis A_infer : forall t i s, A (_infer_pending_from_assistant t i s).
Hypothesis A_decision :
  forall i m s d,
    decision_logic env i (validate i s) m s = Ok (Some d) ->
    A (firstn 1 (missing_info d)).

Lemma recover_slots (client : FallbackClient) (state : State) (msg : str)
    (ifl : option Intent) (recent : list Message) (error : option str)
    (fb : FallbackResult) :
  A (pending_missing_info state) ->
  recover client state msg ifl recent error = Ok fb ->
  A (f_pending_missing_info fb).
Proof.
  intros Hs. unfold recover.
  destruct (pending_missing_info state) as [|x l] eqn:Ep.
  - destruct (_ && _).
    + intros H. injection H as <-. exact A_goal.
    + destruct (if opt_is_goal ifl then ifl else _) as [g|].
      * destruct (negb (ok (validate g state))).
        -- intros H. injection H as <-. apply A_validator.
        -- destruct (client _ _ _ _ _) as [generated|e]; [|discriminate].
           destruct (strip generated); intros H; injection H as <-;
             [exact A_goal | exact A_nil].
      * destruct (client _ _ _ _ _) as [generated|e]; [|discriminate].
        destruct (strip generated); intros H; injection H as <-;
          [exact A_goal | exact A_nil].
  - intros H. injection H as <-. exact (A_first Hs).
Qed.

Lemma after_recovery_slots (fb : FallbackResult) (i : Intent) (st : State) :
  A (f_pending_missing_info fb) ->
  A (pending_missing_info (after_recovery fb i st)).
Proof.
  intros H. unfold after_recovery.
  assert (G : A match f_pending_missing_info fb with
                | [] => _infer_pending_from_assistant (message fb) i st
                | _ :: _ => firstn 1 (f_pending_missing_info fb)
                end).
  { destruct (f_pending_missing_info fb) eqn:E; [apply A_infer|].
    exact (A_first H). }
  destruct (opt_is_goal _); exact G.
Qed.

Lemma turn_slots (m : Z) (msg : str) (st : State) :
  A (pending_missing_info st) ->
  A (pending_missing_info (fst (turn env m msg st))).
Proof.
  intros Hst. unfold turn.
  destruct (classify env msg (_recent_messages st 6) (pending_missing_info st))
    as [ir|e0]; [|exact Hst].
  set (st1 := add_message m user msg st).
  set (upd := apply_updates (trip_profile st1) (extracted_updates ir)).
  assert (H1 : A (pending_missing_info (set_trip_profile (fst upd) st1))).
  { cbn [set_trip_profile pending_missing_info]. subst st1.
    rewrite pending_add_message. exact Hst. }
  destruct (snd upd); [|exact H1].
  set (st2 := _guardrail_roll_month_without_year_forward (today env) msg
                (set_trip_profile (fst upd) st1)).
  set (i := if intent_eqb (intent ir) CONSTRAINTS_UPDATE then _ else _).
  set (st3 := increment_turn _).
  assert (H3 : A (pending_missing_info st3)).
  { subst st3.
    assert (H2 : A (pending_missing_info st2)).
    { subst st2. rewrite pending_guardrail. exact H1. }
    destruct (is_goal i); [destruct (negb _)|]; exact H2. }
  destruct (decision_logic env i (validate i st3) msg st3) as [[d|]|e0] eqn:Hd;
    [| |exact H3].
  - set (st4 := if action_eqb (action d) ASK_CLARIFICATION then _ else _).
    assert (H4 : A (pending_missing_info st4)).
    { subst st4. destruct (action_eqb (action d) ASK_CLARIFICATION).
      - apply (A_decision _ _ _ Hd).
      - destruct (_ && _); cbn [pending_missing_info set_pending];
          [exact Hst | exact A_nil]. }
    set (ex := _execute_decision env d st4 i msg).
    assert (H5 : A (pending_missing_info (fst ex))).
    { subst ex. rewrite execute_decision_pending. exact H4. }
    destruct (match match snd ex with Ok _ => _ | Raise _ => _ end with
              | Ok _ => _ | Raise _ => _ end) as [[s5 a5]|e5] eqn:Hrec;
      [|exact H5].
    assert (H6 : A (pending_missing_info s5)).
    { destruct (match snd ex with Ok _ => _ | Raise _ => _ end) as [t0|e0].
      - injection Hrec as <- _. exact H5.
      - destruct (recover _ _ _ _ _ _) as [fb|e'] eqn:Hr; [|discriminate].
        injection Hrec as <- _. apply after_recovery_slots.
        apply (recover_slots _ _ _ _ _ _ H5 Hr). }
    destruct (if negb (action_eqb (action d) CALL_TOOL) then _ else _)
      as [a0|e6]; [|exact H6].
    cbn [fst]. rewrite pending_add_message.
    destruct (action_eqb (action d) GENERATE_RESPONSE &&
              Nat.eqb (length (pending_missing_info s5)) 0);
      [apply A_infer | exact H6].
  - destruct (recover _ _ _ _ _ _) as [fb|e'] eqn:Hr; [|exact H3].
    pose proof (recover_slots _ _ _ _ _ _ H3 Hr) as Hf.
    destruct (apply _ _ _ _ _) as [trust|e']; cbn [fst];
      rewrite ?pending_add_message; apply after_recovery_slots; exact Hf.
Qed.

End PendingSlots.

Lemma slots_known_first (v : list str) :
  slots_known v -> slots_known (firstn 1 v).
Proof.
  intros H. destruct H as [|x l Hx Hl]; cbn [firstn]; [constructor|].
  constructor; [exact Hx | constructor].
Qed.

Lemma slots_known_validator (i : Intent) (s : State) :
  slots_known (v_missing_info (validate i s)).
Proof.
  unfold validate. cbn [v_missing_info].
  destruct i; destruct (truthy (destination (trip_profile s)));
    try destruct (_has_dates_or_duration s); cbn [app]; known_slot.
Qed.

Lemma slots_known_infer (t : str) (i : Intent) (s : State) :
  slots_known (_infer_pending_from_assistant t i s).
Proof.
  unfold _infer_pending_from_assistant.
  destruct (_ || _); [constructor|].
  destruct (is_goal i && negb (intent_eqb i CURRENCY_CONVERSION)).
  - destruct (v_missing_info (validate i s)) as [|x l] eqn:E.
    + destruct (intent_eqb i CURRENCY_CONVERSION);
        repeat match goal with
               | |- context [if ?b then _ else _] => destruct b
               end; known_slot.
    + apply slots_known_first. rewrite <- E. apply slots_known_validator.
  - destruct (intent_eqb i CURRENCY_CONVERSION);
      repeat match goal with
             | |- context [if ?b then _ else _] => destruct b
             end; known_slot.
Qed.

Lemma decide_missing_info (today : date) (i : Intent) (v : ValidationResult)
    (msg : str) (s : State) (d : Decision) :
  decide today i v msg s = Ok d ->
  missing_info d = [] \/ missing_info d = [utf8 "goal"]
  \/ missing_info d = v_missing_info v
  \/ missing_info d = [utf8 "currency_amount"]
  \/ missing_info d = [utf8 "currency_pair"].
Proof.
  intros Hd. destruct (ok v) eqn:Hok.
  - destruct i;
      try (unfold decide in Hd; simpl in Hd; rewrite ?Hok in Hd; simpl in Hd;
           injection Hd as <-; cbn [missing_info]; auto; fail).
    + destruct (decide_weather_branch today v msg s Hok)
        as [[n H] | [_ [_ [_ H]]]];
        rewrite H in Hd; injection Hd as <-; left; reflexivity.
    + destruct (decide_currency_branch today v msg s Hok)
        as [[mi [n [Hmi H]]] | [q [_ H]]];
        rewrite H in Hd; injection Hd as <-; cbn [missing_info];
        [destruct Hmi as [-> | ->]; auto | left; reflexivity].
  - destruct i;
      try (rewrite (@decide_not_ok today _ v msg s Hok) in Hd;
           [injection Hd as <-; cbn [missing_info]; auto
           | discriminate | discriminate]; fail);
      unfold decide in Hd; simpl in Hd; injection Hd as <-;
      cbn [missing_info]; auto.
Qed.

Lemma slots_known_decide (today : date) (i : Intent) (msg : str) (s : State)
    (d : Decision) :
  decide today i (validate i s) msg s = Ok d ->
  slots_known (missing_info d).
Proof.
  intros Hd. apply decide_missing_info in Hd.
  destruct Hd as [-> | [-> | [-> | [-> | ->]]]];
    try apply slots_known_validator; known_slot.
Qed.

Lemma known_slots_questions :
  Forall (fun x => str_eqb (build_clarification_question [x]) generic_question = false)
    known_slots.
Proof.
  assert (H : forallb
                (fun x =>
                   negb (str_eqb (build_clarification_question [x])
                           generic_question))
                known_slots = true) by (vm_compute; reflexivity).
  rewrite forallb_forall in H. apply Forall_forall. intros x Hx.
  apply negb_true_iff. apply H. exact Hx.
Qed.

Lemma turn_keeps_slots_known (env : Env) (m : Z) (msg : str) (st : State) :
  decision_logic env = the_decision_logic (today env) ->
  slots_known (pending_missing_info st) ->
  slots_known (pending_missing_info (fst (turn env m msg st))).
Proof.
  intros Hdl. apply turn_slots.
  - constructor.
  - apply slots_known_first.
  - known_slot.
  - intros i s. apply slots_known_first. apply slots_known_validator.
  - apply slots_known_infer.
  - intros i m0 s d. rewrite Hdl. unfold the_decision_logic.
    destruct (decide (today env) i (validate i s) m0 s) as [d'|e] eqn:E;
      [|discriminate].
    intros H. injection H as <-. apply slots_known_first.
    apply (slots_known_decide _ _ _ _ E).
Qed.

(** X27: with the router of the repository a session only ever waits for
    slots the clarification helper has a question of its own for.  If the
    pending slots of every session of the store are known ones, they are
    so after a turn, completed or not, whatever the classifier, the tools
    and the generation answer; and for a known slot the question asked is
    never the generic one. *)
Theorem pending_slots_have_their_own_question (env : Env)
    (self : StateManager) (sid msg : str) :
  decision_logic env = the_decision_logic (today env) ->
  Forall (fun kv => slots_known (pending_missing_info (snd kv))) (_states self) ->
  Forall (fun kv => slots_known (pending_missing_info (snd kv)))
    (_states (fst (handle_turn env self sid msg)))
  /\ (forall x rest,
         slots_known (x :: rest) ->
         str_eqb (build_clarification_question (x :: rest)) generic_question
         = false).
Proof.
  intros Hdl H. split.
  - unfold handle_turn. cbn [fst _states].
    assert (Hc : slots_known (pending_missing_info (snd (get_or_create self sid)))
                 /\ Forall (fun kv => slots_known (pending_missing_info (snd kv)))
                      (_states (fst (get_or_create self sid)))).
    { unfold get_or_create.
      destruct (dict_get sid (_states self)) as [st|] eqn:E; cbn [fst snd _states].
      - split; [|exact H].
        apply (dict_get_Forall (fun s => slots_known (pending_missing_info s))
                 sid H E).
      - split; [constructor|].
        apply (store_Forall (fun s => slots_known (pending_missing_info s)));
          [constructor | exact H]. }
    destruct Hc as [Hs Hd].
    apply (store_Forall (fun s => slots_known (pending_missing_info s)));
      [|exact Hd].
    apply turn_keeps_slots_known; assumption.
  - intros x rest Hk. inversion Hk as [|? ? Hx _]; subst.
    pose proof known_slots_questions as Q. rewrite Forall_forall in Q.
    apply (Q x Hx).
Qed.

Lemma pending_slots_have_their_own_question_witness :
  Forall (fun kv => slots_known (pending_missing_info (snd kv)))
    (_states (fst (handle_turn env_packing
                     {| _states := [(utf8 "s1", awaiting_amount)];
                        _max_history_messages := 12 |}
                     (utf8 "s1") packing_question)))
  /\ (forall x rest,
         slots_known (x :: rest) ->
         str_eqb (build_clarification_question (x :: rest)) generic_question
         = false).
Proof.
  apply (@pending_slots_have_their_own_question env_packing
           {| _states := [(utf8 "s1", awaiting_amount)];
              _max_history_messages := 12 |}
           (utf8 "s1") packing_question).
  - reflexivity.
  - constructor; [|constructor]. known_slot.
Defined.

(** ** Intent values *)

(** X28: the intent names round-trip.  The value of every intent parses
    back to that intent, and a value parses to an intent only if it is
    the string that is the intent's value, letter for letter: no other
    string and no value of another type is taken for an intent. *)
Theorem intent_values_round_trip :
  (forall i, _parse_intent (VStr (intent_value i)) = Some i)
  /\ (forall v i, _parse_intent v = Some i -> v = VStr (intent_value i))
  /\ (forall i j, intent_value i = intent_value j -> i = j).
Proof.
  assert (R : forall i, _parse_intent (VStr (intent_value i)) = Some i)
    by (intros i; destruct i; vm_compute; reflexivity).
  split; [exact R|]. split.
  - intros v i H. destruct v; try discriminate H.
    unfold _parse_intent in H. apply find_some in H. destruct H as [_ H].
    apply str_eqb_eq in H. rewrite H. reflexivity.
  - intros i j H. pose proof (R i) as Hi. rewrite H, (R j) in Hi.
    injection Hi as Hi. symmetry. exact Hi.
Qed.

(** ** Texts on record *)

Lemma stripped_text_filled (v : pyval) (t : str) :
  stripped_text v = Some t -> t <> [].
Proof.
  unfold stripped_text. destruct v; try discriminate.
  destruct (strip s) as [|c t'] eqn:E; [discriminate|].
  intros H. injection H as <-. discriminate.
Qed.

Lemma text_update_filled (v : pyval) (old : option str) :
  filled old = true -> filled (text_update v old) = true.
Proof.
  intros H. unfold text_update.
  destruct (stripped_text v) as [t|] eqn:E; [|exact H].
  apply stripped_text_filled in E. destruct t; [contradiction | reflexivity].
Qed.

Lemma merge_strings_filled (items : list pyval) :
  forall cur,
    Forall (fun x => x <> []) cur ->
    Forall (fun x => x <> []) (merge_strings cur items).
Proof.
  induction items as [|v rest IH]; intros cur H; cbn [merge_strings];
    [exact H|].
  destruct v; try (apply IH; exact H).
  destruct (strip s) as [|c t] eqn:E; [apply IH; exact H|].
  destruct (mem_str (c :: t) cur); apply IH; [exact H|].
  apply Forall_app. split; [exact H|]. constructor; [discriminate | constructor].
Qed.

Lemma merge_field_filled (v : pyval) (cur : list str) :
  Forall (fun x => x <> []) cur -> Forall (fun x => x <> []) (merge_field cur v).
Proof.
  intros H. destruct v; try exact H. apply merge_strings_filled. exact H.
Qed.

Lemma apply_updates_no_blank_text (p : TripProfile) (updates : pydict) :
  no_blank_text p -> no_blank_text (fst (apply_updates p updates)).
Proof.
  intros [Hd [Hb [Ht [Hp [Hi Hc]]]]]. unfold apply_updates.
  assert (Hd' : filled (text_update (get "destination" updates) (destination p))
                = true) by (apply text_update_filled; exact Hd).
  destruct updates as [|kv updates']; [repeat split; assumption|].
  set (upd := kv :: updates') in *.
  destruct (date_update (get "start_date" upd)) as [sd|e];
    [|repeat split; assumption].
  destruct (date_update (get "end_date" upd)) as [ed|e];
    [|repeat split; assumption].
  unfold no_blank_text.
  cbn [fst destination budget travelers pace interests constraints].
  split; [exact Hd'|].
  split; [apply text_update_filled; exact Hb|].
  split; [apply text_update_filled; exact Ht|].
  split; [apply text_update_filled; exact Hp|].
  split; apply merge_field_filled; assumption.
Qed.

Lemma rolled_no_blank_text (today : date) (msg : str) (p : TripProfile) :
  no_blank_text p -> no_blank_text (rolled today msg p).
Proof.
  intros H. unfold rolled, _guardrail_roll_month_without_year_forward.
  cbn [trip_profile set_trip_profile].
  repeat match goal with
         | |- context [if ?b then _ else _] => destruct b
         | |- context [match ?x with _ => _ end] => destruct x
         end; exact H.
Qed.

Lemma turn_keeps_no_blank_text (env : Env) (m : Z) (msg : str) (st : State) :
  no_blank_text (trip_profile st) ->
  no_blank_text (trip_profile (fst (turn env m msg st))).
Proof.
  intros H. destruct (turn_profile_cases env m msg st) as [upd [E | [E | E]]];
    rewrite E; [exact H | apply apply_updates_no_blank_text; exact H |].
  apply rolled_no_blank_text. apply apply_updates_no_blank_text. exact H.
Qed.

(** X29: no empty text gets on record.  If in every session of the
    store the destination, budget, travelers and pace are unset or
    non-empty and no interest or constraint is empty, the same is true
    after a turn, completed or not, whatever the classifier extracted;
    a new session starts that way.  On such a profile the validator's
    test of the destination is a test for presence. *)
Theorem no_blank_text_on_record (env : Env) (self : StateManager)
    (sid msg : str) :
  Forall (fun kv => no_blank_text (trip_profile (snd kv))) (_states self) ->
  Forall (fun kv => no_blank_text (trip_profile (snd kv)))
    (_states (fst (handle_turn env self sid msg)))
  /\ (forall p, no_blank_text p -> truthy (destination p) = is_some (destination p)).
Proof.
  intros H. split.
  - unfold handle_turn. cbn [fst _states].
    assert (N : no_blank_text (trip_profile (new_state sid))).
    { unfold no_blank_text. cbn. repeat split; constructor. }
    assert (Hc : no_blank_text (trip_profile (snd (get_or_create self sid)))
                 /\ Forall (fun kv => no_blank_text (trip_profile (snd kv)))
                      (_states (fst (get_or_create self sid)))).
    { unfold get_or_create.
      destruct (dict_get sid (_states self)) as [st|] eqn:E; cbn [fst snd _states].
      - split; [|exact H].
        apply (dict_get_Forall (fun s => no_blank_text (trip_profile s)) sid H E).
      - split; [exact N|].
        apply (store_Forall (fun s => no_blank_text (trip_profile s)));
          [exact N | exact H]. }
    destruct Hc as [Hs Hd].
    apply (store_Forall (fun s => no_blank_text (trip_profile s))); [|exact Hd].
    apply turn_keeps_no_blank_text. exact Hs.
  - intros p [Hd _]. destruct (destination p) as [[|c t]|];
      [discriminate Hd | reflexivity | reflexivity].
Qed.

Lemma no_blank_text_on_record_witness :
  Forall (fun kv => no_blank_text (trip_profile (snd kv)))
    (_states (fst (handle_turn (env_with ITINERARY_PLANNING food_twice
                                  (Ok (utf8 "Day 1: the Forum.")) silent_client)
                     {| _states := [(utf8 "s3", in_paris)];
                        _max_history_messages := 12 |}
                     (utf8 "s3") (utf8 "plan three days"))))
  /\ (forall p, no_blank_text p -> truthy (destination p) = is_some (destination p)).
Proof.
  apply (@no_blank_text_on_record
           (env_with ITINERARY_PLANNING food_twice
              (Ok (utf8 "Day 1: the Forum.")) silent_client)
           {| _states := [(utf8 "s3", in_paris)]; _max_history_messages := 12 |}
           (utf8 "s3") (utf8 "plan three days")).
  constructor; [|constructor].
  unfold no_blank_text. cbn. repeat split; constructor.
Defined.

(** ** Names that never reach their alias *)

(** X30: a word of three letters is its own code.  Whenever what is left
    of a token, once stripped, lower-cased and rid of every character
    but letters and currency signs, is three letters long, the normaliser
    answers these letters in capitals and does not look at the alias
    table; so the names [yen] and [nis] give [YEN] and [NIS], not the
    [JPY] and [ILS] the table holds for them. *)
Theorem three_letter_words_bypass_the_aliases (token : str) :
  token <> [] ->
  length (cleaned token) = 3%nat ->
  forallb is_alpha (cleaned token) = true ->
  _normalize_currency_token token = Some (upper (cleaned token))
  /\ (cleaned token = utf8 "yen" ->
      dict_get (cleaned token) _ALIASES = Some (utf8 "JPY")
      /\ _normalize_currency_token token = Some (utf8 "YEN"))
  /\ (cleaned token = utf8 "nis" ->
      dict_get (cleaned token) _ALIASES = Some (utf8 "ILS")
      /\ _normalize_currency_token token = Some (utf8 "NIS")).
Proof.
  intros Hne Hl Ha.
  assert (G : _normalize_currency_token token = Some (upper (cleaned token))).
  { unfold _normalize_currency_token. destruct token as [|x token']; [contradiction|].
    fold (cleaned (x :: token')).
    destruct (cleaned (x :: token')) as [|y t'] eqn:E; [discriminate Hl|].
    rewrite Ha. apply Nat.eqb_eq in Hl. rewrite Hl. reflexivity. }
  split; [exact G|]. rewrite G.
  split; intros E; rewrite E; split; vm_compute; reflexivity.
Qed.

Lemma three_letter_words_bypass_the_aliases_witness :
  _normalize_currency_token (utf8 " Yen. ") = Some (upper (cleaned (utf8 " Yen. ")))
  /\ (cleaned (utf8 " Yen. ") = utf8 "yen" ->
      dict_get (cleaned (utf8 " Yen. ")) _ALIASES = Some (utf8 "JPY")
      /\ _normalize_currency_token (utf8 " Yen. ") = Some (utf8 "YEN"))
  /\ (cleaned (utf8 " Yen. ") = utf8 "nis" ->
      dict_get (cleaned (utf8 " Yen. ")) _ALIASES = Some (utf8 "ILS")
      /\ _normalize_currency_token (utf8 " Yen. ") = Some (utf8 "NIS")).
Proof.
  apply (@three_letter_words_bypass_the_aliases (utf8 " Yen. ")).
  - discriminate.
  - reflexivity.
  - reflexivity.
Defined.
